(** * LightDM X server supervision core: a shallow embedding

    The development embeds three translation units of the display manager:
    - [src/accounts.c]            (module [Accounts]),
    - [src/seat-xdmcp-session.c]  (module [SeatXDMCPSession]),
    - [src/x-server-local.c]      (module [XServerLocal]),
    together with the handful of GLib and libc routines they call (module
    [GLib]).  C strings are [string], a nullable pointer is an [option],
    [guint]/[gint] are [Z] with the 32-bit wrap-around written out, the
    process environment table is a [gmap string string], and the global
    list of display numbers is a [list Z] (order and duplicates matter for
    [g_list_delete_link]).  Calls into the operating system (files, [kill],
    [getenv], spawning) are answered by an oracle record. *)

From Stdlib Require Import ZArith Ascii String DecimalString Bool Lia.
From stdpp Require Import base option strings gmap list.

Local Open Scope Z_scope.

(* ===================================================================== *)
(** * GLib and libc routines used by the sources *)
(* ===================================================================== *)

Module GLib.

(** ** Fixed-width integers *)

(** Conversion of a mathematical integer to [guint] (32 bits). *)
Definition to_guint (z : Z) : Z := z mod 2 ^ 32.

(** Conversion of a mathematical integer to [gint] (32 bits, two's
    complement). *)
Definition to_gint (z : Z) : Z := (z + 2 ^ 31) mod 2 ^ 32 - 2 ^ 31.

(** Saturation to the range of a 64-bit [long], as [strtol] does. *)
Definition clamp_long (z : Z) : Z := Z.max (- 2 ^ 63) (Z.min (2 ^ 63 - 1) z).

(** ** Characters *)

Definition ascii_eqb (a b : ascii) : bool := Ascii.eqb a b.

(** [g_ascii_isspace]: space, tab, line feed, form feed, carriage return
    (GLib leaves the vertical tab out). *)
Definition g_ascii_isspace (c : ascii) : bool :=
  let n := N_of_ascii c in
  (n =? 32)%N || (n =? 9)%N || (n =? 10)%N || (n =? 12)%N || (n =? 13)%N.

(** [isspace] of the C locale: as above plus the vertical tab. *)
Definition isspace (c : ascii) : bool :=
  g_ascii_isspace c || (N_of_ascii c =? 11)%N.

(** Value of a decimal digit, if the character is one. *)
Definition digit_value (c : ascii) : option Z :=
  let n := N_of_ascii c in
  if ((48 <=? n) && (n <=? 57))%N then Some (Z.of_N n - 48) else None.

(** ** Strings *)

(** [strncmp (s, needle, strlen (needle)) == 0]. *)
Fixpoint starts_with (needle s : string) : bool :=
  match needle with
  | EmptyString => true
  | String x needle' =>
      match s with
      | String y s' => ascii_eqb x y && starts_with needle' s'
      | EmptyString => false
      end
  end.

(** [strstr (hay, needle) != NULL]. *)
Fixpoint contains (needle hay : string) : bool :=
  starts_with needle hay
  || match hay with
     | EmptyString => false
     | String _ hay' => contains needle hay'
     end.

(** [strchr (s, c) != NULL] for a character other than NUL. *)
Fixpoint mem_char (c : ascii) (s : string) : bool :=
  match s with
  | EmptyString => false
  | String x s' => ascii_eqb x c || mem_char c s'
  end.

(** [g_str_has_prefix (str, prefix)]. *)
Definition g_str_has_prefix (str prefix : string) : bool :=
  starts_with prefix str.

(** [str + n]: the string without its first [n] characters. *)
Fixpoint skip (n : nat) (s : string) : string :=
  match n, s with
  | O, _ => s
  | S n', String _ s' => skip n' s'
  | S _, EmptyString => EmptyString
  end.

(** [g_strchug]: drop leading white space. *)
Fixpoint g_strchug (s : string) : string :=
  match s with
  | String c s' => if g_ascii_isspace c then g_strchug s' else s
  | EmptyString => EmptyString
  end.

(** [g_strchomp]: drop trailing white space. *)
Fixpoint g_strchomp (s : string) : string :=
  match s with
  | EmptyString => EmptyString
  | String c s' =>
      let r := g_strchomp s' in
      if g_ascii_isspace c && String.eqb r EmptyString then EmptyString
      else String c r
  end.

(** [g_strstrip (s)] is [g_strchomp (g_strchug (s))]. *)
Definition g_strstrip (s : string) : string := g_strchomp (g_strchug s).

(** The digits read by [strtol] in base 10, accumulated left to right. *)
Fixpoint strtol_digits (acc : Z) (s : string) : Z :=
  match s with
  | String c s' =>
      match digit_value c with
      | Some d => strtol_digits (10 * acc + d) s'
      | None => acc
      end
  | EmptyString => acc
  end.

Fixpoint skip_isspace (s : string) : string :=
  match s with
  | String c s' => if isspace c then skip_isspace s' else s
  | EmptyString => EmptyString
  end.

(** [strtol (s, NULL, 10)]: white space, an optional sign, digits; the
    value saturates at the bounds of [long]. *)
Definition strtol (s : string) : Z :=
  match skip_isspace s with
  | String "-" s' => clamp_long (- strtol_digits 0 s')
  | String "+" s' => clamp_long (strtol_digits 0 s')
  | s' => clamp_long (strtol_digits 0 s')
  end.

(** [atoi (s)], that is [(int) strtol (s, NULL, 10)]: text that does not
    start with a number yields 0. *)
Definition atoi (s : string) : Z := to_gint (strtol s).

(** The text printed by the [%d] directive for an [int]. *)
Definition fmt_d (z : Z) : string := NilZero.string_of_int (Z.to_int z).

(** ** [g_strsplit] for a one-character delimiter *)

(** Tokens of a non-empty remainder: the first token and the others.
    [limit] is the number of tokens that may still be produced
    ([None]: no limit); the last permitted token takes the whole
    remainder. *)
Fixpoint strsplit_go (d : ascii) (limit : option nat) (s : string)
  : string * list string :=
  match s with
  | EmptyString => (EmptyString, [])
  | String c s' =>
      let may_split :=
        match limit with
        | None => true
        | Some k => (1 <? k)%nat
        end in
      if ascii_eqb c d && may_split then
        let '(t, ts) := strsplit_go d (Nat.pred <$> limit) s' in
        (EmptyString, t :: ts)
      else
        let '(t, ts) := strsplit_go d limit s' in
        (String c t, ts)
  end.

(** [g_strsplit (string, delimiter, max_tokens)] on a non-NULL string.
    [max_tokens < 1] splits completely; the empty string gives the empty
    vector. *)
Definition g_strsplit (s : string) (d : ascii) (max_tokens : Z)
  : list string :=
  match s with
  | EmptyString => []
  | _ =>
      let limit :=
        if max_tokens <? 1 then None else Some (Z.to_nat max_tokens) in
      let '(t, ts) := strsplit_go d limit s in
      t :: ts
  end.

(** ** Precondition checks

    A GLib routine guarded by [g_return_val_if_fail] logs a critical
    message and returns its failure value when a caller breaks the
    precondition (and the caller's behaviour is then undefined as far as
    GLib's documentation goes).  The routines below return the value
    together with the criticals they logged. *)

Inductive critical := Critical (func assertion : string).

(** [g_strsplit] applied to a possibly-NULL string. *)
Definition g_strsplit_nullable (s : option string) (d : ascii)
    (max_tokens : Z) : option (list string) * list critical :=
  match s with
  | Some s => (Some (g_strsplit s d max_tokens), [])
  | None => (None, [Critical "g_strsplit" "string != NULL"])
  end.

(** [g_strv_length] applied to a possibly-NULL vector. *)
Definition g_strv_length_nullable (v : option (list string))
  : Z * list critical :=
  match v with
  | Some v => (Z.of_nat (length v), [])
  | None => (0, [Critical "g_strv_length" "str_array != NULL"])
  end.

(** The arguments of a NULL-terminated variable argument list: those
    before the first NULL. *)
Fixpoint va_args (args : list (option string)) : list string :=
  match args with
  | Some a :: rest => a :: va_args rest
  | _ => []
  end.

(** ** [g_build_filename] *)

Definition dir_sep : ascii := "/"%char.

(** Leading run of separators and the rest. *)
Fixpoint leading_seps (s : string) : string * string :=
  match s with
  | String c s' =>
      if ascii_eqb c dir_sep then
        let '(l, r) := leading_seps s' in (String c l, r)
      else (EmptyString, s)
  | EmptyString => (EmptyString, EmptyString)
  end.

(** The string without its trailing separators, and that trailing run. *)
Fixpoint trailing_seps (s : string) : string * string :=
  match s with
  | EmptyString => (EmptyString, EmptyString)
  | String c s' =>
      let '(body, tr) := trailing_seps s' in
      if ascii_eqb c dir_sep && String.eqb body EmptyString
      then (EmptyString, String c tr)
      else (String c body, tr)
  end.

(** State of the loop of [g_build_path_va]. *)
Record build_state := BuildState {
  bs_result : string;
  bs_is_first : bool;
  bs_have_leading : bool;
  bs_single_element : option string;
  bs_last_trailing : string
}.

(** One iteration of the loop of [g_build_path_va] with separator "/". *)
Definition build_step (st : build_state) (element : string) : build_state :=
  match element with
  | EmptyString => st
  | _ =>
      let '(lead, start) := leading_seps element in
      let '(middle, trail) := trailing_seps start in
      let last_trailing :=
        match middle with EmptyString => element | _ => trail end in
      let '(result, single) :=
        if bs_have_leading st then (bs_result st, None)
        else (bs_result st +:+ lead,
              match middle with
              | EmptyString => Some element
              | _ => bs_single_element st
              end) in
      match middle with
      | EmptyString =>
          BuildState result (bs_is_first st) true single last_trailing
      | _ =>
          let result :=
            if bs_is_first st then result
            else result +:+ String dir_sep EmptyString in
          BuildState (result +:+ middle) false true single last_trailing
      end
  end.

(** [g_build_filename (e1, ..., NULL)]. *)
Definition g_build_filename (elements : list string) : string :=
  let st :=
    fold_left build_step elements
      (BuildState EmptyString true false None EmptyString) in
  match bs_single_element st with
  | Some e => e
  | None => bs_result st +:+ bs_last_trailing st
  end.

End GLib.


(* ===================================================================== *)
(** * [src/accounts.c] *)
(* ===================================================================== *)

Module Accounts.

(** A record of the user directory ([CommonUser], common/user-list.c). *)
Record CommonUser := {
  cu_name : string;
  cu_uid : Z;
  cu_gid : Z;
  cu_home_directory : string;
  cu_shell : string
}.

(** [struct UserPrivate]. *)
Record User := { common_user : CommonUser }.

(** What a call did besides returning: criticals logged by
    [g_return_val_if_fail], and queries sent to the user directory. *)
Inductive effect :=
| Failed (c : GLib.critical)
| DirectoryLookup (username : string).

Section Directory.

(** [common_user_list_get_user_by_name (common_user_list_get_instance (), _)]. *)
Variable common_user_list_get_user_by_name : string -> option CommonUser.

Definition accounts_get_user_by_name (username : option string)
  : option User * list effect :=
  match username with
  | None =>
      (None,
       [Failed (GLib.Critical "accounts_get_user_by_name" "username != NULL")])
  | Some username =>
      match common_user_list_get_user_by_name username with
      | None => (None, [DirectoryLookup username])
      | Some common_user =>
          (Some {| common_user := common_user |}, [DirectoryLookup username])
      end
  end.


End Directory.

Definition user_get_name (user : option User) : option string :=
  match user with
  | None => None
  | Some u => Some (cu_name (common_user u))
  end.

(** Whether a call queried the user directory. *)
Definition consulted (es : list effect) : bool :=
  existsb (fun e => match e with DirectoryLookup _ => true | _ => false end) es.

(** The other read accessors: each returns NULL (or 0) for a NULL user and
    the field of the wrapped directory record otherwise.  As for
    [user_get_name], only the value returned is modelled: the critical
    that the failed [user != NULL] check logs is not recorded. *)
Definition user_get_uid (user : option User) : Z :=
  match user with
  | None => 0
  | Some u => cu_uid (common_user u)
  end.

Definition user_get_gid (user : option User) : Z :=
  match user with
  | None => 0
  | Some u => cu_gid (common_user u)
  end.

Definition user_get_home_directory (user : option User) : option string :=
  match user with
  | None => None
  | Some u => Some (cu_home_directory (common_user u))
  end.

Definition user_get_shell (user : option User) : option string :=
  match user with
  | None => None
  | Some u => Some (cu_shell (common_user u))
  end.

End Accounts.

(* ===================================================================== *)
(** * [src/seat-xdmcp-session.c] *)
(* ===================================================================== *)

Module SeatXDMCPSession.

(** An X authority record (x-authority.c); opaque to this unit. *)
Record XAuthority := { xa_name : string; xa_data : string }.

(** The XDMCP session a seat services: what the getters
    [xdmcp_session_get_authority], [_get_address] (already rendered by
    [g_inet_address_to_string]) and [_get_display_number] return. *)
Record XDMCPSession := {
  xs_authority : option XAuthority;
  xs_address : string;
  xs_display_number : Z
}.

(** A remote X server object.  [xr_object] is the identity of the heap
    object: two handles denote the same object iff they carry the same
    identity. *)
Record XServerRemote := {
  xr_object : nat;
  xr_hostname : string;
  xr_display_number : Z;
  xr_authority : option XAuthority
}.

(** [struct SeatXDMCPSessionPrivate]. *)
Record SeatXDMCPSessionPrivate := {
  session : XDMCPSession;
  x_server : option XServerRemote
}.

(** The user session handed to [create_display_server]; only its type is
    read. *)
Record Session := { session_type : string }.

(** The object heap: the identity the next [g_object_new] hands out. *)
Definition heap := nat.

Definition x_server_remote_new (h : heap) (hostname : string) (number : Z)
    (authority : option XAuthority) : XServerRemote * heap :=
  ({| xr_object := h; xr_hostname := hostname;
      xr_display_number := number; xr_authority := authority |}, S h).

(** [seat_xdmcp_session_new]: the seat starts without a server. *)
Definition seat_xdmcp_session_new (s : XDMCPSession) : SeatXDMCPSessionPrivate :=
  {| session := s; x_server := None |}.

Definition seat_xdmcp_session_create_display_server
    (h : heap) (seat : SeatXDMCPSessionPrivate) (s : Session)
  : option XServerRemote * SeatXDMCPSessionPrivate * heap :=
  if negb (String.eqb (session_type s) "x") then (None, seat, h)
  else
    match x_server seat with
    | Some _ => (None, seat, h)
    | None =>
        let authority := xs_authority (session seat) in
        let host := xs_address (session seat) in
        let '(server, h') :=
          x_server_remote_new h host (xs_display_number (session seat)) authority in
        (Some server, {| session := session seat; x_server := Some server |}, h')
    end.

(** A seat serving a sequence of requests, oldest first: the answers and
    the final seat. *)
Fixpoint serve (h : heap) (seat : SeatXDMCPSessionPrivate) (reqs : list Session)
  : list (option XServerRemote) * SeatXDMCPSessionPrivate * heap :=
  match reqs with
  | [] => ([], seat, h)
  | s :: reqs' =>
      let '(r, seat', h') := seat_xdmcp_session_create_display_server h seat s in
      let '(rs, seat'', h'') := serve h' seat' reqs' in
      (r :: rs, seat'', h'')
  end.

End SeatXDMCPSession.

(* ===================================================================== *)
(** * [src/x-server-local.c] *)
(* ===================================================================== *)

Module XServerLocal.

Import GLib.
Definition XAuthority : Type := SeatXDMCPSession.XAuthority.

(** ** Collaborators *)

(** [LogMode] of process.h. *)
Inductive LogMode := LOG_MODE_APPEND | LOG_MODE_BACKUP_AND_TRUNCATE.

(** The functions a [ProcessRunFunc] can point to in this unit. *)
Inductive ProcessRunFunc := x_server_local_run.

(** Modelled from the spec: [Process] of process.c, which is not part of
    the sources at hand.  Section 4.5 describes it as the owner of one
    subprocess configured through [set_command], [set_env],
    [set_log_file] and [set_clear_environment]; the fields below are what
    those setters store. *)
Record Process := {
  run_func : ProcessRunFunc;
  clear_environment : bool;
  log_file : option string;
  log_stdout : bool;
  log_mode : LogMode;
  process_command : option string;
  process_env : gmap string string
}.

Definition process_new (run_cb : ProcessRunFunc) : Process :=
  {| run_func := run_cb; clear_environment := false; log_file := None;
     log_stdout := false; log_mode := LOG_MODE_APPEND;
     process_command := None; process_env := ∅ |}.

Definition process_set_clear_environment (p : Process) (b : bool) : Process :=
  {| run_func := run_func p; clear_environment := b; log_file := log_file p;
     log_stdout := log_stdout p; log_mode := log_mode p;
     process_command := process_command p; process_env := process_env p |}.

Definition process_set_log_file (p : Process) (path : string)
    (stdout : bool) (mode : LogMode) : Process :=
  {| run_func := run_func p; clear_environment := clear_environment p;
     log_file := Some path; log_stdout := stdout; log_mode := mode;
     process_command := process_command p; process_env := process_env p |}.

Definition process_set_command (p : Process) (c : string) : Process :=
  {| run_func := run_func p; clear_environment := clear_environment p;
     log_file := log_file p; log_stdout := log_stdout p;
     log_mode := log_mode p;
     process_command := Some c; process_env := process_env p |}.

Definition process_set_env (p : Process) (name value : string) : Process :=
  {| run_func := run_func p; clear_environment := clear_environment p;
     log_file := log_file p; log_stdout := log_stdout p;
     log_mode := log_mode p;
     process_command := process_command p;
     process_env := <[name := value]> (process_env p) |}.

(** Modelled from the spec: the environment the child of a [Process] is
    executed with (process.c, not part of the sources at hand).  Section
    4.5: with [set_clear_environment (true)] the "environment is fully
    scrubbed; only whitelisted variables pass through", that is, the
    child sees the variables given to [set_env] and nothing else;
    without it the parent's variables remain underneath. *)
Definition process_exec_environment (parent : string -> option string)
    (p : Process) (name : string) : option string :=
  match process_env p !! name with
  | Some v => Some v
  | None => if clear_environment p then None else parent name
  end.

(** Result of [kill (pid, 0)]: success, or failure with an [errno]. *)
Inductive kill_result := KillOk | KillError (errno : Z).

Definition ESRCH : Z := 3.

(** The answers of the operating system and of the configuration. *)
Record Oracle := {
  (** [config_get_integer (_, "LightDM", "minimum-display-number")] *)
  config_minimum_display_number : Z;
  (** [config_get_string (_, "LightDM", "run-directory")], NULL if unset *)
  config_run_directory : option string;
  (** [config_get_string (_, "LightDM", "log-directory")], NULL if unset *)
  config_log_directory : option string;
  (** [config_get_boolean (_, "LightDM", "backup-logs")] *)
  config_backup_logs : bool;
  g_getenv : string -> option string;
  g_get_home_dir : string;
  g_find_program_in_path : string -> option string;
  (** [g_spawn_command_line_sync ("X -version", ...)]: [None] when the
      spawn fails, else the exit status and the captured stderr *)
  spawn_x_version : option (Z * string);
  (** [g_file_test (path, G_FILE_TEST_EXISTS)] *)
  g_file_test_exists : string -> bool;
  (** [g_file_get_contents]: [None] when the file cannot be read *)
  g_file_get_contents : string -> option string;
  kill0 : Z -> kill_result;
  (** whether [process_start] manages to spawn the child *)
  process_start_ok : Process -> bool
}.

(** What the unit does to the outside world, in order. *)
Inductive Effect :=
| Failed (c : critical)                  (* a failed g_return precondition *)
| VtRef (vt : Z)                         (* vt_ref *)
| VtUnref (vt : Z)                       (* vt_unref *)
| Mkdir (dir : string)                   (* g_mkdir_with_parents *)
| AuthorityWrite (path : string)         (* x_authority_write, replace mode *)
| Unlink (path : string)                 (* g_unlink *)
| ProcessStart (p : Process) (ok : bool) (* process_start *)
| BaseStart                              (* DisplayServer start, chained *)
| BaseStop.                              (* DisplayServer stop, chained *)

(** ** State *)

(** [struct XServerLocalPrivate]. *)
Record XServerLocalPrivate := {
  x_server_process : option Process;
  command : option string;
  display_number : Z;
  config_file : option string;
  layout : option string;
  xdg_seat : option string;
  allow_tcp : bool;
  authority_file : option string;
  xdmcp_server : option string;
  xdmcp_port : Z;
  xdmcp_key : option string;
  got_signal : bool;
  vt : Z;
  have_vt_ref : bool;
  background : option string
}.

(** Virtual methods of [XServerLocalClass] that [start] calls. *)
Record XServerLocalClass := {
  get_run_function : ProcessRunFunc;
  get_log_stdout : bool;
  (** the hook receives the server and the command built so far and
      returns the command with its arguments appended; NULL if unset *)
  add_args : option (XServerLocalPrivate -> string -> string)
}.

(** The class as [x_server_local_class_init] fills it: [add_args] is
    left NULL. *)
Definition x_server_local_class : XServerLocalClass :=
  {| get_run_function := x_server_local_run;
     get_log_stdout := true;
     add_args := None |}.

(** The file-scope variables of the unit, one server object with the
    part of its [XServer] base that the unit reads, and the effects
    performed so far. *)
Record State := {
  version : option string;
  version_major : Z;
  version_minor : Z;
  display_numbers : list Z;
  priv : XServerLocalPrivate;
  (** [x_server_get_authority (X_SERVER (server))] *)
  authority : option XAuthority;
  (** [x_server_get_address (X_SERVER (server))] *)
  address : string;
  trace : list Effect
}.

(** *** Field updates *)

Definition set_version (v : option string) (major minor : Z) (s : State) : State :=
  {| version := v; version_major := major; version_minor := minor;
     display_numbers := display_numbers s; priv := priv s;
     authority := authority s; address := address s; trace := trace s |}.

Definition set_display_numbers (l : list Z) (s : State) : State :=
  {| version := version s; version_major := version_major s;
     version_minor := version_minor s;
     display_numbers := l; priv := priv s;
     authority := authority s; address := address s; trace := trace s |}.

Definition set_priv (p : XServerLocalPrivate) (s : State) : State :=
  {| version := version s; version_major := version_major s;
     version_minor := version_minor s;
     display_numbers := display_numbers s; priv := p;
     authority := authority s; address := address s; trace := trace s |}.

Definition set_authority (a : option XAuthority) (s : State) : State :=
  {| version := version s; version_major := version_major s;
     version_minor := version_minor s;
     display_numbers := display_numbers s; priv := priv s;
     authority := a; address := address s; trace := trace s |}.

(** Record one more effect. *)
Definition emit (e : Effect) (s : State) : State :=
  {| version := version s; version_major := version_major s;
     version_minor := version_minor s;
     display_numbers := display_numbers s; priv := priv s;
     authority := authority s; address := address s;
     trace := trace s ++ [e] |}.

Definition emit_criticals (cs : list critical) (s : State) : State :=
  fold_left (fun s c => emit (Failed c) s) cs s.

Definition with_x_server_process (x : option Process) (p : XServerLocalPrivate) :=
  {| x_server_process := x; command := command p;
     display_number := display_number p; config_file := config_file p;
     layout := layout p; xdg_seat := xdg_seat p; allow_tcp := allow_tcp p;
     authority_file := authority_file p; xdmcp_server := xdmcp_server p;
     xdmcp_port := xdmcp_port p; xdmcp_key := xdmcp_key p;
     got_signal := got_signal p; vt := vt p; have_vt_ref := have_vt_ref p;
     background := background p |}.

Definition with_authority_file (x : option string) (p : XServerLocalPrivate) :=
  {| x_server_process := x_server_process p; command := command p;
     display_number := display_number p; config_file := config_file p;
     layout := layout p; xdg_seat := xdg_seat p; allow_tcp := allow_tcp p;
     authority_file := x; xdmcp_server := xdmcp_server p;
     xdmcp_port := xdmcp_port p; xdmcp_key := xdmcp_key p;
     got_signal := got_signal p; vt := vt p; have_vt_ref := have_vt_ref p;
     background := background p |}.

Definition with_xdmcp_key (x : option string) (p : XServerLocalPrivate) :=
  {| x_server_process := x_server_process p; command := command p;
     display_number := display_number p; config_file := config_file p;
     layout := layout p; xdg_seat := xdg_seat p; allow_tcp := allow_tcp p;
     authority_file := authority_file p; xdmcp_server := xdmcp_server p;
     xdmcp_port := xdmcp_port p; xdmcp_key := x;
     got_signal := got_signal p; vt := vt p; have_vt_ref := have_vt_ref p;
     background := background p |}.

Definition with_got_signal (x : bool) (p : XServerLocalPrivate) :=
  {| x_server_process := x_server_process p; command := command p;
     display_number := display_number p; config_file := config_file p;
     layout := layout p; xdg_seat := xdg_seat p; allow_tcp := allow_tcp p;
     authority_file := authority_file p; xdmcp_server := xdmcp_server p;
     xdmcp_port := xdmcp_port p; xdmcp_key := xdmcp_key p;
     got_signal := x; vt := vt p; have_vt_ref := have_vt_ref p;
     background := background p |}.

Definition with_vt (x : Z) (p : XServerLocalPrivate) :=
  {| x_server_process := x_server_process p; command := command p;
     display_number := display_number p; config_file := config_file p;
     layout := layout p; xdg_seat := xdg_seat p; allow_tcp := allow_tcp p;
     authority_file := authority_file p; xdmcp_server := xdmcp_server p;
     xdmcp_port := xdmcp_port p; xdmcp_key := xdmcp_key p;
     got_signal := got_signal p; vt := x; have_vt_ref := have_vt_ref p;
     background := background p |}.

Definition with_have_vt_ref (x : bool) (p : XServerLocalPrivate) :=
  {| x_server_process := x_server_process p; command := command p;
     display_number := display_number p; config_file := config_file p;
     layout := layout p; xdg_seat := xdg_seat p; allow_tcp := allow_tcp p;
     authority_file := authority_file p; xdmcp_server := xdmcp_server p;
     xdmcp_port := xdmcp_port p; xdmcp_key := xdmcp_key p;
     got_signal := got_signal p; vt := vt p; have_vt_ref := x;
     background := background p |}.

(** [f] applied to the private part. *)
Definition on_priv (f : XServerLocalPrivate -> XServerLocalPrivate) (s : State) : State :=
  set_priv (f (priv s)) s.

(** ** Version probe *)

Definition XORG_VERSION_PREFIX : string := "X.Org X Server ".

Definition find_version (line : string) : option string :=
  if negb (g_str_has_prefix line XORG_VERSION_PREFIX) then None
  else Some (skip (String.length XORG_VERSION_PREFIX) line).

(** [for (int i = 0; lines[i] && !version; i++) version = find_version (lines[i]);] *)
Fixpoint scan_lines (lines : list string) (version : option string) : option string :=
  match lines, version with
  | line :: rest, None => scan_lines rest (find_version line)
  | _, _ => version
  end.

(** [tokens[i]] for an index below [g_strv_length (tokens)]. *)
Definition token (tokens : option (list string)) (i : nat) : string :=
  match tokens with
  | Some ts => nth i ts EmptyString
  | None => EmptyString
  end.

Definition x_server_local_get_version (o : Oracle) (s : State)
  : option string * State :=
  match version s with
  | Some v => (Some v, s)
  | None =>
      match spawn_x_version o with
      | None => (None, s)
      | Some (exit_status, stderr_text) =>
          let version :=
            if exit_status =? 0
            then scan_lines (g_strsplit stderr_text "010" (-1)) None
            else None in
          (* [version] is handed to g_strsplit whether or not it was found *)
          let '(tokens, c1) := g_strsplit_nullable version "." 3 in
          let '(n_tokens, c2) := g_strv_length_nullable tokens in
          let major := if 0 <? n_tokens then to_guint (atoi (token tokens 0)) else 0 in
          let minor := if 1 <? n_tokens then to_guint (atoi (token tokens 1)) else 0 in
          (version,
           emit_criticals (c1 ++ c2) (set_version version major minor s))
      end
  end.

Definition x_server_local_version_compare (o : Oracle) (s : State)
    (major minor : Z) : Z * State :=
  let '(_, s) := x_server_local_get_version o s in
  if major =? version_major s
  then (to_gint (to_guint (version_minor s - minor)), s)
  else (to_gint (to_guint (version_major s - major)), s).

(** ** Display numbers *)

(** The lock file path, ["/tmp/.X%d-lock"] (the [guint] is printed by [%d]). *)
Definition lock_path (display_number : Z) : string :=
  "/tmp/.X" +:+ fmt_d (to_gint display_number) +:+ "-lock".

(** The first loop of [display_number_in_use]. *)
Fixpoint managed (display_numbers : list Z) (display_number : Z) : bool :=
  match display_numbers with
  | [] => false
  | number :: next =>
      if number =? display_number then true else managed next display_number
  end.

Definition display_number_in_use (o : Oracle) (display_numbers : list Z)
    (display_number : Z) : bool :=
  if managed display_numbers display_number then true
  else
    let path := lock_path display_number in
    let in_use := g_file_test_exists o path in
    match (if in_use then g_file_get_contents o path else None) with
    | Some data =>
        let pid := atoi (g_strstrip data) in
        if (pid <? 0)
           || match kill0 o pid with
              | KillError errno => errno =? ESRCH
              | KillOk => false
              end
        then false
        else in_use
    | None => in_use
    end.

(** [while (display_number_in_use (number)) number++;] run for at most
    [fuel] tests; the increment is that of a [guint]. *)
Fixpoint first_unused (fuel : nat) (o : Oracle) (display_numbers : list Z)
    (number : Z) : option Z :=
  match fuel with
  | O => None
  | S fuel' =>
      if display_number_in_use o display_numbers number
      then first_unused fuel' o display_numbers (to_guint (number + 1))
      else Some number
  end.

Definition x_server_local_get_unused_display_number (fuel : nat) (o : Oracle)
    (s : State) : option (Z * State) :=
  let number := to_guint (config_minimum_display_number o) in
  match first_unused fuel o (display_numbers s) number with
  | None => None
  | Some number =>
      Some (number, set_display_numbers (display_numbers s ++ [number]) s)
  end.

(** The loop of [x_server_local_release_display_number]: the first link
    holding the number is deleted. *)
Fixpoint release_link (display_numbers : list Z) (display_number : Z) : list Z :=
  match display_numbers with
  | [] => []
  | number :: next =>
      if number =? display_number then next
      else number :: release_link next display_number
  end.

Definition x_server_local_release_display_number (display_number : Z)
    (s : State) : State :=
  set_display_numbers (release_link (display_numbers s) display_number) s.

(** ** Setters with side effects *)

Definition x_server_local_set_vt (new_vt : Z) (s : State) : State :=
  let s := if have_vt_ref (priv s) then emit (VtUnref (vt (priv s))) s else s in
  let s := on_priv (with_have_vt_ref false) s in
  let s := on_priv (with_vt new_vt) s in
  if 0 <? new_vt
  then on_priv (with_have_vt_ref true) (emit (VtRef new_vt) s)
  else s.

Definition x_server_local_set_xdmcp_key (key : option string) (s : State) : State :=
  let s := on_priv (with_xdmcp_key key) s in
  (* x_server_set_authority (X_SERVER (server), NULL) *)
  set_authority None s.

(** ** Command resolution *)

Definition get_absolute_command (o : Oracle) (command : string)
  : option string * list critical :=
  let tokens := g_strsplit command " " 2 in
  let '(absolute_binary, cs) :=
    match tokens with
    | t0 :: _ => (g_find_program_in_path o t0, [])
    | [] => (None, [Critical "g_find_program_in_path" "program != NULL"])
    end in
  match absolute_binary with
  | Some absolute_binary =>
      match tokens with
      | _ :: t1 :: _ => (Some (absolute_binary +:+ " " +:+ t1), cs)
      | _ => (Some absolute_binary, cs)
      end
  | None => (None, cs)
  end.

(** ** Callbacks of the process *)

Definition SIGUSR1 : Z := 10.

Definition got_signal_cb (signum : Z) (s : State) : State :=
  if (signum =? SIGUSR1) && negb (got_signal (priv s))
  then emit BaseStart (on_priv (with_got_signal true) s)
  else s.

Definition stopped_cb (s : State) : State :=
  (* Release VT and display number for re-use *)
  let s :=
    if have_vt_ref (priv s)
    then on_priv (with_have_vt_ref false) (emit (VtUnref (vt (priv s))) s)
    else s in
  let s := x_server_local_release_display_number (display_number (priv s)) s in
  let s :=
    match authority s, authority_file (priv s) with
    | Some _, Some file =>
        on_priv (with_authority_file None) (emit (Unlink file) s)
    | _, _ => s
    end in
  emit BaseStop s.

(** ** Authority file *)

Definition write_authority_file (o : Oracle) (s : State) : State :=
  match authority s with
  | None => s
  | Some _ =>
      (* Get file to write to if have authority *)
      let '(file, s) :=
        match authority_file (priv s) with
        | Some file => (file, s)
        | None =>
            let run_dir := config_run_directory o in
            let dir := g_build_filename (va_args [run_dir; Some "root"]) in
            let s := emit (Mkdir dir) s in
            let file := g_build_filename [dir; address s] in
            (file, on_priv (with_authority_file (Some file)) s)
        end in
      emit (AuthorityWrite file) s
  end.

(** ** Start *)

(** The block of [x_server_local_start] that assembles the command line,
    from [g_string_new (absolute_command)] to the [add_args] hook.  It
    writes the authority file and may run the version probe, hence the
    state. *)
Definition build_command (klass : XServerLocalClass) (o : Oracle) (s : State)
    (absolute_command : string) : string * State :=
  let command := absolute_command in

  let command := command +:+ " :" +:+ fmt_d (to_gint (display_number (priv s))) in

  let command :=
    match config_file (priv s) with
    | Some f => command +:+ " -config " +:+ f
    | None => command
    end in

  let command :=
    match layout (priv s) with
    | Some l => command +:+ " -layout " +:+ l
    | None => command
    end in

  let command :=
    match xdg_seat (priv s) with
    | Some x => command +:+ " -seat " +:+ x
    | None => command
    end in

  let s := write_authority_file o s in
  let command :=
    match authority_file (priv s) with
    | Some f => command +:+ " -auth " +:+ f
    | None => command
    end in

  (* Connect to a remote server using XDMCP *)
  let '(command, s) :=
    match xdmcp_server (priv s) with
    | Some host =>
        let command :=
          if negb (xdmcp_port (priv s) =? 0)
          then command +:+ " -port " +:+ fmt_d (to_gint (xdmcp_port (priv s)))
          else command in
        let command := command +:+ " -query " +:+ host in
        let command :=
          match xdmcp_key (priv s) with
          | Some k => command +:+ " -cookie " +:+ k
          | None => command
          end in
        (command, s)
    | None =>
        if allow_tcp (priv s) then
          let '(cmp, s) := x_server_local_version_compare o s 1 17 in
          (if 0 <=? cmp then command +:+ " -listen tcp" else command, s)
        else (command +:+ " -nolisten tcp", s)
    end in

  let command :=
    if 0 <=? vt (priv s)
    then command +:+ " vt" +:+ fmt_d (vt (priv s)) +:+ " -novtswitch"
    else command in

  let command :=
    match background (priv s) with
    | Some b => command +:+ " -background " +:+ b
    | None => command
    end in

  (* Allow sub-classes to add arguments *)
  let command :=
    match add_args klass with
    | Some hook => hook (priv s) command
    | None => command
    end in
  (command, s).

(** The block of [x_server_local_start] that hands variables of the
    parent's environment to the process. *)
Definition forward_environment (o : Oracle) (process : Process) : Process :=
  let process :=
    match g_getenv o "DISPLAY" with
    | Some display =>
        let process := process_set_env process "DISPLAY" display in
        match g_getenv o "XAUTHORITY" with
        | Some xauthority => process_set_env process "XAUTHORITY" xauthority
        | None =>
            let path := g_build_filename [g_get_home_dir o; ".Xauthority"] in
            process_set_env process "XAUTHORITY" path
        end
    | None => process
    end in
  let process :=
    match g_getenv o "LD_PRELOAD" with
    | Some v => process_set_env process "LD_PRELOAD" v
    | None => process
    end in
  let process :=
    match g_getenv o "LD_LIBRARY_PATH" with
    | Some v => process_set_env process "LD_LIBRARY_PATH" v
    | None => process
    end in
  let process :=
    match g_getenv o "PATH" with
    | Some v => process_set_env process "PATH" v
    | None => process
    end in
  match g_getenv o "LIGHTDM_TEST_ROOT" with
  | Some v => process_set_env process "LIGHTDM_TEST_ROOT" v
  | None => process
  end.


Definition x_server_local_start (klass : XServerLocalClass) (o : Oracle)
    (s : State) : bool * State :=
  match x_server_process (priv s) with
  | Some _ =>
      (false,
       emit (Failed (Critical "x_server_local_start"
                              "server->priv->x_server_process == NULL")) s)
  | None =>
  let s := on_priv (with_got_signal false) s in
  match command (priv s) with
  | None =>
      (false,
       emit (Failed (Critical "x_server_local_start"
                              "server->priv->command != NULL")) s)
  | Some server_command =>
  let run_cb := get_run_function klass in
  let process := process_new run_cb in
  let process := process_set_clear_environment process true in
  (* got_signal_cb and stopped_cb are connected to the process here *)

  (* Setup logging *)
  let filename := "x-" +:+ fmt_d (to_gint (display_number (priv s))) +:+ ".log" in
  let dir := config_log_directory o in
  let log_file := g_build_filename (va_args [dir; Some filename]) in
  let backup_logs := config_backup_logs o in
  let process :=
    process_set_log_file process log_file (get_log_stdout klass)
      (if backup_logs then LOG_MODE_BACKUP_AND_TRUNCATE else LOG_MODE_APPEND) in
  let s := on_priv (with_x_server_process (Some process)) s in

  let '(absolute_command, cs) := get_absolute_command o server_command in
  let s := emit_criticals cs s in
  match absolute_command with
  | None => (false, stopped_cb s)
  | Some absolute_command =>
  let '(command, s) := build_command klass o s absolute_command in

  let process := process_set_command process command in

  let process := forward_environment o process in

  (* the object behind priv->x_server_process, as configured above *)
  let s := on_priv (with_x_server_process (Some process)) s in
  let result := process_start_ok o process in
  let s := emit (ProcessStart process result) s in
  if result then (true, s) else (false, stopped_cb s)
  end
  end
  end.

(** ** Construction *)

(** [x_server_local_init] on the zero-filled private structure. *)
Definition x_server_local_init (fuel : nat) (o : Oracle) (s : State)
  : option State :=
  match x_server_local_get_unused_display_number fuel o s with
  | None => None
  | Some (number, s) =>
      Some (set_priv
              {| x_server_process := None; command := Some "X";
                 display_number := number; config_file := None;
                 layout := None; xdg_seat := None; allow_tcp := false;
                 authority_file := None; xdmcp_server := None;
                 xdmcp_port := 0; xdmcp_key := None; got_signal := false;
                 vt := -1; have_vt_ref := false; background := None |} s)
  end.

(** ** Events reaching a server *)

(** A call of [start], or a signal of the process object.  The two
    handlers are connected to the process created by [start], so a signal
    reaches the server only once a process is attached. *)
Inductive Event :=
| EvStart
| EvGotSignal (signum : Z)
| EvStopped.

Definition deliver (klass : XServerLocalClass) (o : Oracle) (s : State)
    (e : Event) : State :=
  match e with
  | EvStart => snd (x_server_local_start klass o s)
  | EvGotSignal signum =>
      match x_server_process (priv s) with
      | Some _ => got_signal_cb signum s
      | None => s
      end
  | EvStopped =>
      match x_server_process (priv s) with
      | Some _ => stopped_cb s
      | None => s
      end
  end.

(** Whether [start] gets past its two precondition checks. *)
Definition start_accepted (s : State) : bool :=
  match x_server_process (priv s), command (priv s) with
  | None, Some _ => true
  | _, _ => false
  end.

(** The window "between a successful start and the subsequent stopped
    event": opened by a [start] that returns TRUE, closed whenever
    [stopped_cb] runs (on the signal, or called by a failing [start]). *)
Definition window_after (klass : XServerLocalClass) (o : Oracle)
    (open : bool) (s : State) (e : Event) : bool :=
  match e with
  | EvStart =>
      if fst (x_server_local_start klass o s) then true
      else if start_accepted s then false else open
  | EvGotSignal _ => open
  | EvStopped =>
      match x_server_process (priv s) with
      | Some _ => false
      | None => open
      end
  end.

(** A history of events, each with the answers of the system at that
    time; the result is the window flag and the state. *)
Fixpoint run (klass : XServerLocalClass) (open : bool) (s : State)
    (es : list (Oracle * Event)) : bool * State :=
  match es with
  | [] => (open, s)
  | (o, e) :: es' =>
      run klass (window_after klass o open s e) (deliver klass o s e) es'
  end.

(** ** The phases of [start] in closed form

    What [start] computes on the path past the command resolution,
    written as functions of the state it starts from.  The section on
    [x_server_local_start] below proves that [start] and [build_command]
    compute exactly these. *)

(** The process after creation and logging setup. *)
Definition logged_process (klass : XServerLocalClass) (o : Oracle)
    (p : XServerLocalPrivate) : Process :=
  process_set_log_file
    (process_set_clear_environment (process_new (get_run_function klass)) true)
    (g_build_filename
       (va_args [config_log_directory o;
                 Some ("x-" +:+ fmt_d (to_gint (display_number p)) +:+ ".log")]))
    (get_log_stdout klass)
    (if config_backup_logs o then LOG_MODE_BACKUP_AND_TRUNCATE else LOG_MODE_APPEND).

(** The state in which the command is resolved: [got_signal] reset, the
    new process attached. *)
Definition prepared (klass : XServerLocalClass) (o : Oracle) (s : State) : State :=
  on_priv (with_x_server_process (Some (logged_process klass o (priv s))))
    (on_priv (with_got_signal false) s).

(** The process [start] hands to [process_start]. *)
Definition launched_process (klass : XServerLocalClass) (o : Oracle)
    (s : State) (absolute_command : string) : Process :=
  forward_environment o
    (process_set_command (logged_process klass o (priv s))
       (fst (build_command klass o (prepared klass o s) absolute_command))).

(** The state [start] leaves when it gets as far as [process_start]. *)
Definition launched (klass : XServerLocalClass) (o : Oracle)
    (s : State) (absolute_command : string) : State :=
  let p := launched_process klass o s absolute_command in
  emit (ProcessStart p (process_start_ok o p))
    (on_priv (with_x_server_process (Some p))
       (snd (build_command klass o (prepared klass o s) absolute_command))).

(** The command line up to the [-auth] argument, as a function of the
    private structure [p] in place once the authority file is written. *)
Definition command_head (p : XServerLocalPrivate) (absolute_command : string)
  : string :=
  let command := absolute_command in
  let command := command +:+ " :" +:+ fmt_d (to_gint (display_number p)) in
  let command :=
    match config_file p with
    | Some f => command +:+ " -config " +:+ f
    | None => command
    end in
  let command :=
    match layout p with
    | Some l => command +:+ " -layout " +:+ l
    | None => command
    end in
  let command :=
    match xdg_seat p with
    | Some x => command +:+ " -seat " +:+ x
    | None => command
    end in
  match authority_file p with
  | Some f => command +:+ " -auth " +:+ f
  | None => command
  end.

(** The whole command line: [cmp] is the result of comparing the probed
    version with 1.17. *)
Definition command_line (klass : XServerLocalClass) (p : XServerLocalPrivate)
    (cmp : Z) (absolute_command : string) : string :=
  let command := command_head p absolute_command in
  let command :=
    match xdmcp_server p with
    | Some host =>
        let command :=
          if negb (xdmcp_port p =? 0)
          then command +:+ " -port " +:+ fmt_d (to_gint (xdmcp_port p))
          else command in
        let command := command +:+ " -query " +:+ host in
        match xdmcp_key p with
        | Some k => command +:+ " -cookie " +:+ k
        | None => command
        end
    | None =>
        if allow_tcp p then
          if 0 <=? cmp then command +:+ " -listen tcp" else command
        else command +:+ " -nolisten tcp"
    end in
  let command :=
    if 0 <=? vt p
    then command +:+ " vt" +:+ fmt_d (vt p) +:+ " -novtswitch"
    else command in
  let command :=
    match background p with
    | Some b => command +:+ " -background " +:+ b
    | None => command
    end in
  match add_args klass with
  | Some hook => hook p command
  | None => command
  end.

(** The command line stored in the attached process, if any. *)
Definition launched_command (s : State) : option string :=
  match x_server_process (priv s) with
  | Some p => process_command p
  | None => None
  end.

(** ** The plain setters

    Each frees the old string and stores a copy of the new one
    ([g_strdup (NULL)] is NULL). *)

Definition with_command (x : option string) (p : XServerLocalPrivate) :=
  {| x_server_process := x_server_process p; command := x;
     display_number := display_number p; config_file := config_file p;
     layout := layout p; xdg_seat := xdg_seat p; allow_tcp := allow_tcp p;
     authority_file := authority_file p; xdmcp_server := xdmcp_server p;
     xdmcp_port := xdmcp_port p; xdmcp_key := xdmcp_key p;
     got_signal := got_signal p; vt := vt p; have_vt_ref := have_vt_ref p;
     background := background p |}.

Definition with_config_file (x : option string) (p : XServerLocalPrivate) :=
  {| x_server_process := x_server_process p; command := command p;
     display_number := display_number p; config_file := x;
     layout := layout p; xdg_seat := xdg_seat p; allow_tcp := allow_tcp p;
     authority_file := authority_file p; xdmcp_server := xdmcp_server p;
     xdmcp_port := xdmcp_port p; xdmcp_key := xdmcp_key p;
     got_signal := got_signal p; vt := vt p; have_vt_ref := have_vt_ref p;
     background := background p |}.

Definition with_layout (x : option string) (p : XServerLocalPrivate) :=
  {| x_server_process := x_server_process p; command := command p;
     display_number := display_number p; config_file := config_file p;
     layout := x; xdg_seat := xdg_seat p; allow_tcp := allow_tcp p;
     authority_file := authority_file p; xdmcp_server := xdmcp_server p;
     xdmcp_port := xdmcp_port p; xdmcp_key := xdmcp_key p;
     got_signal := got_signal p; vt := vt p; have_vt_ref := have_vt_ref p;
     background := background p |}.

Definition with_xdg_seat (x : option string) (p : XServerLocalPrivate) :=
  {| x_server_process := x_server_process p; command := command p;
     display_number := display_number p; config_file := config_file p;
     layout := layout p; xdg_seat := x; allow_tcp := allow_tcp p;
     authority_file := authority_file p; xdmcp_server := xdmcp_server p;
     xdmcp_port := xdmcp_port p; xdmcp_key := xdmcp_key p;
     got_signal := got_signal p; vt := vt p; have_vt_ref := have_vt_ref p;
     background := background p |}.

Definition with_allow_tcp (x : bool) (p : XServerLocalPrivate) :=
  {| x_server_process := x_server_process p; command := command p;
     display_number := display_number p; config_file := config_file p;
     layout := layout p; xdg_seat := xdg_seat p; allow_tcp := x;
     authority_file := authority_file p; xdmcp_server := xdmcp_server p;
     xdmcp_port := xdmcp_port p; xdmcp_key := xdmcp_key p;
     got_signal := got_signal p; vt := vt p; have_vt_ref := have_vt_ref p;
     background := background p |}.

Definition with_xdmcp_server (x : option string) (p : XServerLocalPrivate) :=
  {| x_server_process := x_server_process p; command := command p;
     display_number := display_number p; config_file := config_file p;
     layout := layout p; xdg_seat := xdg_seat p; allow_tcp := allow_tcp p;
     authority_file := authority_file p; xdmcp_server := x;
     xdmcp_port := xdmcp_port p; xdmcp_key := xdmcp_key p;
     got_signal := got_signal p; vt := vt p; have_vt_ref := have_vt_ref p;
     background := background p |}.

Definition with_xdmcp_port (x : Z) (p : XServerLocalPrivate) :=
  {| x_server_process := x_server_process p; command := command p;
     display_number := display_number p; config_file := config_file p;
     layout := layout p; xdg_seat := xdg_seat p; allow_tcp := allow_tcp p;
     authority_file := authority_file p; xdmcp_server := xdmcp_server p;
     xdmcp_port := x; xdmcp_key := xdmcp_key p;
     got_signal := got_signal p; vt := vt p; have_vt_ref := have_vt_ref p;
     background := background p |}.

Definition with_background (x : option string) (p : XServerLocalPrivate) :=
  {| x_server_process := x_server_process p; command := command p;
     display_number := display_number p; config_file := config_file p;
     layout := layout p; xdg_seat := xdg_seat p; allow_tcp := allow_tcp p;
     authority_file := authority_file p; xdmcp_server := xdmcp_server p;
     xdmcp_port := xdmcp_port p; xdmcp_key := xdmcp_key p;
     got_signal := got_signal p; vt := vt p; have_vt_ref := have_vt_ref p;
     background := x |}.

Definition x_server_local_set_command (command : option string) (s : State) : State :=
  on_priv (with_command command) s.

Definition x_server_local_set_config (path : option string) (s : State) : State :=
  on_priv (with_config_file path) s.

Definition x_server_local_set_layout (layout : option string) (s : State) : State :=
  on_priv (with_layout layout) s.

Definition x_server_local_set_xdg_seat (xdg_seat : option string) (s : State) : State :=
  on_priv (with_xdg_seat xdg_seat) s.

Definition x_server_local_set_allow_tcp (allow_tcp : bool) (s : State) : State :=
  on_priv (with_allow_tcp allow_tcp) s.

Definition x_server_local_set_xdmcp_server (hostname : option string) (s : State) : State :=
  on_priv (with_xdmcp_server hostname) s.

Definition x_server_local_set_xdmcp_port (port : Z) (s : State) : State :=
  on_priv (with_xdmcp_port port) s.

Definition x_server_local_set_background (background : option string) (s : State) : State :=
  on_priv (with_background background) s.

(** ** Finalisation *)

(** [x_server_local_finalize]: the handlers are disconnected, the process
    and the strings are dropped, and a VT reference still held is given
    back.  Nothing else is released here. *)
Definition x_server_local_finalize (s : State) : State :=
  let s := on_priv (with_x_server_process None) s in
  let s := on_priv (with_command None) s in
  let s := on_priv (with_config_file None) s in
  let s := on_priv (with_layout None) s in
  let s := on_priv (with_xdg_seat None) s in
  let s := on_priv (with_xdmcp_server None) s in
  let s := on_priv (with_xdmcp_key None) s in
  let s := on_priv (with_authority_file None) s in
  let s := if have_vt_ref (priv s) then emit (VtUnref (vt (priv s))) s else s in
  on_priv (with_background None) s.

(** ** Histories *)

(** A use of the allocator: a reservation (with the fuel its loop may
    use) or a release. *)
Inductive AllocOp :=
| OpReserve (fuel : nat)
| OpRelease (display_number : Z).

(** A history of allocator uses, each with the answers of the system at
    that time; [None] if some reservation did not finish within its
    fuel. *)
Fixpoint allocate (s : State) (ops : list (Oracle * AllocOp)) : option State :=
  match ops with
  | [] => Some s
  | (o, OpReserve fuel) :: ops' =>
      match x_server_local_get_unused_display_number fuel o s with
      | Some (_, s') => allocate s' ops'
      | None => None
      end
  | (_, OpRelease n) :: ops' =>
      allocate (x_server_local_release_display_number n s) ops'
  end.

(** What can happen to a live server: an event, or a call of one of its
    setters. *)
Inductive Call :=
| CallEvent (e : Event)
| CallSetCommand (command : option string)
| CallSetVt (vt : Z)
| CallSetConfig (path : option string)
| CallSetLayout (layout : option string)
| CallSetXdgSeat (xdg_seat : option string)
| CallSetAllowTcp (allow_tcp : bool)
| CallSetXdmcpServer (hostname : option string)
| CallSetXdmcpPort (port : Z)
| CallSetXdmcpKey (key : option string)
| CallSetBackground (background : option string).

Definition perform (klass : XServerLocalClass) (o : Oracle) (s : State)
    (c : Call) : State :=
  match c with
  | CallEvent e => deliver klass o s e
  | CallSetCommand x => x_server_local_set_command x s
  | CallSetVt x => x_server_local_set_vt x s
  | CallSetConfig x => x_server_local_set_config x s
  | CallSetLayout x => x_server_local_set_layout x s
  | CallSetXdgSeat x => x_server_local_set_xdg_seat x s
  | CallSetAllowTcp x => x_server_local_set_allow_tcp x s
  | CallSetXdmcpServer x => x_server_local_set_xdmcp_server x s
  | CallSetXdmcpPort x => x_server_local_set_xdmcp_port x s
  | CallSetXdmcpKey x => x_server_local_set_xdmcp_key x s
  | CallSetBackground x => x_server_local_set_background x s
  end.

Fixpoint perform_all (klass : XServerLocalClass) (s : State)
    (cs : list (Oracle * Call)) : State :=
  match cs with
  | [] => s
  | (o, c) :: cs' => perform_all klass (perform klass o s c) cs'
  end.

(** ** Counting effects *)

(** The sum of a weight over a trace. *)
Fixpoint total (weight : Effect -> Z) (tr : list Effect) : Z :=
  match tr with
  | [] => 0
  | e :: tr' => weight e + total weight tr'
  end.

(** References taken minus references given back on VT [v]. *)
Definition vt_weight (v : Z) (e : Effect) : Z :=
  match e with
  | VtRef w => if w =? v then 1 else 0
  | VtUnref w => if w =? v then -1 else 0
  | _ => 0
  end.

Definition spawn_weight (e : Effect) : Z :=
  match e with
  | ProcessStart _ _ => 1
  | _ => 0
  end.

Definition base_start_weight (e : Effect) : Z :=
  match e with
  | BaseStart => 1
  | _ => 0
  end.

(** Effects that touch neither a VT, nor a process, nor the base class:
    criticals and the writing of the authority file. *)
Definition housekeeping (e : Effect) : bool :=
  match e with
  | Failed _ | Mkdir _ | AuthorityWrite _ => true
  | _ => false
  end.

(** [t] has the trace of [s] followed by housekeeping effects only. *)
Definition quietly_extends (s t : State) : Prop :=
  exists q, trace t = trace s ++ q /\ forallb housekeeping q = true.

(** On every VT, the references taken and not given back are the one the
    server records, if it records one. *)
Definition vt_balanced (s : State) : Prop :=
  forall v,
    total (vt_weight v) (trace s)
    = if have_vt_ref (priv s) && (vt (priv s) =? v) then 1 else 0.

End XServerLocal.

(* ===================================================================== *)
(** * The specification's wording, for comparison with the code *)
(* ===================================================================== *)

Module Spec.

Import GLib XServerLocal.

(** ** Display numbers (section 4.2) *)

(** "A foreign lock is valid iff [/tmp/.X<n>-lock] exists AND its textual
    contents, stripped, parse as a positive integer PID AND sending
    signal 0 to that PID does not fail with no such process." *)
Definition foreign_lock_valid (o : Oracle) (n : Z) : bool :=
  g_file_test_exists o (lock_path n)
  && match g_file_get_contents o (lock_path n) with
     | Some data =>
         let pid := atoi (g_strstrip data) in
         (0 <? pid)
         && negb match kill0 o pid with
                 | KillError errno => errno =? ESRCH
                 | KillOk => false
                 end
     | None => false
     end.

(** "[in_use(n)] is the disjunction of [n] is in our reserved set and a
    valid foreign lock exists." *)
Definition in_use (o : Oracle) (reserved : list Z) (n : Z) : bool :=
  managed reserved n || foreign_lock_valid o n.



(** ** Version probe (section 4.1) *)

(** The two criticals logged when the NULL [version] reaches
    [g_strsplit] and the NULL vector reaches [g_strv_length]. *)
Definition null_version_faults : list Effect :=
  [Failed (Critical "g_strsplit" "string != NULL");
   Failed (Critical "g_strv_length" "str_array != NULL")].

(** ** TCP flags (section 4.4) *)

(** The fixed words [start] puts between its arguments. *)
Definition fixed_words : list string :=
  ["-config"; "-layout"; "-seat"; "-auth"; "-port"; "-query"; "-cookie";
   "tcp"; "-novtswitch"; "-background"]%string.

(** A needle that can only come from a TCP flag or from a copied string:
    not empty, without a space (so it lies within one argument), with the
    letter l (so it is not in a number), and in none of the other fixed
    words. *)
Definition flag_word (q : string) : Prop :=
  q <> EmptyString
  /\ mem_char " " q = false
  /\ mem_char "l" q = true
  /\ forallb (fun w => negb (contains q w)) fixed_words = true.

(** [q] occurs in the optional string. *)
Definition opt_contains (q : string) (o : option string) : bool :=
  match o with
  | Some x => contains q x
  | None => false
  end.

(** None of the strings [start] copies verbatim into the command line
    carries the text "listen": the resolved command and the configured
    file, layout, seat, authority path, XDMCP host and key, background. *)
Definition listen_free (p : XServerLocalPrivate) (absolute_command : string)
  : Prop :=
  contains "listen" absolute_command = false
  /\ opt_contains "listen" (config_file p) = false
  /\ opt_contains "listen" (layout p) = false
  /\ opt_contains "listen" (xdg_seat p) = false
  /\ opt_contains "listen" (authority_file p) = false
  /\ opt_contains "listen" (xdmcp_server p) = false
  /\ opt_contains "listen" (xdmcp_key p) = false
  /\ opt_contains "listen" (background p) = false.

(** ** Lifecycle (sections 3 and 4.6) *)

(** What holds of a server between events, [open] telling whether it is
    between a successful start and the next stopped event: an authority
    file is recorded only inside the window (and only for a server with
    an authority); [got_signal] is set only on a server with a process;
    inside the window a process is attached. *)
Definition lifecycle_ok (open : bool) (s : State) : Prop :=
  (authority_file (priv s) <> None -> open = true /\ authority s <> None)
  /\ (got_signal (priv s) = true -> x_server_process (priv s) <> None)
  /\ (open = true -> x_server_process (priv s) <> None).

(** ** Forwarded environment (sections 4.6 and 6) *)

Definition whitelist : list string :=
  ["DISPLAY"; "XAUTHORITY"; "LD_PRELOAD"; "LD_LIBRARY_PATH"; "PATH";
   "LIGHTDM_TEST_ROOT"]%string.

Definition on_whitelist (name : string) : bool :=
  existsb (String.eqb name) whitelist.

(** "Exactly the whitelist intersected with the parent's environment,
    with one addition: when DISPLAY is set in the parent but XAUTHORITY
    is not, XAUTHORITY is set to <home>/.Xauthority." *)
Definition forwarded (o : Oracle) (name : string) : option string :=
  if on_whitelist name then
    match g_getenv o name with
    | Some v => Some v
    | None =>
        if String.eqb name "XAUTHORITY" && bool_decide (is_Some (g_getenv o "DISPLAY"))
        then Some (g_build_filename [g_get_home_dir o; ".Xauthority"%string])
        else None
    end
  else None.

(** The same with XAUTHORITY tied to DISPLAY, as the code has it: the
    variable crosses (or is defaulted) only when DISPLAY is set. *)
Definition forwarded_inside_display (o : Oracle) (name : string) : option string :=
  if String.eqb name "XAUTHORITY" then
    match g_getenv o "DISPLAY" with
    | Some _ =>
        Some (default (g_build_filename [g_get_home_dir o; ".Xauthority"%string])
                      (g_getenv o "XAUTHORITY"))
    | None => None
    end
  else if on_whitelist name then g_getenv o name
  else None.

(** ** XDMCP seat (section 4.7) *)

Import SeatXDMCPSession.

(** The server a seat builds from its XDMCP session when the heap hands
    out identity [h]. *)
Definition server_of (h : heap) (sess : XDMCPSession) : XServerRemote :=
  {| xr_object := h; xr_hostname := xs_address sess;
     xr_display_number := xs_display_number sess;
     xr_authority := xs_authority sess |}.

(** The answers to a sequence of requests on a seat without a server:
    the first request of type "x" is answered with [server], every other
    request with none. *)
Fixpoint first_x_only (server : XServerRemote) (reqs : list Session)
  : list (option XServerRemote) :=
  match reqs with
  | [] => []
  | s :: reqs' =>
      if String.eqb (session_type s) "x"
      then Some server :: map (fun _ => None) reqs'
      else None :: first_x_only server reqs'
  end.

End Spec.

(* ===================================================================== *)
(** * Concrete systems used to exercise the model *)
(* ===================================================================== *)

Module Scenario.

Import GLib XServerLocal.

Definition LF : string := String "010" EmptyString.

(** What [X -version] prints on stderr for X.Org 1.20.11. *)
Definition x_version_banner : string :=
  LF +:+ "X.Org X Server 1.20.11" +:+ LF
     +:+ "X Protocol Version 11, Revision 0" +:+ LF.

(** A system described by its environment, its lock files (absent,
    present but unreadable, or present with contents), its processes,
    the outcome of [X -version] and whether children can be spawned.
    [X] is installed as [/usr/bin/X]. *)
Definition system (getenv : string -> option string)
    (locks : string -> option (option string))
    (probe : Z -> kill_result)
    (x_version : option (Z * string)) (spawn_ok : bool) : Oracle :=
  {| config_minimum_display_number := 0;
     config_run_directory := Some "/run/lightdm"%string;
     config_log_directory := Some "/var/log/lightdm"%string;
     config_backup_logs := false;
     g_getenv := getenv;
     g_get_home_dir := "/root";
     g_find_program_in_path :=
       fun program =>
         if String.eqb program "X" then Some "/usr/bin/X"%string else None;
     spawn_x_version := x_version;
     g_file_test_exists := fun path => bool_decide (is_Some (locks path));
     g_file_get_contents := fun path => mjoin (locks path);
     kill0 := probe;
     process_start_ok := fun _ => spawn_ok |}.

Definition no_env : string -> option string := fun _ => None.
Definition no_locks : string -> option (option string) := fun _ => None.
Definition no_processes : Z -> kill_result := fun _ => KillError ESRCH.

(** A quiet machine: nothing in the environment, no lock files. *)
Definition quiet : Oracle :=
  system no_env no_locks no_processes (Some (0, x_version_banner)) true.

(** [/tmp/.X0-lock] exists but cannot be read. *)
Definition unreadable_lock : Oracle :=
  system no_env
    (fun path => if String.eqb path "/tmp/.X0-lock" then Some None else None)
    no_processes (Some (0, x_version_banner)) true.

(** [/tmp/.X0-lock] holds text that is not a number; signal 0 to "PID 0"
    reaches the caller's own process group and succeeds. *)
Definition unparsable_lock : Oracle :=
  system no_env
    (fun path =>
       if String.eqb path "/tmp/.X0-lock" then Some (Some "garbage"%string)
       else None)
    (fun pid => if pid =? 0 then KillOk else KillError ESRCH)
    (Some (0, x_version_banner)) true.


(** [X -version] can be spawned but exits with status 1. *)
Definition x_version_fails : Oracle :=
  system no_env no_locks no_processes (Some (1, EmptyString)) true.

(** The parent has XAUTHORITY (and PATH) but no DISPLAY. *)
Definition xauthority_without_display : Oracle :=
  system
    (fun name =>
       if String.eqb name "XAUTHORITY" then Some "/var/run/xauth"%string
       else if String.eqb name "PATH" then Some "/usr/bin:/bin"%string
       else None)
    no_locks no_processes (Some (0, x_version_banner)) true.

(** The private structure as [g_object_new] zero-fills it. *)
Definition zeroed : XServerLocalPrivate :=
  {| x_server_process := None; command := None; display_number := 0;
     config_file := None; layout := None; xdg_seat := None;
     allow_tcp := false; authority_file := None; xdmcp_server := None;
     xdmcp_port := 0; xdmcp_key := None; got_signal := false;
     vt := 0; have_vt_ref := false; background := None |}.

(** A process in which nothing has run yet; the server under
    construction has the authority [cookie] and address [addr]. *)
Definition boot (cookie : option XAuthority) (addr : string) : State :=
  {| version := None; version_major := 0; version_minor := 0;
     display_numbers := []; priv := zeroed;
     authority := cookie; address := addr; trace := [] |}.

Definition cookie : XAuthority :=
  {| SeatXDMCPSession.xa_name := "MIT-MAGIC-COOKIE-1";
     SeatXDMCPSession.xa_data := "deadbeef" |}.

(** A server with the given private structure in a process that has
    reserved its display number. *)
Definition server (p : XServerLocalPrivate) : State :=
  {| version := None; version_major := 0; version_minor := 0;
     display_numbers := [display_number p]; priv := p;
     authority := Some cookie;
     address := ":" +:+ fmt_d (to_gint (display_number p));
     trace := [] |}.

(** The server of the argument-assembly scenario (section 8, item 4). *)
Definition assembly : XServerLocalPrivate :=
  {| x_server_process := None; command := Some "X"%string;
     display_number := 2; config_file := None;
     layout := Some "foo"%string; xdg_seat := Some "seat0"%string;
     allow_tcp := false; authority_file := None; xdmcp_server := None;
     xdmcp_port := 0; xdmcp_key := None; got_signal := false;
     vt := 7; have_vt_ref := true; background := None |}.

(** A default server whose configured command carries the TCP flag
    itself. *)
Definition listen_in_command : XServerLocalPrivate :=
  {| x_server_process := None; command := Some "X -listen tcp"%string;
     display_number := 0; config_file := None;
     layout := None; xdg_seat := None;
     allow_tcp := false; authority_file := None; xdmcp_server := None;
     xdmcp_port := 0; xdmcp_key := None; got_signal := false;
     vt := -1; have_vt_ref := false; background := None |}.


(** [/tmp/.X0-lock] is left over from a server whose process 4242 is
    gone. *)
Definition stale_lock : Oracle :=
  system no_env
    (fun path =>
       if String.eqb path "/tmp/.X0-lock"
       then Some (Some ("      4242" +:+ LF))
       else None)
    no_processes (Some (0, x_version_banner)) true.

(** A machine on which children cannot be started. *)
Definition no_spawn : Oracle :=
  system no_env no_locks no_processes (Some (0, x_version_banner)) false.

(** A default server allowed to listen on TCP. *)
Definition tcp_allowed : XServerLocalPrivate :=
  {| x_server_process := None; command := Some "X"%string;
     display_number := 0; config_file := None;
     layout := None; xdg_seat := None;
     allow_tcp := true; authority_file := None; xdmcp_server := None;
     xdmcp_port := 0; xdmcp_key := None; got_signal := false;
     vt := -1; have_vt_ref := false; background := None |}.

(** Two reservations (the second while [/tmp/.X0-lock] is unreadable), a
    release of display 0 and a third reservation. *)
Definition allocations : list (Oracle * AllocOp) :=
  [(quiet, OpReserve 5); (unreadable_lock, OpReserve 5);
   (quiet, OpRelease 0); (quiet, OpReserve 5)].

(** The life of a server: it is given VT 7 and a layout, started, signals
    twice that it is ready, is moved to VT 8, stops, and is asked to start
    once more. *)
Definition busy_life : list (Oracle * Call) :=
  [(quiet, CallSetVt 7);
   (quiet, CallSetLayout (Some "seat-layout"%string));
   (quiet, CallEvent EvStart);
   (quiet, CallEvent (EvGotSignal SIGUSR1));
   (quiet, CallEvent (EvGotSignal SIGUSR1));
   (quiet, CallSetVt 8);
   (quiet, CallEvent EvStopped);
   (no_spawn, CallEvent EvStart)].

End Scenario.

(* ===================================================================== *)
(** * Properties of [src/accounts.c] *)
(* ===================================================================== *)

Section AccountsFacts.

Import Accounts.

Variable directory : string -> option CommonUser.

Lemma lookup_consults_directory (name : string) :
  consulted (snd (accounts_get_user_by_name directory (Some name))) = true.
Proof.
  unfold accounts_get_user_by_name.
  destruct (directory name); reflexivity.
Qed.

Lemma lookup_found (name : string) (u : CommonUser) :
  directory name = Some u ->
  fst (accounts_get_user_by_name directory (Some name))
  = Some {| common_user := u |}.
Proof.
  intros Hu. unfold accounts_get_user_by_name. rewrite Hu. reflexivity.
Qed.

(** C10: [accounts_get_user_by_name] called with a NULL username returns
    none and sends no query to the user directory; called with the name
    of a user the directory does not know, it returns none as well. *)
Theorem accounts_get_user_by_name_none :
  (fst (accounts_get_user_by_name directory None) = None
   /\ consulted (snd (accounts_get_user_by_name directory None)) = false)
  /\ (forall name : string,
        directory name = None ->
        fst (accounts_get_user_by_name directory (Some name)) = None).
Proof.
  split.
  - split; reflexivity.
  - intros name Habsent. unfold accounts_get_user_by_name.
    rewrite Habsent. reflexivity.
Qed.

End AccountsFacts.

(** The theorem at a directory that knows only "pi", asked for "nobody". *)
Lemma accounts_get_user_by_name_none_witness :
  let directory := fun name : string =>
    if String.eqb name "pi"
    then Some {| Accounts.cu_name := "pi"; Accounts.cu_uid := 1000;
                 Accounts.cu_gid := 1000;
                 Accounts.cu_home_directory := "/home/pi";
                 Accounts.cu_shell := "/bin/bash" |}
    else None in
  fst (Accounts.accounts_get_user_by_name directory None) = None
  /\ Accounts.consulted (snd (Accounts.accounts_get_user_by_name directory None)) = false
  /\ fst (Accounts.accounts_get_user_by_name directory (Some "nobody"%string)) = None.
Proof.
  intros directory.
  pose proof (accounts_get_user_by_name_none directory) as [[Hnull Hquiet] Habsent].
  split; [exact Hnull | split; [exact Hquiet |]].
  apply Habsent. reflexivity.
Defined.

(* ===================================================================== *)
(** * Properties of [src/seat-xdmcp-session.c] *)
(* ===================================================================== *)

Section SeatFacts.

Import SeatXDMCPSession.
Import Spec.

Lemma create_other_type h seat s :
  String.eqb (session_type s) "x" = false ->
  seat_xdmcp_session_create_display_server h seat s = (None, seat, h).
Proof.
  intros Hty. unfold seat_xdmcp_session_create_display_server.
  rewrite Hty. reflexivity.
Qed.

Lemma create_when_held h seat s server :
  x_server seat = Some server ->
  seat_xdmcp_session_create_display_server h seat s = (None, seat, h).
Proof.
  intros Hheld. unfold seat_xdmcp_session_create_display_server.
  destruct (negb _); [reflexivity |]. rewrite Hheld. reflexivity.
Qed.

Lemma create_first h sess s :
  String.eqb (session_type s) "x" = true ->
  seat_xdmcp_session_create_display_server h (seat_xdmcp_session_new sess) s
  = (Some (server_of h sess),
     {| session := sess; x_server := Some (server_of h sess) |}, S h).
Proof.
  intros Hty. unfold seat_xdmcp_session_create_display_server.
  rewrite Hty. reflexivity.
Qed.

(** Once a seat holds a server, every request is answered with none and
    neither the seat nor the heap changes. *)
Lemma serve_when_held h seat server reqs :
  x_server seat = Some server ->
  serve h seat reqs = (map (fun _ => None) reqs, seat, h).
Proof.
  intros Hheld. induction reqs as [| s reqs IH]; [reflexivity |].
  cbn [serve map].
  rewrite (create_when_held h seat s server Hheld), IH. reflexivity.
Qed.

(** C1, as the code has it: on a seat created for an XDMCP session, the
    first request whose session type is "x" creates the remote server,
    stores it in the seat and is answered with it; every other request,
    whether of another type or a later one of type "x", is answered with
    none, so at most one server object is created (the heap advances by
    at most one identity). *)
Theorem seat_serves_first_x_only h sess reqs :
  fst (fst (serve h (seat_xdmcp_session_new sess) reqs))
  = Spec.first_x_only (Spec.server_of h sess) reqs
  /\ (snd (serve h (seat_xdmcp_session_new sess) reqs) <= S h)%nat.
Proof.
  induction reqs as [| s reqs [IHa IHh]]; [split; [reflexivity | cbn; lia] |].
  cbn [serve Spec.first_x_only].
  destruct (String.eqb (session_type s) "x") eqn:Hty.
  - rewrite (create_first h sess s Hty).
    rewrite (serve_when_held (S h)
               {| session := sess; x_server := Some (server_of h sess) |}
               (server_of h sess) reqs eq_refl).
    split; [reflexivity | cbn; lia].
  - rewrite (create_other_type h _ s Hty).
    destruct (serve h (seat_xdmcp_session_new sess) reqs) as [[rs seat'] h'].
    cbn in *. split; [congruence | lia].
Qed.

End SeatFacts.

(** C1 as stated fails: two requests of type "x" on one seat do not get the
    same object; the first gets the new server, the second gets none. *)
Lemma seat_second_x_request_gets_none :
  let sess := {| SeatXDMCPSession.xs_authority := None;
                 SeatXDMCPSession.xs_address := "192.168.0.7";
                 SeatXDMCPSession.xs_display_number := 0 |} in
  let x := {| SeatXDMCPSession.session_type := "x" |} in
  let seat0 := SeatXDMCPSession.seat_xdmcp_session_new sess in
  exists first second : option SeatXDMCPSession.XServerRemote,
    fst (fst (SeatXDMCPSession.serve 0%nat seat0 [x; x])) = [first; second]
    /\ first = Some (Spec.server_of 0%nat sess)
    /\ second = None
    /\ second <> first.
Proof.
  cbn. eexists _, _. repeat split. discriminate.
Qed.

(* ===================================================================== *)
(** * Properties of the display-number allocator *)
(* ===================================================================== *)

Section AllocatorFacts.

Import GLib XServerLocal.

Lemma managed_true_iff (l : list Z) (n : Z) : managed l n = true <-> n ∈ l.
Proof.
  induction l as [| x l IH]; cbn.
  - split; [discriminate | intros H; inversion H].
  - destruct (Z.eqb_spec x n) as [-> | Hne].
    + split; [intros _; left | reflexivity].
    + rewrite IH. split; [intros H; now right |].
      intros H. inversion H; subst; [congruence | assumption].
Qed.

Lemma managed_false_iff (l : list Z) (n : Z) : managed l n = false <-> n ∉ l.
Proof.
  rewrite <- managed_true_iff. destruct (managed l n); split; congruence.
Qed.

Lemma release_link_absent (l : list Z) (m : Z) :
  managed l m = false -> release_link l m = l.
Proof.
  induction l as [| x l IH]; cbn; [reflexivity |].
  destruct (x =? m); [discriminate |].
  intros H. now rewrite IH.
Qed.

Lemma release_link_appended (l : list Z) (n : Z) :
  managed l n = false -> release_link (l ++ [n]) n = l.
Proof.
  induction l as [| x l IH]; cbn.
  - now rewrite Z.eqb_refl.
  - destruct (x =? n); [discriminate |].
    intros H. now rewrite IH.
Qed.

Lemma in_use_managed o l n :
  display_number_in_use o l n = false -> managed l n = false.
Proof.
  unfold display_number_in_use. destruct (managed l n); congruence.
Qed.

Lemma first_unused_not_in_use fuel o l a n :
  first_unused fuel o l a = Some n -> display_number_in_use o l n = false.
Proof.
  revert a. induction fuel as [| fuel IH]; intros a; cbn; [discriminate |].
  destruct (display_number_in_use o l a) eqn:Ha.
  - apply IH.
  - intros [= <-]. exact Ha.
Qed.

Lemma set_display_numbers_same s : set_display_numbers (display_numbers s) s = s.
Proof. now destruct s. Qed.

Lemma set_display_numbers_twice l l' s :
  set_display_numbers l (set_display_numbers l' s) = set_display_numbers l s.
Proof. reflexivity. Qed.




(** C4: a number obtained from [reserve ()] and released again leaves
    the allocator as it was, so the next [reserve ()] (same lock files,
    same processes) returns the same number; and releasing a number that
    is not reserved changes nothing. *)
Theorem reserve_release_reserve fuel o s n s' :
  x_server_local_get_unused_display_number fuel o s = Some (n, s') ->
  x_server_local_release_display_number n s' = s
  /\ x_server_local_get_unused_display_number fuel o
       (x_server_local_release_display_number n s') = Some (n, s')
  /\ forall (m : Z) (t : State),
       m ∉ display_numbers t ->
       x_server_local_release_display_number m t = t.
Proof.
  intros Hres.
  assert (Hback : x_server_local_release_display_number n s' = s).
  { unfold x_server_local_get_unused_display_number in Hres.
    destruct (first_unused fuel o (display_numbers s) _) as [n' |] eqn:Hloop;
      [| discriminate].
    injection Hres as Hn Hs. subst n' s'.
    unfold x_server_local_release_display_number. cbn.
    rewrite release_link_appended.
    - exact (set_display_numbers_same s).
    - eapply in_use_managed, first_unused_not_in_use, Hloop. }
  split; [exact Hback |]. split; [now rewrite Hback |].
  intros m t Hm. unfold x_server_local_release_display_number.
  rewrite release_link_absent by now apply managed_false_iff.
  apply set_display_numbers_same.
Qed.

End AllocatorFacts.



(** A lock file with unparsable contents: [atoi] reads 0, [pid < 0] does
    not fire, the probe of PID 0 succeeds, and the lock is kept, although
    the comment in the source says a lock with invalid contents is
    ignored. *)
Lemma unparsable_lock_is_kept :
  XServerLocal.display_number_in_use Scenario.unparsable_lock [] 0 = true
  /\ XServerLocal.x_server_local_get_unused_display_number 5
       Scenario.unparsable_lock (Scenario.boot None ":0")
     = Some (1, XServerLocal.set_display_numbers [1] (Scenario.boot None ":0")).
Proof.
  vm_compute. split; reflexivity.
Qed.

(** C4 at the fresh-allocation scenario: reserve gives 0; after releasing
    it, reserve gives 0 again. *)
Lemma reserve_release_reserve_witness :
  let s := Scenario.boot None ":0" in
  let s' := XServerLocal.set_display_numbers [0] s in
  XServerLocal.x_server_local_release_display_number 0 s' = s
  /\ XServerLocal.x_server_local_get_unused_display_number 5 Scenario.quiet
       (XServerLocal.x_server_local_release_display_number 0 s') = Some (0, s')
  /\ forall (m : Z) (t : XServerLocal.State),
       m ∉ XServerLocal.display_numbers t ->
       XServerLocal.x_server_local_release_display_number m t = t.
Proof.
  intros s s'.
  apply (reserve_release_reserve 5 Scenario.quiet s 0 s').
  reflexivity.
Defined.

(* ===================================================================== *)
(** * Properties of the version probe *)
(* ===================================================================== *)

Section VersionFacts.

Import GLib XServerLocal.

Lemma get_version_memoised o s v :
  version s = Some v -> x_server_local_get_version o s = (Some v, s).
Proof. intros Hv. unfold x_server_local_get_version. now rewrite Hv. Qed.

(** The spawn-failure path returns early and touches nothing. *)
Lemma get_version_spawn_failure o s :
  version s = None -> spawn_x_version o = None ->
  x_server_local_get_version o s = (None, s).
Proof.
  intros Hv Hspawn. unfold x_server_local_get_version.
  now rewrite Hv, Hspawn.
Qed.

(** When the spawn succeeds but no version is found (non-zero exit, or
    no line with the prefix), the NULL [version] is passed on to
    [g_strsplit]. *)
Lemma get_version_not_found o s status text :
  version s = None ->
  spawn_x_version o = Some (status, text) ->
  (if status =? 0 then scan_lines (g_strsplit text "010" (-1)) None else None)
  = None ->
  x_server_local_get_version o s
  = (None,
     emit (Failed (Critical "g_strv_length" "str_array != NULL"))
       (emit (Failed (Critical "g_strsplit" "string != NULL"))
          (set_version None 0 0 s))).
Proof.
  intros Hv Hspawn Hnone. unfold x_server_local_get_version.
  rewrite Hv, Hspawn, Hnone. reflexivity.
Qed.

(** When a version is found the probe logs nothing. *)
Lemma get_version_found o s status text v :
  version s = None ->
  spawn_x_version o = Some (status, text) ->
  (if status =? 0 then scan_lines (g_strsplit text "010" (-1)) None else None)
  = Some v ->
  trace (snd (x_server_local_get_version o s)) = trace s
  /\ fst (x_server_local_get_version o s) = Some v.
Proof.
  intros Hv Hspawn Hsome. unfold x_server_local_get_version.
  rewrite Hv, Hspawn, Hsome. split; reflexivity.
Qed.

(** The probe never changes anything but the version cache and the
    trace. *)
Lemma get_version_frame o s :
  let s' := snd (x_server_local_get_version o s) in
  priv s' = priv s /\ display_numbers s' = display_numbers s
  /\ authority s' = authority s /\ address s' = address s.
Proof.
  unfold x_server_local_get_version.
  destruct (version s); [now cbn |].
  destruct (spawn_x_version o) as [[status text] |]; [| now cbn].
  destruct (if status =? 0 then _ else _); now cbn.
Qed.

End VersionFacts.

(** C2 fails on the code: with an empty cache and an [X -version] that
    spawns but exits with status 1, the probe hands the NULL [version] to
    [g_strsplit] and the NULL vector to [g_strv_length]; both break the
    routines' preconditions (two criticals), although the cached numbers
    end up as 0 and 0.  The spawn-failure path is clean. *)
Lemma version_probe_nonzero_exit_passes_null :
  let s := Scenario.boot None ":0" in
  let r := XServerLocal.x_server_local_get_version Scenario.x_version_fails s in
  fst r = None
  /\ XServerLocal.trace (snd r) = Spec.null_version_faults
  /\ XServerLocal.version (snd r) = None
  /\ XServerLocal.version_major (snd r) = 0
  /\ XServerLocal.version_minor (snd r) = 0.
Proof.
  vm_compute. repeat split.
Qed.

(* ===================================================================== *)
(** * Properties of the callbacks *)
(* ===================================================================== *)

Section CallbackFacts.

Import GLib XServerLocal.

Lemma emit_criticals_trace cs s :
  trace (emit_criticals cs s) = trace s ++ (Failed <$> cs).
Proof.
  revert s. induction cs as [| c cs IH]; intros s; cbn.
  - now rewrite app_nil_r.
  - unfold emit_criticals in IH. rewrite IH. cbn. now rewrite <- app_assoc.
Qed.

Lemma emit_criticals_frame cs s :
  priv (emit_criticals cs s) = priv s
  /\ display_numbers (emit_criticals cs s) = display_numbers s
  /\ authority (emit_criticals cs s) = authority s
  /\ address (emit_criticals cs s) = address s
  /\ version (emit_criticals cs s) = version s
  /\ version_major (emit_criticals cs s) = version_major s
  /\ version_minor (emit_criticals cs s) = version_minor s.
Proof.
  revert s. induction cs as [| c cs IH]; intros s; [now cbn |].
  unfold emit_criticals in *. cbn [fold_left].
  exact (IH (emit (Failed c) s)).
Qed.

(** The effects of one run of [stopped_cb]. *)
Lemma stopped_cb_trace s :
  trace (stopped_cb s)
  = trace s
    ++ (if have_vt_ref (priv s) then [VtUnref (vt (priv s))] else [])
    ++ match authority s, authority_file (priv s) with
       | Some _, Some file => [Unlink file]
       | _, _ => []
       end
    ++ [BaseStop].
Proof.
  unfold stopped_cb.
  destruct (have_vt_ref (priv s)) eqn:Hvt, (authority s) eqn:Hauth,
    (authority_file (priv s)) eqn:Hfile;
    cbn; rewrite ?Hauth, ?Hfile; cbn; rewrite <- ?app_assoc; reflexivity.
Qed.

Lemma stopped_cb_priv s :
  x_server_process (priv (stopped_cb s)) = x_server_process (priv s)
  /\ got_signal (priv (stopped_cb s)) = got_signal (priv s)
  /\ have_vt_ref (priv (stopped_cb s)) = false
  /\ authority_file (priv (stopped_cb s))
     = match authority s with
       | Some _ => None
       | None => authority_file (priv s)
       end
  /\ command (priv (stopped_cb s)) = command (priv s).
Proof.
  unfold stopped_cb.
  destruct (have_vt_ref (priv s)) eqn:Hvt, (authority s) eqn:Hauth,
    (authority_file (priv s)) eqn:Hfile;
    cbn; rewrite ?Hauth, ?Hfile; cbn; rewrite ?Hvt, ?Hfile; auto.
Qed.

Lemma stopped_cb_globals s :
  display_numbers (stopped_cb s)
  = release_link (display_numbers s) (display_number (priv s))
  /\ authority (stopped_cb s) = authority s
  /\ version (stopped_cb s) = version s.
Proof.
  unfold stopped_cb.
  destruct (have_vt_ref (priv s)) eqn:Hvt, (authority s) eqn:Hauth,
    (authority_file (priv s)) eqn:Hfile;
    cbn; rewrite ?Hauth, ?Hfile; cbn; auto.
Qed.

Lemma got_signal_cb_priv signum s :
  x_server_process (priv (got_signal_cb signum s)) = x_server_process (priv s)
  /\ authority_file (priv (got_signal_cb signum s)) = authority_file (priv s)
  /\ authority (got_signal_cb signum s) = authority s
  /\ command (priv (got_signal_cb signum s)) = command (priv s).
Proof.
  unfold got_signal_cb. destruct (_ && _); cbn; auto.
Qed.

(** Setting the XDMCP key clears any inherited authority. *)
Lemma set_xdmcp_key_clears_authority key s :
  authority (x_server_local_set_xdmcp_key key s) = None
  /\ xdmcp_key (priv (x_server_local_set_xdmcp_key key s)) = key.
Proof. split; reflexivity. Qed.

(** A server holds a VT reference exactly when its VT is positive, and
    replacing the VT drops the reference held before. *)
Lemma set_vt_reference new_vt s :
  have_vt_ref (priv (x_server_local_set_vt new_vt s)) = (0 <? new_vt)
  /\ vt (priv (x_server_local_set_vt new_vt s)) = new_vt
  /\ (have_vt_ref (priv s) = true ->
      VtUnref (vt (priv s)) ∈ trace (x_server_local_set_vt new_vt s)).
Proof.
  unfold x_server_local_set_vt.
  destruct (have_vt_ref (priv s)), (0 <? new_vt); cbn; repeat split;
    try discriminate; intros _; rewrite ?elem_of_app, ?list_elem_of_singleton;
    auto.
Qed.


End CallbackFacts.

(* ===================================================================== *)
(** * Substrings of concatenations *)
(* ===================================================================== *)

Section StringFacts.

Import GLib Spec.

#[local] Arguments String.append !s1 s2 : simpl nomatch.

Lemma ascii_eqb_refl (a : ascii) : ascii_eqb a a = true.
Proof. apply Ascii.eqb_refl. Qed.

Lemma append_nil_r (s : string) : s +:+ "" = s.
Proof. induction s as [| c s IH]; cbn; [reflexivity | now rewrite IH]. Qed.

Lemma append_assoc (a b c : string) : (a +:+ b) +:+ c = a +:+ b +:+ c.
Proof. induction a as [| x a IH]; cbn; [reflexivity | now rewrite IH]. Qed.

Lemma starts_with_app (p s : string) : starts_with p (p +:+ s) = true.
Proof.
  induction p as [| x p IH]; cbn; [reflexivity |].
  now rewrite ascii_eqb_refl, IH.
Qed.

Lemma starts_with_shorter (p q s : string) :
  starts_with (p +:+ q) s = true -> starts_with p s = true.
Proof.
  revert s. induction p as [| x p IH]; intros s; cbn; [reflexivity |].
  destruct s as [| y s]; [discriminate |].
  intros H. apply andb_true_iff in H as [Hxy H].
  rewrite Hxy. now apply IH.
Qed.

Lemma starts_with_longer (p s b : string) :
  starts_with p s = true -> starts_with p (s +:+ b) = true.
Proof.
  revert s. induction p as [| x p IH]; intros s; [reflexivity |].
  destruct s as [| y s]; cbn; [discriminate |].
  intros H. apply andb_true_iff in H as [Hxy H].
  rewrite Hxy. now apply IH.
Qed.

(** A needle without the character [c] cannot start before a [c] and end
    after it. *)
Lemma starts_with_before_sep (needle a b : string) (c : ascii) :
  mem_char c needle = false ->
  starts_with needle (a +:+ String c b) = starts_with needle a.
Proof.
  revert a. induction needle as [| x needle IH]; intros a Hc; [reflexivity |].
  cbn in Hc. apply orb_false_elim in Hc as [Hx Hrest].
  destruct a as [| y a]; cbn.
  - now rewrite Hx.
  - now rewrite IH.
Qed.

Lemma contains_sep (needle a b : string) (c : ascii) :
  needle <> EmptyString ->
  mem_char c needle = false ->
  contains needle (a +:+ String c b) = contains needle a || contains needle b.
Proof.
  intros Hne Hc. induction a as [| y a IH].
  - destruct needle as [| x needle]; [congruence |].
    cbn in Hc. apply orb_false_elim in Hc as [Hx _].
    cbn. now rewrite Hx.
  - change (contains needle (String y a +:+ String c b))
      with (starts_with needle (String y a +:+ String c b)
            || contains needle (a +:+ String c b)).
    rewrite starts_with_before_sep by exact Hc. rewrite IH.
    cbn [contains]. now rewrite orb_assoc.
Qed.

Lemma contains_app_r (needle a s : string) :
  contains needle s = true -> contains needle (a +:+ s) = true.
Proof.
  intros H. induction a as [| y a IH]; [exact H |].
  cbn. rewrite IH. apply orb_true_r.
Qed.

Lemma contains_app_l (needle s b : string) :
  contains needle s = true -> contains needle (s +:+ b) = true.
Proof.
  induction s as [| y s IH]; cbn [contains].
  - rewrite orb_false_r. destruct needle; [intros _; now destruct b | discriminate].
  - intros H. apply orb_true_iff in H as [H | H].
    + change (String y s +:+ b) with (String y (s +:+ b)). cbn [contains].
      change (String y (s +:+ b)) with (String y s +:+ b).
      now rewrite starts_with_longer.
    + cbn. rewrite IH by exact H. apply orb_true_r.
Qed.

Lemma contains_here (needle s : string) : contains needle (needle +:+ s) = true.
Proof.
  destruct (needle +:+ s) eqn:E; cbn; rewrite <- E, starts_with_app; reflexivity.
Qed.

Lemma contains_shorter (p q s : string) :
  contains (p +:+ q) s = true -> contains p s = true.
Proof.
  induction s as [| y s IH]; cbn [contains].
  - rewrite !orb_false_r. apply starts_with_shorter.
  - intros H. apply orb_true_iff in H as [H | H]; apply orb_true_iff.
    + left. now apply starts_with_shorter in H.
    + right. now apply IH.
Qed.

Lemma starts_with_mem_char (needle s : string) (c : ascii) :
  starts_with needle s = true -> mem_char c needle = true -> mem_char c s = true.
Proof.
  revert s. induction needle as [| x needle IH]; intros s; [discriminate 2 |].
  destruct s as [| y s]; cbn; [discriminate |].
  intros H Hc. apply andb_true_iff in H as [Hxy H].
  apply Ascii.eqb_eq in Hxy. subst y.
  apply orb_true_iff in Hc as [Hc | Hc]; apply orb_true_iff;
    [now left | right; now apply IH].
Qed.

Lemma contains_mem_char (needle s : string) (c : ascii) :
  contains needle s = true -> mem_char c needle = true -> mem_char c s = true.
Proof.
  induction s as [| y s IH]; cbn [contains].
  - rewrite orb_false_r. destruct needle; [discriminate 2 | discriminate].
  - intros H Hc. apply orb_true_iff in H as [H | H].
    + apply (starts_with_mem_char needle (String y s) c H Hc).
    + cbn. apply orb_true_iff. right. now apply IH.
Qed.

(** Decimal numerals hold digits and a sign only. *)
Lemma string_of_uint_chars (d : Decimal.uint) (c : ascii) :
  mem_char c (NilEmpty.string_of_uint d) = true -> mem_char c "0123456789" = true.
Proof.
  induction d; cbn [mem_char NilEmpty.string_of_uint]; try discriminate;
    intros H; apply orb_true_iff in H as [H | H]; try (now apply IHd);
    apply Ascii.eqb_eq in H; subst; reflexivity.
Qed.

Lemma fmt_d_chars (z : Z) (c : ascii) :
  mem_char c (fmt_d z) = true -> mem_char c "-0123456789" = true.
Proof.
  assert (Hu : forall d, mem_char c (NilZero.string_of_uint d) = true ->
                         mem_char c "0123456789" = true).
  { intros d. unfold NilZero.string_of_uint.
    destruct d; try apply string_of_uint_chars.
    cbn [mem_char]. rewrite orb_false_r. intros H.
    apply Ascii.eqb_eq in H. now subst. }
  unfold fmt_d, NilZero.string_of_int.
  destruct (Z.to_int z) as [d | d].
  - intros H. apply Hu in H.
    change (ascii_eqb "-" c || mem_char c "0123456789" = true).
    rewrite H. apply orb_true_r.
  - cbn [mem_char]. intros H. apply orb_true_iff in H as [H | H].
    + apply Ascii.eqb_eq in H. now subst.
    + apply Hu in H.
      change (ascii_eqb "-" c || mem_char c "0123456789" = true).
      rewrite H. apply orb_true_r.
Qed.

Lemma contains_arg q acc W w x :
  flag_word q -> W = String " " (w +:+ " ") ->
  contains q (acc +:+ W +:+ x) = contains q acc || contains q w || contains q x.
Proof.
  intros (Hne & Hsp & _ & _) ->.
  change (String " " (w +:+ " ") +:+ x) with (String " " ((w +:+ " ") +:+ x)).
  rewrite append_assoc. change (" " +:+ x) with (String " " x).
  rewrite !contains_sep by assumption. now rewrite orb_assoc.
Qed.

Lemma contains_opt_arg q acc W w o :
  flag_word q -> W = String " " (w +:+ " ") -> contains q w = false ->
  contains q match o with Some x => acc +:+ W +:+ x | None => acc end
  = contains q acc || opt_contains q o.
Proof.
  intros Hq HW Hw. destruct o as [x |]; cbn [opt_contains].
  - rewrite (contains_arg q acc W w x Hq HW), Hw. now rewrite orb_false_r.
  - now rewrite orb_false_r.
Qed.

Lemma contains_words q acc W w1 w2 :
  flag_word q -> W = String " " (w1 +:+ String " " w2) ->
  contains q (acc +:+ W) = contains q acc || contains q w1 || contains q w2.
Proof.
  intros (Hne & Hsp & _ & _) ->.
  rewrite !contains_sep by assumption. now rewrite orb_assoc.
Qed.

Lemma contains_number q pre z :
  flag_word q -> mem_char "l" pre = false -> contains q (pre +:+ fmt_d z) = false.
Proof.
  intros (_ & _ & Hl & _) Hpre.
  destruct (contains q (pre +:+ fmt_d z)) eqn:Hc; [| reflexivity].
  apply (contains_mem_char _ _ "l") in Hc; [| exact Hl].
  assert (Hno : mem_char "l" (pre +:+ fmt_d z) = false).
  { clear Hc. induction pre as [| y pre IH].
    - change ("" +:+ fmt_d z) with (fmt_d z).
      destruct (mem_char "l" (fmt_d z)) eqn:E; [| reflexivity].
      apply fmt_d_chars in E. discriminate E.
    - cbn in Hpre. apply orb_false_elim in Hpre as [Hy Hpre].
      change (String y pre +:+ fmt_d z) with (String y (pre +:+ fmt_d z)).
      cbn [mem_char]. now rewrite Hy, IH. }
  congruence.
Qed.


Lemma contains_needle_tail (p q s : string) :
  contains (p +:+ q) s = true -> contains q s = true.
Proof.
  revert s. induction p as [| x p IH]; intros s; [trivial |].
  induction s as [| y s IHs]; cbn [contains].
  - rewrite orb_false_r. discriminate.
  - intros H. apply orb_true_iff in H as [H | H]; apply orb_true_iff; right.
    + change (String x p +:+ q) with (String x (p +:+ q)) in H. cbn in H.
      apply andb_true_iff in H as [_ H].
      apply IH. destruct s; cbn [contains]; rewrite H; reflexivity.
    + now apply IHs.
Qed.

Lemma listen_free_word q pre x :
  q = pre +:+ "listen" -> contains "listen" x = false -> contains q x = false.
Proof.
  intros -> Hx. destruct (contains (pre +:+ "listen") x) eqn:E; [| reflexivity].
  apply contains_needle_tail in E. congruence.
Qed.

Lemma listen_free_opt q pre o :
  q = pre +:+ "listen" -> opt_contains "listen" o = false -> opt_contains q o = false.
Proof. destruct o; [apply listen_free_word | reflexivity]. Qed.

Lemma contains_literal q w :
  flag_word q -> existsb (String.eqb w) fixed_words = true -> contains q w = false.
Proof.
  intros (_ & _ & _ & Hfixed) Hw.
  apply existsb_exists in Hw as (w' & Hin & Heq).
  apply String.eqb_eq in Heq. subst w'.
  rewrite forallb_forall in Hfixed. specialize (Hfixed w Hin).
  now apply negb_true_iff in Hfixed.
Qed.

End StringFacts.

(* ===================================================================== *)
(** * Properties of [x_server_local_start] *)
(* ===================================================================== *)

Section StartFacts.

Import GLib XServerLocal Spec.

Variable klass : XServerLocalClass.
Variable o : Oracle.

(** The state in which [start] resolves the command: [got_signal] reset,
    the new process attached. *)
Lemma start_binary_missing s c :
  x_server_process (priv s) = None ->
  command (priv s) = Some c ->
  fst (get_absolute_command o c) = None ->
  exists p,
    x_server_local_start klass o s
    = (false,
       stopped_cb
         (emit_criticals (snd (get_absolute_command o c))
            (on_priv (with_x_server_process (Some p))
               (on_priv (with_got_signal false) s))))
    /\ process_command p = None.
Proof.
  intros Hproc Hcmd Habs. unfold x_server_local_start.
  rewrite Hproc. cbn [priv on_priv set_priv command with_got_signal].
  rewrite Hcmd.
  destruct (get_absolute_command o c) as [abs cs]. cbn in Habs. subst abs.
  eexists. split; reflexivity.
Qed.


(** [write_authority_file] changes nothing of the private structure but
    the authority file. *)
Lemma write_authority_file_priv u :
  priv (write_authority_file o u)
  = with_authority_file (authority_file (priv (write_authority_file o u))) (priv u).
Proof.
  unfold write_authority_file.
  destruct (authority u); [| now destruct (priv u)].
  destruct (authority_file (priv u)) eqn:Hfile; cbn.
  - now destruct (priv u).
  - reflexivity.
Qed.

Lemma write_authority_file_globals u :
  authority (write_authority_file o u) = authority u
  /\ display_numbers (write_authority_file o u) = display_numbers u
  /\ version (write_authority_file o u) = version u
  /\ version_major (write_authority_file o u) = version_major u
  /\ version_minor (write_authority_file o u) = version_minor u.
Proof.
  unfold write_authority_file.
  destruct (authority u) eqn:Hauth; [| now rewrite Hauth].
  destruct (authority_file (priv u)); cbn; now rewrite Hauth.
Qed.

(** The authority file in place after [write_authority_file]: an
    authority always leaves one. *)
Lemma write_authority_file_file u :
  authority_file (priv (write_authority_file o u))
  = match authority u with
    | None => authority_file (priv u)
    | Some _ =>
        Some (default
                (g_build_filename
                   [g_build_filename (va_args [config_run_directory o; Some "root"%string]);
                    address u])
                (authority_file (priv u)))
    end.
Proof.
  unfold write_authority_file.
  destruct (authority u); [| reflexivity].
  destruct (authority_file (priv u)) eqn:Hfile; cbn; [exact Hfile | reflexivity].
Qed.

Lemma version_compare_frame u major minor :
  let u' := snd (x_server_local_version_compare o u major minor) in
  priv u' = priv u /\ display_numbers u' = display_numbers u
  /\ authority u' = authority u /\ address u' = address u.
Proof.
  unfold x_server_local_version_compare.
  pose proof (get_version_frame o u) as Hframe.
  destruct (x_server_local_get_version o u) as [v u1]. cbn in Hframe.
  destruct (major =? version_major u1); exact Hframe.
Qed.

(** The comparison reads only the version cache. *)
Lemma version_compare_cache u w major minor :
  version u = version w -> version_major u = version_major w ->
  version_minor u = version_minor w ->
  fst (x_server_local_version_compare o u major minor)
  = fst (x_server_local_version_compare o w major minor).
Proof.
  intros Hv Hmaj Hmin.
  unfold x_server_local_version_compare, x_server_local_get_version.
  rewrite <- Hv.
  destruct (version u);
    [cbn; rewrite Hmaj, Hmin; destruct (major =? _); reflexivity |].
  destruct (spawn_x_version o) as [[status text] |];
    [| cbn; rewrite Hmaj, Hmin; destruct (major =? _); reflexivity].
  destruct (g_strsplit_nullable _ _ _) as [tokens c1].
  destruct (g_strv_length_nullable tokens) as [n c2].
  set (cs := c1 ++ c2).
  set (v := if status =? 0 then _ else _).
  set (a := if 0 <? n then _ else _). set (b := if 1 <? n then _ else _).
  destruct (emit_criticals_frame cs (set_version v a b u))
    as (_ & _ & _ & _ & _ & Hua & Hub).
  destruct (emit_criticals_frame cs (set_version v a b w))
    as (_ & _ & _ & _ & _ & Hwa & Hwb).
  cbn [fst snd]. rewrite Hua, Hub, Hwa, Hwb. cbn.
  destruct (major =? a); reflexivity.
Qed.

Lemma prepared_priv s :
  priv (prepared klass o s)
  = with_x_server_process (Some (logged_process klass o (priv s)))
      (with_got_signal false (priv s)).
Proof. reflexivity. Qed.

Lemma get_absolute_command_some c abs :
  fst (get_absolute_command o c) = Some abs ->
  snd (get_absolute_command o c) = [].
Proof.
  unfold get_absolute_command.
  destruct (g_strsplit c " " 2) as [| t0 [| t1 rest]]; cbn; [discriminate | |];
    destruct (g_find_program_in_path o t0); cbn; congruence.
Qed.

(** Past the command resolution, [start] hands [launched_process] to
    [process_start] and runs [stopped_cb] if the spawn fails. *)
Lemma start_launch s c abs :
  x_server_process (priv s) = None ->
  command (priv s) = Some c ->
  fst (get_absolute_command o c) = Some abs ->
  let ok := process_start_ok o (launched_process klass o s abs) in
  x_server_local_start klass o s
  = (ok, if ok then launched klass o s abs
         else stopped_cb (launched klass o s abs)).
Proof.
  intros Hproc Hcmd Habs.
  pose proof (get_absolute_command_some c abs Habs) as Hcs.
  unfold x_server_local_start.
  rewrite Hproc.
  change (command (priv (on_priv (with_got_signal false) s)))
    with (command (priv s)).
  rewrite Hcmd.
  destruct (get_absolute_command o c) as [abs' cs].
  cbn in Habs, Hcs. subst abs' cs.
  unfold launched, launched_process.
  change (emit_criticals [] ?x) with x.
  cbv zeta.
  change (on_priv (with_x_server_process (Some _))
            (on_priv (with_got_signal false) s))
    with (prepared klass o s).
  change (process_set_log_file _ _ _ _) with (logged_process klass o (priv s)).
  destruct (build_command klass o (prepared klass o s) abs) as [cmd t].
  cbn [fst snd].
  destruct (process_start_ok o _); reflexivity.
Qed.

(** [build_command] in closed form. *)
Lemma build_command_spec u abs :
  let t := write_authority_file o u in
  let cmp := fst (x_server_local_version_compare o t 1 17) in
  build_command klass o u abs
  = (command_line klass (priv t) cmp abs,
     match xdmcp_server (priv t) with
     | Some _ => t
     | None =>
         if allow_tcp (priv t)
         then snd (x_server_local_version_compare o t 1 17)
         else t
     end).
Proof.
  intros t cmp. unfold build_command, command_line, command_head. fold t.
  assert (Hreads : display_number (priv t) = display_number (priv u)
                   /\ config_file (priv t) = config_file (priv u)
                   /\ layout (priv t) = layout (priv u)
                   /\ xdg_seat (priv t) = xdg_seat (priv u))
    by (subst t; rewrite (write_authority_file_priv u); repeat split).
  destruct Hreads as (-> & -> & -> & ->).
  destruct (xdmcp_server (priv t)) as [host |]; [reflexivity |].
  destruct (allow_tcp (priv t)); [| reflexivity].
  pose proof (version_compare_frame t 1 17) as (Hpriv & _).
  subst cmp.
  destruct (x_server_local_version_compare o t 1 17) as [cmp t'].
  cbn [fst snd] in *. rewrite Hpriv. reflexivity.
Qed.

Lemma build_command_frame u abs :
  let u' := snd (build_command klass o u abs) in
  priv u' = priv (write_authority_file o u)
  /\ authority u' = authority u
  /\ display_numbers u' = display_numbers u.
Proof.
  rewrite build_command_spec. cbn [snd].
  set (t := write_authority_file o u).
  destruct (write_authority_file_globals u) as (Hauth & Hnums & _).
  fold t in Hauth, Hnums.
  destruct (version_compare_frame t 1 17) as (Hp & Hn & Ha & _).
  destruct (xdmcp_server (priv t)); [auto |].
  destruct (allow_tcp (priv t)); [| auto].
  rewrite Hp, Hn, Ha. auto.
Qed.

(** The private structure from which the command line is assembled. *)
Lemma assembly_priv s :
  priv (write_authority_file o (prepared klass o s))
  = with_authority_file (authority_file (priv (write_authority_file o s)))
      (with_x_server_process (Some (logged_process klass o (priv s)))
         (with_got_signal false (priv s))).
Proof.
  rewrite write_authority_file_priv, !write_authority_file_file. reflexivity.
Qed.

Lemma assembly_version_compare s major minor :
  fst (x_server_local_version_compare o
         (write_authority_file o (prepared klass o s)) major minor)
  = fst (x_server_local_version_compare o s major minor).
Proof.
  destruct (write_authority_file_globals (prepared klass o s))
    as (_ & _ & Hv & Hmaj & Hmin).
  now apply version_compare_cache.
Qed.

Lemma forward_environment_frame p :
  process_command (forward_environment o p) = process_command p
  /\ clear_environment (forward_environment o p) = clear_environment p.
Proof.
  unfold forward_environment.
  destruct (g_getenv o "DISPLAY"), (g_getenv o "XAUTHORITY"),
    (g_getenv o "LD_PRELOAD"), (g_getenv o "LD_LIBRARY_PATH"),
    (g_getenv o "PATH"), (g_getenv o "LIGHTDM_TEST_ROOT"); split; reflexivity.
Qed.

(** The command line of a start that gets past the command resolution. *)
Lemma start_command s c abs :
  x_server_process (priv s) = None ->
  command (priv s) = Some c ->
  fst (get_absolute_command o c) = Some abs ->
  launched_command (snd (x_server_local_start klass o s))
  = Some (command_line klass
            (with_authority_file (authority_file (priv (write_authority_file o s)))
               (with_x_server_process (Some (logged_process klass o (priv s)))
                  (with_got_signal false (priv s))))
            (fst (x_server_local_version_compare o s 1 17)) abs).
Proof.
  intros Hproc Hcmd Habs.
  rewrite (start_launch s c abs Hproc Hcmd Habs). cbv zeta.
  assert (Hl : launched_command (launched klass o s abs)
               = Some (fst (build_command klass o (prepared klass o s) abs))).
  { unfold launched_command, launched, launched_process. cbn.
    now destruct (forward_environment_frame
                    (process_set_command (logged_process klass o (priv s))
                       (fst (build_command klass o (prepared klass o s) abs))))
      as (-> & _). }
  assert (Hs : launched_command (stopped_cb (launched klass o s abs))
               = launched_command (launched klass o s abs)).
  { unfold launched_command.
    now destruct (stopped_cb_priv (launched klass o s abs)) as (-> & _). }
  destruct (process_start_ok o _); cbn [snd]; rewrite ?Hs, Hl;
    rewrite build_command_spec; cbn [fst];
    now rewrite assembly_priv, assembly_version_compare.
Qed.

Lemma command_head_contains q p abs :
  flag_word q ->
  contains q abs = false ->
  opt_contains q (config_file p) = false ->
  opt_contains q (layout p) = false ->
  opt_contains q (xdg_seat p) = false ->
  opt_contains q (authority_file p) = false ->
  contains q (command_head p abs) = false.
Proof.
  intros Hq Habs Hcf Hl Hseat Hauth.
  unfold command_head. cbv zeta.
  rewrite (contains_opt_arg q _ " -auth " "-auth" _ Hq eq_refl)
    by (apply contains_literal; [exact Hq | reflexivity]).
  rewrite (contains_opt_arg q _ " -seat " "-seat" _ Hq eq_refl)
    by (apply contains_literal; [exact Hq | reflexivity]).
  rewrite (contains_opt_arg q _ " -layout " "-layout" _ Hq eq_refl)
    by (apply contains_literal; [exact Hq | reflexivity]).
  rewrite (contains_opt_arg q _ " -config " "-config" _ Hq eq_refl)
    by (apply contains_literal; [exact Hq | reflexivity]).
  rewrite Hauth, Hseat, Hl, Hcf, !orb_false_r.
  change (" :" +:+ fmt_d (to_gint (display_number p)))
    with (String " " (":" +:+ fmt_d (to_gint (display_number p)))).
  pose proof Hq as (Hne & Hsp & Hql & Hfixed).
  rewrite contains_sep by assumption.
  rewrite Habs, contains_number by (trivial; reflexivity). reflexivity.
Qed.

Lemma command_line_contains q p cmp abs :
  flag_word q ->
  add_args klass = None ->
  contains q abs = false ->
  opt_contains q (config_file p) = false ->
  opt_contains q (layout p) = false ->
  opt_contains q (xdg_seat p) = false ->
  opt_contains q (authority_file p) = false ->
  opt_contains q (xdmcp_server p) = false ->
  opt_contains q (xdmcp_key p) = false ->
  opt_contains q (background p) = false ->
  contains q (command_line klass p cmp abs)
  = match xdmcp_server p with
    | Some _ => false
    | None =>
        if allow_tcp p then (0 <=? cmp) && contains q "-listen"
        else contains q "-nolisten"
    end.
Proof.
  intros Hq Hhook Habs Hcf Hl Hseat Hauth Hsrv Hkey Hbg.
  pose proof (command_head_contains q p abs Hq Habs Hcf Hl Hseat Hauth) as Hhead.
  unfold command_line. rewrite Hhook. cbv zeta.
  rewrite (contains_opt_arg q _ " -background " "-background" _ Hq eq_refl)
    by (apply contains_literal; [exact Hq | reflexivity]).
  rewrite Hbg, orb_false_r.
  assert (Hvt : forall acc,
             contains q (if 0 <=? vt p
                         then acc +:+ " vt" +:+ fmt_d (vt p) +:+ " -novtswitch"
                         else acc)
             = contains q acc).
  { intros acc. destruct (0 <=? vt p); [| reflexivity].
    change (" vt" +:+ fmt_d (vt p) +:+ " -novtswitch")
      with (String " " ("vt" +:+ fmt_d (vt p) +:+ " -novtswitch")).
    pose proof Hq as (Hne & Hsp & Hql & Hfixed).
    rewrite contains_sep by assumption.
    replace ("vt" +:+ fmt_d (vt p) +:+ " -novtswitch")
      with (("vt" +:+ fmt_d (vt p)) +:+ String " " "-novtswitch")
      by (now rewrite append_assoc).
    rewrite contains_sep by assumption.
    rewrite contains_number by (trivial; reflexivity).
    rewrite (contains_literal q "-novtswitch") by (trivial; reflexivity).
    now rewrite !orb_false_r. }
  rewrite Hvt.
  destruct (xdmcp_server p) as [host |].
  - rewrite (contains_opt_arg q _ " -cookie " "-cookie" _ Hq eq_refl)
      by (apply contains_literal; [exact Hq | reflexivity]).
    rewrite Hkey, orb_false_r.
    rewrite (contains_arg q _ " -query " "-query" host Hq eq_refl).
    cbn [opt_contains] in Hsrv.
    rewrite Hsrv, (contains_literal q "-query") by (trivial; reflexivity).
    rewrite !orb_false_r.
    destruct (negb (xdmcp_port p =? 0)); [| exact Hhead].
    change (" -port " +:+ fmt_d (to_gint (xdmcp_port p)))
      with (String " " ("-port" +:+ String " " (fmt_d (to_gint (xdmcp_port p))))).
    pose proof Hq as (Hne & Hsp & Hql & Hfixed).
    rewrite !contains_sep by assumption.
    rewrite Hhead, (contains_literal q "-port") by (trivial; reflexivity).
    change (fmt_d (to_gint (xdmcp_port p)))
      with ("" +:+ fmt_d (to_gint (xdmcp_port p))).
    now rewrite contains_number.
  - destruct (allow_tcp p).
    + destruct (0 <=? cmp); [| exact Hhead].
      rewrite (contains_words q _ " -listen tcp" "-listen" "tcp" Hq eq_refl).
      rewrite Hhead, (contains_literal q "tcp") by (trivial; reflexivity).
      now rewrite orb_false_r.
    + rewrite (contains_words q _ " -nolisten tcp" "-nolisten" "tcp" Hq eq_refl).
      rewrite Hhead, (contains_literal q "tcp") by (trivial; reflexivity).
      now rewrite orb_false_r.
Qed.


Lemma command_line_listen p cmp abs :
  add_args klass = None -> xdmcp_server p = None -> allow_tcp p = true ->
  0 <= cmp ->
  contains "-listen tcp" (command_line klass p cmp abs) = true.
Proof.
  intros Hhook Hx Htcp Hcmp. unfold command_line.
  rewrite Hhook, Hx, Htcp. apply Z.leb_le in Hcmp. rewrite Hcmp. cbv zeta.
  assert (Hflag : contains "-listen tcp"
                    (command_head p abs +:+ " -listen tcp") = true)
    by now apply contains_app_r.
  destruct (background p); [apply contains_app_l |];
    (destruct (0 <=? vt p); [apply contains_app_l |]); exact Hflag.
Qed.

Lemma command_line_nolisten p cmp abs :
  add_args klass = None -> xdmcp_server p = None -> allow_tcp p = false ->
  contains "-nolisten tcp" (command_line klass p cmp abs) = true.
Proof.
  intros Hhook Hx Htcp. unfold command_line.
  rewrite Hhook, Hx, Htcp. cbv zeta.
  assert (Hflag : contains "-nolisten tcp"
                    (command_head p abs +:+ " -nolisten tcp") = true)
    by now apply contains_app_r.
  destruct (background p); [apply contains_app_l |];
    (destruct (0 <=? vt p); [apply contains_app_l |]); exact Hflag.
Qed.

Lemma flag_word_listen : flag_word "-listen".
Proof. repeat split. discriminate. Qed.

Lemma flag_word_nolisten : flag_word "-nolisten".
Proof. repeat split. discriminate. Qed.

(** Which TCP words a command line without an [add_args] hook holds when
    the copied strings are free of "listen". *)
Lemma command_line_flags p cmp abs :
  add_args klass = None ->
  listen_free p abs ->
  contains "-listen" (command_line klass p cmp abs)
  = match xdmcp_server p with
    | Some _ => false
    | None => allow_tcp p && (0 <=? cmp)
    end
  /\ contains "-nolisten" (command_line klass p cmp abs)
     = match xdmcp_server p with
       | Some _ => false
       | None => negb (allow_tcp p)
       end.
Proof.
  intros Hhook (Habs & Hcf & Hl & Hseat & Hauth & Hsrv & Hkey & Hbg). split.
  - rewrite (command_line_contains "-listen" p cmp abs flag_word_listen Hhook);
      try (apply (listen_free_opt _ "-"); [reflexivity | assumption]);
      try (apply (listen_free_word _ "-"); [reflexivity | assumption]).
    destruct (xdmcp_server p); [reflexivity |].
    destruct (allow_tcp p); [| reflexivity]. now rewrite andb_true_r.
  - rewrite (command_line_contains "-nolisten" p cmp abs flag_word_nolisten Hhook);
      try (apply (listen_free_opt _ "-no"); [reflexivity | assumption]);
      try (apply (listen_free_word _ "-no"); [reflexivity | assumption]).
    destruct (xdmcp_server p); [reflexivity |].
    destruct (allow_tcp p); [destruct (0 <=? cmp) |]; reflexivity.
Qed.

(** C5, as the code has it: for a server whose class has no [add_args]
    hook (such as [XServerLocal] itself) and whose copied strings (the
    resolved command, config file, layout, seat, authority file path,
    XDMCP host and key, background) do not contain the text "listen", the
    command line of a start that resolves its command contains
    "-listen tcp" iff [allow_tcp] is set, no XDMCP server is set and the
    probed version compares at least (1,17); it contains "-nolisten tcp"
    iff [allow_tcp] is clear and no XDMCP server is set; it never
    contains both; with an XDMCP server it contains neither. *)
Theorem tcp_flags_of_command s c abs :
  add_args klass = None ->
  x_server_process (priv s) = None ->
  command (priv s) = Some c ->
  fst (get_absolute_command o c) = Some abs ->
  listen_free (priv (write_authority_file o s)) abs ->
  exists cmd,
    launched_command (snd (x_server_local_start klass o s)) = Some cmd
    /\ (contains "-listen tcp" cmd = true
        <-> allow_tcp (priv s) = true /\ xdmcp_server (priv s) = None
            /\ 0 <= fst (x_server_local_version_compare o s 1 17))
    /\ (contains "-nolisten tcp" cmd = true
        <-> allow_tcp (priv s) = false /\ xdmcp_server (priv s) = None)
    /\ ~ (contains "-listen tcp" cmd = true /\ contains "-nolisten tcp" cmd = true)
    /\ (xdmcp_server (priv s) <> None ->
        contains "-listen tcp" cmd = false /\ contains "-nolisten tcp" cmd = false).
Proof.
  intros Hhook Hproc Hcmd Habs Hfree.
  set (cmp := fst (x_server_local_version_compare o s 1 17)).
  set (p := with_authority_file (authority_file (priv (write_authority_file o s)))
              (with_x_server_process (Some (logged_process klass o (priv s)))
                 (with_got_signal false (priv s)))).
  exists (command_line klass p cmp abs).
  split; [exact (start_command s c abs Hproc Hcmd Habs) |].
  assert (Hfree' : listen_free p abs).
  { rewrite write_authority_file_priv in Hfree. exact Hfree. }
  destruct (command_line_flags p cmp abs Hhook Hfree') as (Hl & Hn).
  change (xdmcp_server p) with (xdmcp_server (priv s)) in Hl, Hn.
  change (allow_tcp p) with (allow_tcp (priv s)) in Hl, Hn.
  assert (Hlisten : contains "-listen tcp" (command_line klass p cmp abs) = true
                    <-> allow_tcp (priv s) = true /\ xdmcp_server (priv s) = None
                        /\ 0 <= cmp).
  { split.
    - intros H. apply (contains_shorter "-listen" " tcp") in H.
      rewrite Hl in H. destruct (xdmcp_server (priv s)); [discriminate |].
      apply andb_true_iff in H as [Ha Hc]. apply Z.leb_le in Hc. auto.
    - intros (Ha & Hx & Hc). now apply command_line_listen. }
  assert (Hnolisten : contains "-nolisten tcp" (command_line klass p cmp abs) = true
                      <-> allow_tcp (priv s) = false /\ xdmcp_server (priv s) = None).
  { split.
    - intros H. apply (contains_shorter "-nolisten" " tcp") in H.
      rewrite Hn in H. destruct (xdmcp_server (priv s)); [discriminate |].
      apply negb_true_iff in H. auto.
    - intros (Ha & Hx). now apply command_line_nolisten. }
  split; [exact Hlisten |]. split; [exact Hnolisten |]. split.
  - intros (H1 & H2). apply Hlisten in H1 as (H1 & _).
    apply Hnolisten in H2 as (H2 & _). congruence.
  - intros Hx. split.
    + apply not_true_is_false. intros E.
      apply Hlisten in E as (_ & E & _). contradiction.
    + apply not_true_is_false. intros E.
      apply Hnolisten in E as (_ & E). contradiction.
Qed.

(** C6: the argument-assembly scenario.  For a server of a class without
    an [add_args] hook with command "X" (found in PATH as [abs]), display
    number 2, layout "foo", seat "seat0", [allow_tcp] false, vt 7, no
    config file, no XDMCP server, no background, and the authority file
    written at /run/lightdm/root/:2, the command line is exactly [abs]
    followed by " :2 -layout foo -seat seat0 -auth /run/lightdm/root/:2
    -nolisten tcp vt7 -novtswitch". *)
Theorem argument_assembly s abs :
  add_args klass = None ->
  x_server_process (priv s) = None ->
  command (priv s) = Some "X"%string ->
  g_find_program_in_path o "X" = Some abs ->
  display_number (priv s) = 2 ->
  config_file (priv s) = None ->
  layout (priv s) = Some "foo"%string ->
  xdg_seat (priv s) = Some "seat0"%string ->
  allow_tcp (priv s) = false ->
  vt (priv s) = 7 ->
  xdmcp_server (priv s) = None ->
  background (priv s) = None ->
  authority_file (priv (write_authority_file o s))
  = Some "/run/lightdm/root/:2"%string ->
  launched_command (snd (x_server_local_start klass o s))
  = Some (abs +:+ " :2 -layout foo -seat seat0 -auth /run/lightdm/root/:2 -nolisten tcp vt7 -novtswitch").
Proof.
  intros Hhook Hproc Hcmd Hfind Hnum Hcf Hl Hseat Htcp Hvt Hx Hbg Hauth.
  assert (Habs : fst (get_absolute_command o "X") = Some abs).
  { unfold get_absolute_command.
    change (g_strsplit "X" " " 2) with ["X"%string].
    cbv beta iota zeta. now rewrite Hfind. }
  rewrite (start_command s "X" abs Hproc Hcmd Habs).
  unfold command_line, command_head. rewrite Hhook, Hauth.
  cbn [with_authority_file with_x_server_process with_got_signal
       display_number config_file layout xdg_seat authority_file
       xdmcp_server allow_tcp vt background].
  rewrite Hnum, Hcf, Hl, Hseat, Htcp, Hvt, Hx, Hbg.
  cbv zeta. change (0 <=? 7) with true. cbv iota.
  rewrite !append_assoc. reflexivity.
Qed.


Lemma set_env_opt_lookup (p : Process) (k : string) (v : option string)
    (name : string) :
  process_env match v with Some x => process_set_env p k x | None => p end !! name
  = if decide (k = name)
    then match v with Some x => Some x | None => process_env p !! name end
    else process_env p !! name.
Proof.
  destruct v as [x |]; cbn.
  - rewrite lookup_insert. reflexivity.
  - now destruct (decide (k = name)).
Qed.

(** The table [forward_environment] leaves in a process that had none. *)
Lemma forward_environment_lookup (p : Process) (name : string) :
  process_env p = ∅ ->
  process_env (forward_environment o p) !! name = forwarded_inside_display o name.
Proof.
  intros Hempty. unfold forward_environment. cbv zeta.
  rewrite !set_env_opt_lookup.
  assert (Hdisp :
    process_env
      match g_getenv o "DISPLAY" with
      | Some display =>
          match g_getenv o "XAUTHORITY" with
          | Some xauthority =>
              process_set_env (process_set_env p "DISPLAY" display)
                "XAUTHORITY" xauthority
          | None =>
              process_set_env (process_set_env p "DISPLAY" display) "XAUTHORITY"
                (g_build_filename [g_get_home_dir o; ".Xauthority"%string])
          end
      | None => p
      end !! name
    = if decide ("XAUTHORITY"%string = name)
      then match g_getenv o "DISPLAY" with
           | Some _ =>
               Some (default
                       (g_build_filename [g_get_home_dir o; ".Xauthority"%string])
                       (g_getenv o "XAUTHORITY"))
           | None => None
           end
      else if decide ("DISPLAY"%string = name) then g_getenv o "DISPLAY"
           else None).
  { destruct (g_getenv o "DISPLAY") as [d |].
    - destruct (g_getenv o "XAUTHORITY") as [x |]; cbn;
        rewrite lookup_insert; case_decide; try reflexivity;
        rewrite lookup_insert, Hempty; case_decide; reflexivity.
    - rewrite Hempty. repeat case_decide; reflexivity. }
  rewrite Hdisp. clear Hdisp.
  unfold forwarded_inside_display, on_whitelist, whitelist.
  repeat case_decide; subst; try discriminate;
    match goal with
    | H : _ <> ?n |- _ =>
        is_var n; cbn [existsb];
        repeat match goal with
               | H' : _ <> n |- _ =>
                   apply not_eq_sym, String.eqb_neq in H'; rewrite H'; clear H'
               end;
        reflexivity
    | |- _ = (if ?b then _ else if ?c then _ else _) =>
        let b' := eval vm_compute in b in
        let c' := eval vm_compute in c in
        change b with b'; change c with c'; cbv iota;
        repeat first
          [ reflexivity
          | match goal with
            | |- context [match g_getenv o ?k with _ => _ end] =>
                destruct (g_getenv o k)
            end ]
    end.
Qed.

Lemma launched_priv s abs :
  priv (launched klass o s abs)
  = with_x_server_process (Some (launched_process klass o s abs))
      (priv (write_authority_file o (prepared klass o s)))
  /\ authority (launched klass o s abs) = authority s
  /\ trace (launched klass o s abs)
     = trace (snd (build_command klass o (prepared klass o s) abs))
       ++ [ProcessStart (launched_process klass o s abs)
             (process_start_ok o (launched_process klass o s abs))].
Proof.
  unfold launched. cbv zeta.
  destruct (build_command_frame (prepared klass o s) abs) as (Hp & Ha & _).
  cbn. rewrite Hp, Ha. auto.
Qed.

(** C9, as the code has it: when [start] gets as far as spawning, the
    process it hands to [process_start] has its environment cleared and
    carries exactly: DISPLAY, LD_PRELOAD, LD_LIBRARY_PATH, PATH and
    LIGHTDM_TEST_ROOT when set in the parent, and XAUTHORITY only when
    DISPLAY is set in the parent (the parent's value, or
    <home>/.Xauthority when the parent has none).  No other variable
    reaches the child. *)
Theorem child_environment_whitelist s c abs :
  x_server_process (priv s) = None ->
  command (priv s) = Some c ->
  fst (get_absolute_command o c) = Some abs ->
  let p := launched_process klass o s abs in
  let r := x_server_local_start klass o s in
  x_server_process (priv (snd r)) = Some p
  /\ ProcessStart p (fst r) ∈ trace (snd r)
  /\ clear_environment p = true
  /\ forall name,
       process_exec_environment (g_getenv o) p name
       = forwarded_inside_display o name.
Proof.
  intros Hproc Hcmd Habs p r. subst r.
  rewrite (start_launch s c abs Hproc Hcmd Habs). cbv zeta. fold p.
  destruct (launched_priv s abs) as (Hpriv & _ & Htrace). fold p in Hpriv, Htrace.
  assert (Hclear : clear_environment p = true).
  { subst p. unfold launched_process.
    now destruct (forward_environment_frame
                    (process_set_command (logged_process klass o (priv s))
                       (fst (build_command klass o (prepared klass o s) abs))))
      as (_ & ->). }
  assert (Hattached : x_server_process (priv (launched klass o s abs)) = Some p)
    by now rewrite Hpriv.
  assert (Hspawned : forall ok, process_start_ok o p = ok ->
                       ProcessStart p ok ∈ trace (launched klass o s abs)).
  { intros ok <-. rewrite Htrace. apply elem_of_app. right. now left. }
  split; [| split; [| split; [exact Hclear |]]].
  - destruct (process_start_ok o p); cbn [snd]; [exact Hattached |].
    now destruct (stopped_cb_priv (launched klass o s abs)) as (-> & _).
  - destruct (process_start_ok o p) eqn:Hok; cbn [fst snd]; [now apply Hspawned |].
    rewrite stopped_cb_trace. apply elem_of_app. left. now apply Hspawned.
  - intros name. unfold process_exec_environment. rewrite Hclear.
    subst p. unfold launched_process.
    rewrite forward_environment_lookup by reflexivity.
    now destruct (forwarded_inside_display o name).
Qed.


Lemma start_accepted_iff s :
  start_accepted s = true
  <-> x_server_process (priv s) = None /\ exists c, command (priv s) = Some c.
Proof.
  unfold start_accepted.
  destruct (x_server_process (priv s)), (command (priv s)); split;
    intros H; try discriminate H; try reflexivity.
  - destruct H as (H & _). discriminate H.
  - destruct H as (H & _). discriminate H.
  - eauto.
  - destruct H as (_ & c & H). discriminate H.
Qed.

(** A [start] that fails its precondition checks returns FALSE and leaves
    the process handle and the authority file alone; it can only clear
    [got_signal]. *)
Lemma start_rejected s :
  start_accepted s = false ->
  let r := x_server_local_start klass o s in
  fst r = false
  /\ x_server_process (priv (snd r)) = x_server_process (priv s)
  /\ authority_file (priv (snd r)) = authority_file (priv s)
  /\ authority (snd r) = authority s
  /\ (got_signal (priv (snd r)) = true -> got_signal (priv s) = true).
Proof.
  unfold start_accepted, x_server_local_start.
  destruct (x_server_process (priv s)) eqn:Hproc; [intros _; cbn; auto |].
  change (command (priv (on_priv (with_got_signal false) s)))
    with (command (priv s)).
  destruct (command (priv s)); [discriminate |].
  intros _. cbn. rewrite Hproc. repeat split; auto. discriminate.
Qed.

(** A [start] that gets past its checks attaches a process and resets
    [got_signal]; an authority file is in place afterwards only if the
    server has an authority and [start] returned TRUE, or if one was in
    place before on a server without authority. *)
Lemma start_accepted_effect s :
  start_accepted s = true ->
  let r := x_server_local_start klass o s in
  x_server_process (priv (snd r)) <> None
  /\ got_signal (priv (snd r)) = false
  /\ authority (snd r) = authority s
  /\ (authority s = None ->
      authority_file (priv (snd r)) = authority_file (priv s))
  /\ (fst r = false -> authority s <> None ->
      authority_file (priv (snd r)) = None).
Proof.
  intros Hacc. apply start_accepted_iff in Hacc as (Hproc & c & Hcmd).
  destruct (fst (get_absolute_command o c)) as [abs |] eqn:Habs; cbv zeta.
  - rewrite (start_launch s c abs Hproc Hcmd Habs). cbv zeta.
    destruct (launched_priv s abs) as (Hpriv & Hauth & _).
    assert (Hfile : authority_file (priv (launched klass o s abs))
                    = authority_file (priv (write_authority_file o (prepared klass o s))))
      by now rewrite Hpriv.
    assert (Hkeep : authority s = None ->
                    authority_file (priv (launched klass o s abs))
                    = authority_file (priv s)).
    { intros Hnone. rewrite Hfile, write_authority_file_file.
      change (authority (prepared klass o s)) with (authority s).
      now rewrite Hnone. }
    assert (Hattached : x_server_process (priv (launched klass o s abs)) <> None)
      by (rewrite Hpriv; discriminate).
    assert (Hquiet : got_signal (priv (launched klass o s abs)) = false)
      by (rewrite Hpriv, write_authority_file_priv; reflexivity).
    destruct (stopped_cb_priv (launched klass o s abs))
      as (Hsp & Hsg & _ & Hsf & _).
    destruct (stopped_cb_globals (launched klass o s abs)) as (_ & Hsa & _).
    destruct (process_start_ok o _); cbn [fst snd].
    + split; [exact Hattached |]. split; [exact Hquiet |].
      split; [exact Hauth |]. split; [exact Hkeep |].
      intros H. discriminate H.
    + rewrite Hsp, Hsg, Hsa, Hsf, Hauth.
      split; [exact Hattached |]. split; [exact Hquiet |].
      split; [reflexivity |]. split.
      * intros Hnone. rewrite Hnone. now apply Hkeep.
      * intros _ Hsome. destruct (authority s); [reflexivity | congruence].
  - destruct (start_binary_missing s c Hproc Hcmd Habs) as (p & -> & _).
    set (t := emit_criticals _ _).
    assert (Ht : priv t = with_x_server_process (Some p)
                            (with_got_signal false (priv s))
                 /\ authority t = authority s).
    { subst t.
      destruct (emit_criticals_frame (snd (get_absolute_command o c))
                  (on_priv (with_x_server_process (Some p))
                     (on_priv (with_got_signal false) s)))
        as (-> & _ & -> & _). split; reflexivity. }
    destruct Ht as (Htp & Hta).
    destruct (stopped_cb_priv t) as (Hsp & Hsg & _ & Hsf & _).
    destruct (stopped_cb_globals t) as (_ & Hsa & _).
    cbn [fst snd]. rewrite Hsp, Hsg, Hsa, Hsf, Hta, Htp.
    split; [discriminate |]. split; [reflexivity |]. split; [reflexivity |].
    split.
    + intros Hnone. now rewrite Hnone.
    + intros _ Hsome. destruct (authority s); [reflexivity | congruence].
Qed.

End StartFacts.

(* ===================================================================== *)
(** * The lifecycle of a server *)
(* ===================================================================== *)

Section LifecycleFacts.

Import GLib XServerLocal Spec.

Variable klass : XServerLocalClass.

(** No event detaches the process. *)
Lemma deliver_keeps_process o s e :
  x_server_process (priv s) <> None ->
  x_server_process (priv (deliver klass o s e)) <> None.
Proof.
  intros Hattached. destruct e as [| signum |]; cbn [deliver].
  - assert (Hrej : start_accepted s = false).
    { unfold start_accepted. now destruct (x_server_process (priv s)). }
    pose proof (start_rejected klass o s Hrej) as Hr. cbv zeta in Hr.
    destruct Hr as (_ & Hp & _). rewrite Hp. exact Hattached.
  - destruct (x_server_process (priv s)) eqn:Hproc; [| congruence].
    destruct (got_signal_cb_priv signum s) as (-> & _). now rewrite Hproc.
  - destruct (x_server_process (priv s)) eqn:Hproc; [| congruence].
    destruct (stopped_cb_priv s) as (-> & _). now rewrite Hproc.
Qed.

Lemma run_keeps_process es open s :
  x_server_process (priv s) <> None ->
  x_server_process (priv (snd (run klass open s es))) <> None.
Proof.
  revert open s. induction es as [| [o e] es IH]; intros open s Hattached;
    [exact Hattached |].
  cbn [run]. apply IH. now apply deliver_keeps_process.
Qed.

(** Every event preserves [lifecycle_ok]. *)
Lemma deliver_lifecycle o open s e :
  lifecycle_ok open s ->
  lifecycle_ok (window_after klass o open s e) (deliver klass o s e).
Proof.
  intros (Hfile & Hsig & Hopen). unfold lifecycle_ok.
  destruct e as [| signum |]; cbn [deliver window_after].
  - destruct (start_accepted s) eqn:Hacc.
    + pose proof (start_accepted_effect klass o s Hacc) as Heff.
      cbv zeta in Heff.
      destruct Heff as (Hattached & Hquiet & Hauth & Hkeep & Hgone).
      repeat split.
      * destruct (fst (x_server_local_start klass o s)) eqn:Hres; [reflexivity |].
        destruct (authority s) as [a |] eqn:Ha.
        -- rewrite Hgone in H by (trivial; discriminate). congruence.
        -- rewrite Hkeep in H by reflexivity. apply Hfile in H as (_ & H).
           congruence.
      * rewrite Hauth. intros Hnone.
        rewrite Hkeep in H by exact Hnone. apply Hfile in H as (_ & H).
        congruence.
      * intros Htrue. congruence.
      * intros _. exact Hattached.
    + pose proof (start_rejected klass o s Hacc) as Hrej.
      cbv zeta in Hrej. destruct Hrej as (Hres & Hp & Hf & Ha & Hg).
      rewrite Hres, Hp, Hf, Ha. repeat split.
      * now apply Hfile.
      * now apply Hfile.
      * intros Htrue. apply Hsig, Hg, Htrue.
      * exact Hopen.
  - destruct (x_server_process (priv s)) eqn:Hproc.
    + destruct (got_signal_cb_priv signum s) as (Hp & Hf & Ha & _).
      rewrite Hp, Hf, Ha, Hproc. repeat split; try apply Hfile; auto; discriminate.
    + rewrite Hproc. repeat split; try apply Hfile; auto.
  - destruct (x_server_process (priv s)) eqn:Hproc.
    + destruct (stopped_cb_priv s) as (Hp & _ & _ & Hf & _).
      destruct (stopped_cb_globals s) as (_ & Ha & _).
      rewrite Hp, Hf, Ha, Hproc.
      assert (Hnone : match authority s with
                      | Some _ => None
                      | None => authority_file (priv s)
                      end = None).
      { destruct (authority s) eqn:Hauth; [reflexivity |].
        destruct (authority_file (priv s)) eqn:Hfs; [| reflexivity].
        destruct Hfile as (_ & Hfile); congruence. }
      rewrite Hnone. repeat split; try congruence; discriminate.
    + rewrite Hproc. repeat split; try apply Hfile; auto.
Qed.

Lemma run_lifecycle es open s :
  lifecycle_ok open s ->
  lifecycle_ok (fst (run klass open s es)) (snd (run klass open s es)).
Proof.
  revert open s. induction es as [| [o e] es IH]; intros open s Hok;
    [exact Hok |].
  cbn [run]. apply IH. now apply deliver_lifecycle.
Qed.

(** C7, as the code has it: start from a server without process, without
    authority file and with [got_signal] clear, and deliver any sequence
    of start, got_signal and stopped events.  Then the authority file is
    non-null only between a successful start and the subsequent stopped
    event; [got_signal] is set only on a server with a process attached;
    inside that window the process handle is non-null; the process
    handle, once attached, stays attached through every later event; a
    stopped event leaves [got_signal] as it is; and the stop path unlinks
    the authority file and clears the stored path: whenever a file is
    recorded, the stopped event gives back the VT reference if one is
    held, unlinks exactly that file, chains to the stop of the base
    class, and leaves no file recorded. *)
Theorem lifecycle_of_events s0 es more :
  x_server_process (priv s0) = None ->
  got_signal (priv s0) = false ->
  authority_file (priv s0) = None ->
  let r := run klass false s0 es in
  (authority_file (priv (snd r)) <> None -> fst r = true)
  /\ (got_signal (priv (snd r)) = true -> x_server_process (priv (snd r)) <> None)
  /\ (fst r = true -> x_server_process (priv (snd r)) <> None)
  /\ (x_server_process (priv (snd r)) <> None ->
      x_server_process (priv (snd (run klass (fst r) (snd r) more))) <> None)
  /\ (forall o,
        got_signal (priv (deliver klass o (snd r) EvStopped))
        = got_signal (priv (snd r)))
  /\ (forall o file,
        authority_file (priv (snd r)) = Some file ->
        trace (deliver klass o (snd r) EvStopped)
        = trace (snd r)
          ++ (if have_vt_ref (priv (snd r))
              then [VtUnref (vt (priv (snd r)))] else [])
          ++ [Unlink file; BaseStop]
        /\ authority_file (priv (deliver klass o (snd r) EvStopped)) = None).
Proof.
  intros Hproc Hsig Hfile r.
  assert (Hinit : lifecycle_ok false s0).
  { unfold lifecycle_ok. rewrite Hfile, Hsig. repeat split; congruence. }
  destruct (run_lifecycle es false s0 Hinit) as (Hf & Hg & Ho). fold r in Hf, Hg, Ho.
  split; [intros H; now apply Hf |]. split; [exact Hg |]. split; [exact Ho |].
  split; [apply run_keeps_process |].
  split.
  - intros o. cbn [deliver].
    destruct (x_server_process (priv (snd r))); [| reflexivity].
    apply stopped_cb_priv.
  - intros o file Hrec.
    destruct (Hf ltac:(congruence)) as (Hopen & Hauth).
    specialize (Ho Hopen). cbn [deliver].
    destruct (x_server_process (priv (snd r))); [| congruence].
    destruct (stopped_cb_priv (snd r)) as (_ & _ & _ & Hgone & _).
    rewrite stopped_cb_trace, Hgone, Hrec.
    destruct (authority (snd r)); [| congruence].
    split; reflexivity.
Qed.


(** A server as [x_server_local_init] leaves it satisfies the premises of
    the lifecycle theorem: no process, no authority file, [got_signal]
    clear. *)
Lemma init_is_idle fuel o s s' :
  x_server_local_init fuel o s = Some s' ->
  x_server_process (priv s') = None
  /\ got_signal (priv s') = false
  /\ authority_file (priv s') = None
  /\ command (priv s') = Some "X"%string
  /\ vt (priv s') = -1
  /\ lifecycle_ok false s'.
Proof.
  unfold x_server_local_init.
  destruct (x_server_local_get_unused_display_number fuel o s) as [[n t] |];
    [| discriminate].
  intros [= <-]. cbn. unfold lifecycle_ok. cbn.
  repeat split; congruence.
Qed.

End LifecycleFacts.

(* ===================================================================== *)
(** * The theorems at concrete servers *)
(* ===================================================================== *)


(** C6 on a quiet machine, where [X] is [/usr/bin/X]. *)
Lemma argument_assembly_witness :
  XServerLocal.launched_command
    (snd (XServerLocal.x_server_local_start XServerLocal.x_server_local_class
            Scenario.quiet (Scenario.server Scenario.assembly)))
  = Some "/usr/bin/X :2 -layout foo -seat seat0 -auth /run/lightdm/root/:2 -nolisten tcp vt7 -novtswitch"%string.
Proof.
  apply (argument_assembly XServerLocal.x_server_local_class Scenario.quiet
           (Scenario.server Scenario.assembly) "/usr/bin/X");
    reflexivity.
Defined.

(** C5 on the same server. *)
Lemma tcp_flags_of_command_witness :
  let s := Scenario.server Scenario.assembly in
  exists cmd,
    XServerLocal.launched_command
      (snd (XServerLocal.x_server_local_start XServerLocal.x_server_local_class
              Scenario.quiet s)) = Some cmd
    /\ (GLib.contains "-listen tcp" cmd = true
        <-> XServerLocal.allow_tcp (XServerLocal.priv s) = true
            /\ XServerLocal.xdmcp_server (XServerLocal.priv s) = None
            /\ 0 <= fst (XServerLocal.x_server_local_version_compare
                           Scenario.quiet s 1 17))
    /\ (GLib.contains "-nolisten tcp" cmd = true
        <-> XServerLocal.allow_tcp (XServerLocal.priv s) = false
            /\ XServerLocal.xdmcp_server (XServerLocal.priv s) = None)
    /\ ~ (GLib.contains "-listen tcp" cmd = true
          /\ GLib.contains "-nolisten tcp" cmd = true)
    /\ (XServerLocal.xdmcp_server (XServerLocal.priv s) <> None ->
        GLib.contains "-listen tcp" cmd = false
        /\ GLib.contains "-nolisten tcp" cmd = false).
Proof.
  intros s.
  apply (tcp_flags_of_command XServerLocal.x_server_local_class Scenario.quiet
           s "X" "/usr/bin/X").
  - reflexivity.
  - reflexivity.
  - reflexivity.
  - reflexivity.
  - vm_compute. repeat split.
Defined.

(** C5 as stated fails: a default server ([allow_tcp] false) whose
    configured command is "X -listen tcp" gets a command line with both
    flags. *)
Lemma command_with_both_tcp_flags :
  let s := Scenario.server Scenario.listen_in_command in
  exists cmd,
    XServerLocal.launched_command
      (snd (XServerLocal.x_server_local_start XServerLocal.x_server_local_class
              Scenario.quiet s)) = Some cmd
    /\ cmd = "/usr/bin/X -listen tcp :0 -auth /run/lightdm/root/:0 -nolisten tcp"%string
    /\ GLib.contains "-listen tcp" cmd = true
    /\ GLib.contains "-nolisten tcp" cmd = true
    /\ XServerLocal.allow_tcp (XServerLocal.priv s) = false.
Proof.
  eexists. vm_compute. repeat split.
Qed.

(** C9 with XAUTHORITY and PATH but no DISPLAY in the parent. *)
Lemma child_environment_whitelist_witness :
  let o := Scenario.xauthority_without_display in
  let s := Scenario.server Scenario.assembly in
  let p := XServerLocal.launched_process XServerLocal.x_server_local_class o s
             "/usr/bin/X" in
  let r := XServerLocal.x_server_local_start XServerLocal.x_server_local_class o s in
  XServerLocal.x_server_process (XServerLocal.priv (snd r)) = Some p
  /\ XServerLocal.ProcessStart p (fst r) ∈ XServerLocal.trace (snd r)
  /\ XServerLocal.clear_environment p = true
  /\ forall name,
       XServerLocal.process_exec_environment (XServerLocal.g_getenv o) p name
       = Spec.forwarded_inside_display o name.
Proof.
  intros o s.
  apply (child_environment_whitelist XServerLocal.x_server_local_class o s
           "X" "/usr/bin/X"); reflexivity.
Defined.

(** C9 as stated fails: XAUTHORITY is on the whitelist and set in the
    parent, so the claim lets it cross; without DISPLAY the code does not
    forward it. *)
Lemma xauthority_without_display_is_dropped :
  let o := Scenario.xauthority_without_display in
  let s := Scenario.server Scenario.assembly in
  let r := XServerLocal.x_server_local_start XServerLocal.x_server_local_class o s in
  exists p,
    XServerLocal.x_server_process (XServerLocal.priv (snd r)) = Some p
    /\ fst r = true
    /\ XServerLocal.process_exec_environment (XServerLocal.g_getenv o) p "XAUTHORITY"
       = None
    /\ Spec.forwarded o "XAUTHORITY" = Some "/var/run/xauth"%string.
Proof.
  eexists. vm_compute. repeat split.
Qed.

(** C7 on a quiet machine: after start and the ready signal the server
    is inside the window with its authority file recorded; a stopped
    event and one more start follow. *)
Lemma lifecycle_of_events_witness :
  let es := [(Scenario.quiet, XServerLocal.EvStart);
             (Scenario.quiet, XServerLocal.EvGotSignal XServerLocal.SIGUSR1)] in
  let more := [(Scenario.quiet, XServerLocal.EvStopped);
               (Scenario.quiet, XServerLocal.EvStart)] in
  let r := XServerLocal.run XServerLocal.x_server_local_class false
             (Scenario.server Scenario.assembly) es in
  XServerLocal.authority_file (XServerLocal.priv (snd r))
  = Some "/run/lightdm/root/:2"%string
  /\ XServerLocal.got_signal (XServerLocal.priv (snd r)) = true
  /\ (XServerLocal.authority_file (XServerLocal.priv (snd r)) <> None ->
      fst r = true)
  /\ (XServerLocal.got_signal (XServerLocal.priv (snd r)) = true ->
      XServerLocal.x_server_process (XServerLocal.priv (snd r)) <> None)
  /\ (fst r = true ->
      XServerLocal.x_server_process (XServerLocal.priv (snd r)) <> None)
  /\ (XServerLocal.x_server_process (XServerLocal.priv (snd r)) <> None ->
      XServerLocal.x_server_process
        (XServerLocal.priv
           (snd (XServerLocal.run XServerLocal.x_server_local_class (fst r)
                   (snd r) more))) <> None)
  /\ (forall o,
        XServerLocal.got_signal
          (XServerLocal.priv
             (XServerLocal.deliver XServerLocal.x_server_local_class o (snd r)
                XServerLocal.EvStopped))
        = XServerLocal.got_signal (XServerLocal.priv (snd r)))
  /\ (forall o file,
        XServerLocal.authority_file (XServerLocal.priv (snd r)) = Some file ->
        XServerLocal.trace
          (XServerLocal.deliver XServerLocal.x_server_local_class o (snd r)
             XServerLocal.EvStopped)
        = XServerLocal.trace (snd r)
          ++ (if XServerLocal.have_vt_ref (XServerLocal.priv (snd r))
              then [XServerLocal.VtUnref (XServerLocal.vt (XServerLocal.priv (snd r)))]
              else [])
          ++ [XServerLocal.Unlink file; XServerLocal.BaseStop]
        /\ XServerLocal.authority_file
             (XServerLocal.priv
                (XServerLocal.deliver XServerLocal.x_server_local_class o (snd r)
                   XServerLocal.EvStopped)) = None).
Proof.
  intros es more r.
  split; [reflexivity |]. split; [reflexivity |].
  apply (lifecycle_of_events XServerLocal.x_server_local_class
           (Scenario.server Scenario.assembly) es more); reflexivity.
Defined.

(** C7 as stated fails: after start, the ready signal and the stopped
    event the window is closed, yet the process handle is still attached
    and [got_signal] is still set; only the authority file is gone. *)
Lemma process_and_signal_outlive_stopped :
  let es := [(Scenario.quiet, XServerLocal.EvStart);
             (Scenario.quiet, XServerLocal.EvGotSignal XServerLocal.SIGUSR1);
             (Scenario.quiet, XServerLocal.EvStopped)] in
  let r := XServerLocal.run XServerLocal.x_server_local_class false
             (Scenario.server Scenario.assembly) es in
  fst r = false
  /\ XServerLocal.x_server_process (XServerLocal.priv (snd r)) <> None
  /\ XServerLocal.got_signal (XServerLocal.priv (snd r)) = true
  /\ XServerLocal.authority_file (XServerLocal.priv (snd r)) = None.
Proof.
  vm_compute. repeat split. discriminate.
Qed.

(** * Further properties of the code *)

(* ===================================================================== *)
(** * Further properties of [src/accounts.c] *)
(* ===================================================================== *)

Section MoreAccountsFacts.

Import Accounts.

Variable directory : string -> option CommonUser.

(** X1: a user looked up by name reads through to the directory: each
    accessor gives the field of the directory's record, or NULL (0 for the
    ids) when the directory does not know the name. *)
Theorem user_reads_through (name : string) :
  let user := fst (accounts_get_user_by_name directory (Some name)) in
  user_get_name user = cu_name <$> directory name
  /\ user_get_uid user = from_option cu_uid 0 (directory name)
  /\ user_get_gid user = from_option cu_gid 0 (directory name)
  /\ user_get_home_directory user = cu_home_directory <$> directory name
  /\ user_get_shell user = cu_shell <$> directory name.
Proof.
  unfold accounts_get_user_by_name.
  destruct (directory name); cbn; repeat split.
Qed.


End MoreAccountsFacts.

(* ===================================================================== *)
(** * Further properties of [src/seat-xdmcp-session.c] *)
(* ===================================================================== *)

Section MoreSeatFacts.

Import SeatXDMCPSession Spec.

(** X3: whatever the requests, the seat keeps the XDMCP session it was
    created for; it ends up holding a server exactly when some request
    had type "x", and that server is the one built from the session's
    address, display number and authority; the heap has then advanced by
    one object, and by none otherwise. *)
Theorem seat_after_requests h sess reqs :
  let wanted := existsb (fun s => String.eqb (session_type s) "x") reqs in
  let r := serve h (seat_xdmcp_session_new sess) reqs in
  session (snd (fst r)) = sess
  /\ x_server (snd (fst r)) = (if wanted then Some (server_of h sess) else None)
  /\ snd r = (if wanted then S h else h).
Proof.
  induction reqs as [| s reqs IH]; [repeat split |].
  cbn [serve existsb].
  destruct (String.eqb (session_type s) "x") eqn:Hty.
  - rewrite (create_first h sess s Hty).
    rewrite (serve_when_held (S h)
               {| session := sess; x_server := Some (server_of h sess) |}
               (server_of h sess) reqs eq_refl).
    repeat split.
  - rewrite (create_other_type h _ s Hty).
    destruct (serve h (seat_xdmcp_session_new sess) reqs) as [[rs seat'] h'].
    exact IH.
Qed.

End MoreSeatFacts.

(* ===================================================================== *)
(** * Further properties of the display-number allocator *)
(* ===================================================================== *)

Section MoreAllocatorFacts.

Import GLib XServerLocal.

Lemma release_link_subset (l : list Z) (n m : Z) :
  m ∈ release_link l n -> m ∈ l.
Proof.
  induction l as [| x l IH]; cbn; [trivial |].
  destruct (x =? n); intros H; [now right |].
  apply elem_of_cons in H as [-> | H]; [left | right; auto].
Qed.

Lemma release_link_NoDup (l : list Z) (n : Z) :
  NoDup l -> NoDup (release_link l n).
Proof.
  induction 1 as [| x l Hx Hl IH]; cbn; [constructor |].
  destruct (x =? n); [exact Hl |].
  constructor; [| exact IH]. intros H. apply Hx. eapply release_link_subset, H.
Qed.

Lemma release_link_gone (l : list Z) (n : Z) :
  NoDup l -> n ∉ release_link l n.
Proof.
  induction 1 as [| x l Hx Hl IH]; cbn; [apply not_elem_of_nil |].
  destruct (Z.eqb_spec x n) as [-> | Hne]; [exact Hx |].
  intros H. apply elem_of_cons in H as [-> | H]; [congruence | auto].
Qed.

Lemma release_link_others (l : list Z) (n m : Z) :
  m <> n -> m ∈ l -> m ∈ release_link l n.
Proof.
  intros Hne. induction l as [| x l IH]; cbn; [trivial |].
  intros H. apply elem_of_cons in H as [-> | H].
  - destruct (Z.eqb_spec x n); [congruence | left].
  - destruct (x =? n); [exact H | right; auto].
Qed.

Lemma reserve_appends_fresh fuel o s n s' :
  x_server_local_get_unused_display_number fuel o s = Some (n, s') ->
  (n ∉ display_numbers s)
  /\ display_numbers s' = display_numbers s ++ [n]
  /\ priv s' = priv s /\ trace s' = trace s /\ authority s' = authority s
  /\ address s' = address s.
Proof.
  unfold x_server_local_get_unused_display_number.
  destruct (first_unused fuel o (display_numbers s) _) as [n' |] eqn:Hloop;
    [| discriminate].
  intros [= <- <-]. split; [| repeat split].
  apply managed_false_iff. eapply in_use_managed, first_unused_not_in_use, Hloop.
Qed.

(** X4: over any history of reservations and releases, the reserved
    numbers stay pairwise distinct. *)
Theorem reserved_numbers_stay_distinct ops s s' :
  NoDup (display_numbers s) ->
  allocate s ops = Some s' ->
  NoDup (display_numbers s').
Proof.
  revert s. induction ops as [| [o [fuel | n]] ops IH]; intros s Hnd; cbn.
  - now intros [= <-].
  - destruct (x_server_local_get_unused_display_number fuel o s)
      as [[n t] |] eqn:Hres; [| discriminate].
    apply reserve_appends_fresh in Hres as (Hfresh & Hnums & _).
    apply IH. rewrite Hnums. apply NoDup_app. repeat split; [exact Hnd | | ].
    + intros x Hx Hin. apply list_elem_of_singleton in Hin. now subst.
    + apply NoDup_singleton.
  - apply IH. cbn. now apply release_link_NoDup.
Qed.

(** X5: a number that is not reserved is free whenever its lock file is
    absent, or readable with contents that read as a negative number, or
    readable and naming a PID whose probe fails with ESRCH; a reserved
    number is in use whatever the files say. *)
Theorem stale_locks_are_ignored o l n :
  (n ∈ l -> display_number_in_use o l n = true)
  /\ (n ∉ l ->
      g_file_test_exists o (lock_path n) = false
      \/ (exists data,
            g_file_get_contents o (lock_path n) = Some data
            /\ (atoi (g_strstrip data) < 0
                \/ kill0 o (atoi (g_strstrip data)) = KillError ESRCH)) ->
      display_number_in_use o l n = false).
Proof.
  unfold display_number_in_use. split.
  - intros Hin. apply managed_true_iff in Hin. now rewrite Hin.
  - intros Hout Hlock. apply managed_false_iff in Hout. rewrite Hout.
    destruct Hlock as [Habsent | (data & Hdata & Hstale)].
    + now rewrite Habsent.
    + destruct (g_file_test_exists o (lock_path n)); [| reflexivity].
      rewrite Hdata. cbv zeta.
      destruct Hstale as [Hneg | Hgone].
      * apply Z.ltb_lt in Hneg. now rewrite Hneg.
      * rewrite Hgone. cbn. now rewrite orb_true_r.
Qed.

(** X6: releasing a number from a list of distinct numbers makes exactly
    that number available again: it is no longer reserved and every other
    number still is. *)
Theorem release_frees_only_that_number n s :
  NoDup (display_numbers s) ->
  let s' := x_server_local_release_display_number n s in
  (n ∉ display_numbers s')
  /\ forall m, m <> n -> (m ∈ display_numbers s' <-> m ∈ display_numbers s).
Proof.
  intros Hnd. cbn. split; [now apply release_link_gone |].
  intros m Hne. split; [apply release_link_subset | now apply release_link_others].
Qed.

(** X7: two servers constructed one after the other get different
    display numbers, and both numbers are reserved afterwards. *)
Theorem servers_get_distinct_numbers fuel1 o1 fuel2 o2 s s1 s2 :
  x_server_local_init fuel1 o1 s = Some s1 ->
  x_server_local_init fuel2 o2 s1 = Some s2 ->
  display_number (priv s1) <> display_number (priv s2)
  /\ display_number (priv s1) ∈ display_numbers s2
  /\ display_number (priv s2) ∈ display_numbers s2.
Proof.
  unfold x_server_local_init.
  destruct (x_server_local_get_unused_display_number fuel1 o1 s)
    as [[n1 t1] |] eqn:H1; [| discriminate].
  intros [= <-]. cbn.
  destruct (x_server_local_get_unused_display_number fuel2 o2 _)
    as [[n2 t2] |] eqn:H2; [| discriminate].
  intros [= <-]. cbn.
  apply reserve_appends_fresh in H1 as (_ & Hn1 & _).
  apply reserve_appends_fresh in H2 as (Hfresh & Hn2 & _).
  cbn in Hfresh, Hn2. rewrite Hn1 in Hfresh, Hn2. rewrite Hn2.
  split; [| split].
  - intros ->. apply Hfresh. apply elem_of_app. right. now left.
  - apply elem_of_app. left. apply elem_of_app. right. now left.
  - apply elem_of_app. right. now left.
Qed.

End MoreAllocatorFacts.

Section MoreVersionFacts.

Import GLib XServerLocal Spec.

Lemma get_version_caches o s v :
  fst (x_server_local_get_version o s) = Some v ->
  version (snd (x_server_local_get_version o s)) = Some v.
Proof.
  unfold x_server_local_get_version.
  destruct (version s) eqn:Hv; [cbn; congruence |].
  destruct (spawn_x_version o) as [[status text] |]; [| discriminate].
  destruct (g_strsplit_nullable _ _ _) as [tokens c1].
  destruct (g_strv_length_nullable tokens) as [n c2].
  cbn [fst snd]. intros Hfound.
  now destruct (emit_criticals_frame (c1 ++ c2)
                  (set_version
                     (if status =? 0
                      then scan_lines (g_strsplit text "010" (-1)) None
                      else None)
                     (if 0 <? n then to_guint (atoi (token tokens 0)) else 0)
                     (if 1 <? n then to_guint (atoi (token tokens 1)) else 0) s))
    as (_ & _ & _ & _ & -> & _).
Qed.

(** X8: the probe is memoised.  Once a call has found a version, every
    later call returns that version and leaves the whole state as it is,
    whatever [X -version] would answer by then; comparisons made later
    therefore all see the same cached numbers. *)
Theorem version_probe_is_memoised o s v :
  fst (x_server_local_get_version o s) = Some v ->
  let s' := snd (x_server_local_get_version o s) in
  forall o' major minor,
    x_server_local_get_version o' s' = (Some v, s')
    /\ x_server_local_version_compare o' s' major minor
       = (fst (x_server_local_version_compare o s' major minor), s').
Proof.
  intros Hfound s' o' major minor.
  pose proof (get_version_caches o s v Hfound) as Hcached. fold s' in Hcached.
  split; [now apply get_version_memoised |].
  unfold x_server_local_version_compare.
  rewrite !(get_version_memoised _ s' v Hcached).
  destruct (major =? version_major s'); reflexivity.
Qed.

Lemma to_gint_small z : - 2 ^ 31 <= z < 2 ^ 31 -> to_gint (to_guint z) = z.
Proof.
  intros Hz. unfold to_gint, to_guint.
  rewrite Zplus_mod_idemp_l.
  rewrite Z.mod_small by lia. lia.
Qed.

(** X9: with a cached version whose numbers and the numbers compared
    against are below 2^31, the comparison orders (major, minor) pairs
    lexicographically: the result is negative, zero or positive as the
    cached version is older than, equal to or newer than the one asked
    about. *)
Theorem version_compare_is_lexicographic o s v major minor :
  version s = Some v ->
  0 <= version_major s < 2 ^ 31 -> 0 <= version_minor s < 2 ^ 31 ->
  0 <= major < 2 ^ 31 -> 0 <= minor < 2 ^ 31 ->
  let cmp := fst (x_server_local_version_compare o s major minor) in
  (cmp < 0 <-> version_major s < major
               \/ (version_major s = major /\ version_minor s < minor))
  /\ (cmp = 0 <-> version_major s = major /\ version_minor s = minor)
  /\ (0 < cmp <-> major < version_major s
                  \/ (version_major s = major /\ minor < version_minor s)).
Proof.
  intros Hv HM HN Hm Hn. unfold x_server_local_version_compare.
  rewrite (get_version_memoised o s v Hv).
  destruct (Z.eqb_spec major (version_major s)) as [-> | Hne]; cbn [fst];
    rewrite to_gint_small by lia; lia.
Qed.

(** The probe's numbers when it cannot find a version. *)
Lemma version_compare_unknown o s :
  version s = None -> version_major s = 0 -> version_minor s = 0 ->
  (spawn_x_version o = None
   \/ exists status text,
        spawn_x_version o = Some (status, text)
        /\ (if status =? 0 then scan_lines (g_strsplit text "010" (-1)) None
            else None) = None) ->
  fst (x_server_local_version_compare o s 1 17) = -1.
Proof.
  intros Hv Hmaj Hmin Hfail. unfold x_server_local_version_compare.
  destruct Hfail as [Hspawn | (status & text & Hspawn & Hnone)].
  - rewrite (get_version_spawn_failure o s Hv Hspawn), Hmaj. reflexivity.
  - rewrite (get_version_not_found o s status text Hv Hspawn Hnone).
    reflexivity.
Qed.

End MoreVersionFacts.

Section BannerFacts.

Import GLib XServerLocal.

Lemma find_version_banner v : find_version (XORG_VERSION_PREFIX +:+ v) = Some v.
Proof.
  unfold find_version, g_str_has_prefix.
  rewrite starts_with_app. reflexivity.
Qed.

Lemma scan_lines_found v lines : scan_lines lines (Some v) = Some v.
Proof. destruct lines; reflexivity. Qed.

Lemma scan_lines_first pre v post :
  Forall (fun line => g_str_has_prefix line XORG_VERSION_PREFIX = false) pre ->
  scan_lines (pre ++ (XORG_VERSION_PREFIX +:+ v) :: post) None = Some v.
Proof.
  induction 1 as [| line pre Hline Hpre IH].
  - cbn [app scan_lines]. rewrite find_version_banner. apply scan_lines_found.
  - cbn [app scan_lines]. unfold find_version at 1. rewrite Hline. exact IH.
Qed.

Lemma scan_lines_none lines :
  Forall (fun line => g_str_has_prefix line XORG_VERSION_PREFIX = false) lines ->
  scan_lines lines None = None.
Proof.
  induction 1 as [| line lines Hline Hlines IH]; [reflexivity |].
  cbn [scan_lines]. unfold find_version. rewrite Hline. exact IH.
Qed.

(** X20: the version of the X server is what follows the prefix on the
    first line of the probe's output that starts with ["X.Org X Server "],
    taken verbatim up to the end of that line; it is cached.  Lines
    before it that do not start with the prefix are skipped, and lines
    after it are not looked at. *)
Theorem version_is_first_banner_line o s text pre v post :
  version s = None ->
  spawn_x_version o = Some (0, text) ->
  g_strsplit text "010" (-1) = pre ++ (XORG_VERSION_PREFIX +:+ v) :: post ->
  Forall (fun line => g_str_has_prefix line XORG_VERSION_PREFIX = false) pre ->
  fst (x_server_local_get_version o s) = Some v
  /\ version (snd (x_server_local_get_version o s)) = Some v.
Proof.
  intros Hv Hspawn Hsplit Hpre.
  assert (Hfst : fst (x_server_local_get_version o s) = Some v).
  { apply (get_version_found o s 0 text v Hv Hspawn).
    change (0 =? 0) with true. cbv iota. rewrite Hsplit.
    now apply scan_lines_first. }
  split; [exact Hfst | now apply get_version_caches].
Qed.

End BannerFacts.

Section MoreCommandFacts.

Import GLib XServerLocal Spec.

Variable klass : XServerLocalClass.
Variable o : Oracle.

(** With one token left to produce, the remainder is not split. *)
Lemma strsplit_go_last (d : ascii) (s : string) :
  strsplit_go d (Some 1%nat) s = (s, []).
Proof.
  induction s as [| c s IH]; [reflexivity |].
  cbn [strsplit_go]. rewrite andb_false_r. now rewrite IH.
Qed.

(** A word without the delimiter is one token. *)
Lemma strsplit_go_word (d : ascii) (limit : option nat) (w : string) :
  mem_char d w = false -> strsplit_go d limit w = (w, []).
Proof.
  induction w as [| c w IH]; [reflexivity |].
  cbn [mem_char strsplit_go]. intros H. apply orb_false_elim in H as [Hc Hw].
  rewrite Hc. cbn [andb]. now rewrite IH.
Qed.

Lemma strsplit_go_first (d : ascii) (w rest : string) :
  mem_char d w = false ->
  strsplit_go d (Some 2%nat) (w +:+ String d rest) = (w, [rest]).
Proof.
  induction w as [| c w IH].
  - intros _. change ("" +:+ String d rest) with (String d rest).
    cbn [strsplit_go]. unfold ascii_eqb. rewrite Ascii.eqb_refl. cbn.
    now rewrite strsplit_go_last.
  - cbn [mem_char]. intros H. apply orb_false_elim in H as [Hc Hw].
    change (String c w +:+ String d rest) with (String c (w +:+ String d rest)).
    cbn [strsplit_go]. rewrite Hc. cbn [andb]. now rewrite IH.
Qed.

(** X11: the command is resolved through its first word only, and what
    follows the first space is kept verbatim: a command [binary args]
    whose binary is found in PATH at [abs] becomes [abs args], a command
    of one word becomes [abs], and the empty command resolves to nothing
    (after handing a NULL program name to the PATH search). *)
Theorem absolute_command_keeps_arguments binary args abs :
  mem_char " " binary = false ->
  g_find_program_in_path o binary = Some abs ->
  get_absolute_command o (binary +:+ " " +:+ args)
  = (Some (abs +:+ " " +:+ args), [])
  /\ (binary <> EmptyString -> get_absolute_command o binary = (Some abs, []))
  /\ get_absolute_command o EmptyString
     = (None, [Critical "g_find_program_in_path" "program != NULL"]).
Proof.
  intros Hword Hfound. split; [| split; [| reflexivity]].
  - unfold get_absolute_command, g_strsplit.
    change (binary +:+ " " +:+ args) with (binary +:+ String " " args).
    assert (Hsplit : strsplit_go " " (Some (Z.to_nat 2))
                       (binary +:+ String " " args) = (binary, [args]))
      by now apply strsplit_go_first.
    destruct (binary +:+ String " " args) eqn:Hcmd.
    + destruct binary; discriminate Hcmd.
    + change (2 <? 1) with false. cbv iota. rewrite Hsplit.
      cbv beta iota zeta. now rewrite Hfound.
  - intros Hne. unfold get_absolute_command, g_strsplit.
    destruct binary as [| c w] eqn:Hb; [congruence |].
    change (2 <? 1) with false. cbv iota.
    rewrite strsplit_go_word by exact Hword.
    cbv beta iota zeta. now rewrite Hfound.
Qed.

#[local] Arguments String.append !s1 s2 : simpl nomatch.

(** X12: whatever else is configured, the command line of a class without
    [add_args] hook starts with the resolved command followed by the
    display number. *)
Theorem command_starts_with_display s c abs :
  add_args klass = None ->
  x_server_process (priv s) = None ->
  command (priv s) = Some c ->
  fst (get_absolute_command o c) = Some abs ->
  exists cmd,
    launched_command (snd (x_server_local_start klass o s)) = Some cmd
    /\ starts_with (abs +:+ " :" +:+ fmt_d (to_gint (display_number (priv s))))
         cmd = true.
Proof.
  intros Hhook Hproc Hcmd Habs.
  eexists. split; [exact (start_command klass o s c abs Hproc Hcmd Habs) |].
  set (p := with_authority_file _ _).
  set (cmp := fst _).
  set (pre := abs +:+ " :" +:+ fmt_d (to_gint (display_number (priv s)))).
  assert (Hhead : starts_with pre (command_head p abs) = true).
  { unfold command_head. cbv zeta.
    change (display_number p) with (display_number (priv s)). fold pre.
    destruct (authority_file p), (xdg_seat p), (layout p), (config_file p);
      repeat first [ apply starts_with_app
                   | rewrite <- (append_nil_r pre) at 2; apply starts_with_app
                   | apply starts_with_longer ]. }
  unfold command_line. rewrite Hhook. cbv zeta.
  destruct (background p), (0 <=? vt p), (xdmcp_server p), (xdmcp_key p),
    (negb (xdmcp_port p =? 0)), (allow_tcp p), (0 <=? cmp);
    repeat first [ exact Hhead | apply starts_with_longer ].
Qed.

(** X10: when the version of the X server cannot be determined (the probe
    cannot be spawned, exits with a failure, or prints no version line),
    a server allowed to listen on TCP is started with neither TCP flag. *)
Theorem unknown_version_gets_no_tcp_flag s c abs :
  add_args klass = None ->
  x_server_process (priv s) = None ->
  command (priv s) = Some c ->
  fst (get_absolute_command o c) = Some abs ->
  listen_free (priv (write_authority_file o s)) abs ->
  version s = None -> version_major s = 0 -> version_minor s = 0 ->
  (spawn_x_version o = None
   \/ exists status text,
        spawn_x_version o = Some (status, text)
        /\ (if status =? 0 then scan_lines (g_strsplit text "010" (-1)) None
            else None) = None) ->
  allow_tcp (priv s) = true ->
  xdmcp_server (priv s) = None ->
  exists cmd,
    launched_command (snd (x_server_local_start klass o s)) = Some cmd
    /\ contains "-listen tcp" cmd = false
    /\ contains "-nolisten tcp" cmd = false.
Proof.
  intros Hhook Hproc Hcmd Habs Hfree Hv Hmaj Hmin Hfail Htcp Hx.
  eexists. split; [exact (start_command klass o s c abs Hproc Hcmd Habs) |].
  rewrite (version_compare_unknown o s Hv Hmaj Hmin Hfail).
  set (p := with_authority_file _ _).
  assert (Hfree' : listen_free p abs).
  { rewrite write_authority_file_priv in Hfree. exact Hfree. }
  destruct (command_line_flags klass p (-1) abs Hhook Hfree') as (Hl & Hn).
  change (xdmcp_server p) with (xdmcp_server (priv s)) in Hl, Hn.
  change (allow_tcp p) with (allow_tcp (priv s)) in Hl, Hn.
  rewrite Hx, Htcp in Hl, Hn. cbn in Hl, Hn.
  split; apply not_true_is_false; intros H.
  - apply (contains_shorter "-listen" " tcp") in H. congruence.
  - apply (contains_shorter "-nolisten" " tcp") in H. congruence.
Qed.

End MoreCommandFacts.

Section CountingFacts.

Import GLib XServerLocal.

Lemma total_app w (a b : list Effect) :
  total w (a ++ b) = total w a + total w b.
Proof. induction a as [| e a IH]; cbn [total app]; [lia | rewrite IH; lia]. Qed.

Lemma total_quiet w (q : list Effect) :
  (forall e, housekeeping e = true -> w e = 0) ->
  forallb housekeeping q = true -> total w q = 0.
Proof.
  intros Hw. induction q as [| e q IH]; [reflexivity |].
  cbn [forallb total]. intros H. apply andb_prop in H as [He Hq].
  rewrite (Hw e He), (IH Hq). reflexivity.
Qed.

Lemma quietly_refl s : quietly_extends s s.
Proof. exists []. split; [now rewrite app_nil_r | reflexivity]. Qed.

Lemma quietly_trans s t u :
  quietly_extends s t -> quietly_extends t u -> quietly_extends s u.
Proof.
  intros (q1 & H1 & Q1) (q2 & H2 & Q2). exists (q1 ++ q2). split.
  - now rewrite H2, H1, app_assoc.
  - rewrite forallb_app, Q1, Q2. reflexivity.
Qed.

Lemma quietly_total w s t :
  (forall e, housekeeping e = true -> w e = 0) ->
  quietly_extends s t -> total w (trace t) = total w (trace s).
Proof.
  intros Hw (q & -> & Hq). rewrite total_app, (total_quiet w q Hw Hq). lia.
Qed.

Lemma emit_criticals_quiet cs s : quietly_extends s (emit_criticals cs s).
Proof.
  exists (Failed <$> cs). split; [apply emit_criticals_trace |].
  induction cs; [reflexivity | exact IHcs].
Qed.

Lemma write_authority_file_quiet o u :
  quietly_extends u (write_authority_file o u).
Proof.
  unfold write_authority_file.
  destruct (authority u); [| apply quietly_refl].
  destruct (authority_file (priv u)).
  - eexists [_]. split; reflexivity.
  - eexists [_; _]. cbn. rewrite <- app_assoc. split; reflexivity.
Qed.

Lemma get_version_quiet o u :
  quietly_extends u (snd (x_server_local_get_version o u)).
Proof.
  destruct (version u) as [v |] eqn:Hv.
  - unfold x_server_local_get_version. rewrite Hv. apply quietly_refl.
  - destruct (spawn_x_version o) as [[status text] |] eqn:Hspawn.
    + destruct (if status =? 0
                then scan_lines (g_strsplit text "010" (-1)) None
                else None) as [v |] eqn:Hscan.
      * destruct (get_version_found o u status text v Hv Hspawn Hscan) as (Ht & _).
        exists []. split; [now rewrite app_nil_r | reflexivity].
      * rewrite (get_version_not_found o u status text Hv Hspawn Hscan).
        eexists [_; _]. cbn. rewrite <- app_assoc. split; reflexivity.
    + rewrite (get_version_spawn_failure o u Hv Hspawn). apply quietly_refl.
Qed.

Lemma version_compare_quiet o u major minor :
  quietly_extends u (snd (x_server_local_version_compare o u major minor)).
Proof.
  unfold x_server_local_version_compare.
  pose proof (get_version_quiet o u) as H.
  destruct (x_server_local_get_version o u) as [v u'].
  destruct (major =? version_major u'); exact H.
Qed.

Lemma build_command_quiet klass o u abs :
  quietly_extends u (snd (build_command klass o u abs)).
Proof.
  pose proof (build_command_spec klass o u abs) as H. cbv zeta in H.
  rewrite H. cbn [snd].
  pose proof (write_authority_file_quiet o u) as Hw.
  destruct (xdmcp_server (priv (write_authority_file o u))); [exact Hw |].
  destruct (allow_tcp (priv (write_authority_file o u))); [| exact Hw].
  eapply quietly_trans; [exact Hw | apply version_compare_quiet].
Qed.

Lemma process_clear_environment klass o p :
  clear_environment (logged_process klass o p) = true.
Proof. reflexivity. Qed.

(** The shape of every [start]: a state [t] that differs from [s] by
    housekeeping effects and at most one [ProcessStart], with the VT and
    the display number untouched, and [stopped_cb] run on it whenever an
    accepted start fails. *)
Lemma start_shape klass o s :
  exists t quiet tail,
    trace t = trace s ++ quiet ++ tail
    /\ forallb housekeeping quiet = true
    /\ have_vt_ref (priv t) = have_vt_ref (priv s)
    /\ vt (priv t) = vt (priv s)
    /\ display_number (priv t) = display_number (priv s)
    /\ display_numbers t = display_numbers s
    /\ authority t = authority s
    /\ ((start_accepted s = false /\ tail = []
         /\ x_server_local_start klass o s = (false, t)
         /\ x_server_process (priv t) = x_server_process (priv s)
         /\ (got_signal (priv t) = true -> got_signal (priv s) = true)
         /\ (x_server_process (priv s) <> None ->
             got_signal (priv t) = got_signal (priv s)))
        \/ (start_accepted s = true
            /\ got_signal (priv t) = false
            /\ exists p, x_server_process (priv t) = Some p
               /\ clear_environment p = true
               /\ ((tail = [] /\ x_server_local_start klass o s = (false, stopped_cb t))
                   \/ (exists ok, tail = [ProcessStart p ok]
                       /\ x_server_local_start klass o s
                          = (ok, if ok then t else stopped_cb t))))).
Proof.
  destruct (x_server_process (priv s)) as [p0 |] eqn:Hproc.
  { exists (emit (Failed (Critical "x_server_local_start"
                            "server->priv->x_server_process == NULL")) s),
      [Failed (Critical "x_server_local_start"
                 "server->priv->x_server_process == NULL")], [].
    unfold x_server_local_start, start_accepted. rewrite Hproc.
    repeat (split; [reflexivity |]). left.
    repeat (split; [reflexivity |]). cbn. auto. }
  destruct (command (priv s)) as [c |] eqn:Hcmd.
  2:{ exists (emit (Failed (Critical "x_server_local_start"
                              "server->priv->command != NULL"))
                (on_priv (with_got_signal false) s)),
        [Failed (Critical "x_server_local_start"
                   "server->priv->command != NULL")], [].
      unfold x_server_local_start, start_accepted. rewrite Hproc.
      change (command (priv (on_priv (with_got_signal false) s)))
        with (command (priv s)).
      rewrite Hcmd.
      repeat (split; [reflexivity |]). left.
      repeat (split; [reflexivity |]). cbn. split; [now rewrite Hproc |]. split; [discriminate | congruence]. }
  assert (Hacc : start_accepted s = true).
  { unfold start_accepted. now rewrite Hproc, Hcmd. }
  destruct (fst (get_absolute_command o c)) as [abs |] eqn:Habs.
  - pose proof (start_launch klass o s c abs Hproc Hcmd Habs) as Hstart.
    cbv zeta in Hstart.
    destruct (launched_priv klass o s abs) as (Hpriv & Hauth & Htrace).
    destruct (build_command_quiet klass o (prepared klass o s) abs) as (q & Hq & Hquiet).
    destruct (forward_environment_frame o
                (process_set_command (logged_process klass o (priv s))
                   (fst (build_command klass o (prepared klass o s) abs))))
      as (_ & Hclear).
    destruct (build_command_frame klass o (prepared klass o s) abs) as (_ & _ & Hnums).
    exists (launched klass o s abs), q, [ProcessStart (launched_process klass o s abs)
             (process_start_ok o (launched_process klass o s abs))].
    rewrite Hpriv, assembly_priv.
    split; [rewrite Htrace, Hq, <- app_assoc; reflexivity |].
    split; [exact Hquiet |].
    repeat (split; [first [reflexivity | exact Hauth | exact Hnums] |]).
    right. split; [exact Hacc |]. split; [reflexivity |].
    eexists. split; [reflexivity |]. split; [exact Hclear |].
    right. eexists. split; [reflexivity | exact Hstart].
  - assert (Hstart : x_server_local_start klass o s
                     = (false,
                        stopped_cb
                          (emit_criticals (snd (get_absolute_command o c))
                             (prepared klass o s)))).
    { unfold x_server_local_start.
      rewrite Hproc. cbn [priv on_priv set_priv command with_got_signal].
      rewrite Hcmd.
      destruct (get_absolute_command o c) as [abs cs]. cbn in Habs. subst abs.
      reflexivity. }
    destruct (emit_criticals_frame (snd (get_absolute_command o c))
                (prepared klass o s))
      as (Hpriv & Hnums & Hauth & _).
    destruct (emit_criticals_quiet (snd (get_absolute_command o c))
                (prepared klass o s))
      as (q & Hq & Hquiet).
    exists (emit_criticals (snd (get_absolute_command o c)) (prepared klass o s)),
      q, []. rewrite Hpriv, Hnums, Hauth.
    split; [rewrite Hq, app_nil_r; reflexivity |].
    split; [exact Hquiet |].
    repeat (split; [reflexivity |]).
    right. split; [exact Hacc |]. split; [reflexivity |].
    eexists. split; [reflexivity |]. split; [reflexivity |].
    left; split; [reflexivity | exact Hstart].
Qed.

End CountingFacts.

Section MoreStartFacts.

Import GLib XServerLocal.

Variable klass : XServerLocalClass.
Variable o : Oracle.

(** X13: a [start] that fails a precondition (a process is already
    attached, or no command is set) returns FALSE having logged one
    critical and nothing else: no event of the base class, no process
    started, and the display number, the VT reference and the authority
    file are all kept. *)
Theorem rejected_start_only_logs s :
  start_accepted s = false ->
  let r := x_server_local_start klass o s in
  fst r = false
  /\ (exists c, trace (snd r) = trace s ++ [Failed c])
  /\ display_numbers (snd r) = display_numbers s
  /\ x_server_process (priv (snd r)) = x_server_process (priv s)
  /\ have_vt_ref (priv (snd r)) = have_vt_ref (priv s)
  /\ authority_file (priv (snd r)) = authority_file (priv s).
Proof.
  unfold start_accepted, x_server_local_start.
  destruct (x_server_process (priv s)) eqn:Hproc.
  - intros _. cbn. rewrite Hproc. repeat split; eauto.
  - change (command (priv (on_priv (with_got_signal false) s)))
      with (command (priv s)).
    destruct (command (priv s)); [discriminate |].
    intros _. cbn. rewrite Hproc. repeat split; eauto.
Qed.

Lemma stopped_cb_total w s :
  (forall v, w (VtUnref v) = 0) -> (forall f, w (Unlink f) = 0) ->
  w BaseStop = 0 ->
  total w (trace (stopped_cb s)) = total w (trace s).
Proof.
  intros Hu Hl Hb. rewrite stopped_cb_trace, !total_app.
  destruct (have_vt_ref (priv s)), (authority s), (authority_file (priv s));
    cbn [total]; rewrite ?Hu, ?Hl, ?Hb; lia.
Qed.


(** X15: a [start] that returns TRUE leaves the server waiting for the
    ready signal: [got_signal] is reset, the configured process is
    attached with a cleared environment, and beyond housekeeping the only
    effect is the start of that process; the base class is not started
    yet, and VT and display number stay reserved. *)
Theorem started_server_awaits_signal s :
  fst (x_server_local_start klass o s) = true ->
  let s' := snd (x_server_local_start klass o s) in
  got_signal (priv s') = false
  /\ have_vt_ref (priv s') = have_vt_ref (priv s)
  /\ vt (priv s') = vt (priv s)
  /\ display_numbers s' = display_numbers s
  /\ exists p q,
       x_server_process (priv s') = Some p
       /\ clear_environment p = true
       /\ trace s' = trace s ++ q ++ [ProcessStart p true]
       /\ forallb housekeeping q = true.
Proof.
  intros Hfst.
  destruct (start_shape klass o s)
    as (t & q & tail & Htrace & Hq & Hhave & Hvt & Hnum & Hnums & Hauth & Hcase).
  destruct Hcase as [(_ & _ & Hst & _)
                    | (_ & Hgot & p & Hp & Hclear & [(_ & Hst) | (ok & -> & Hst)])];
    rewrite Hst in Hfst |- *; cbn in Hfst; try discriminate.
  subst ok. cbv zeta. cbn [snd].
  repeat (split; [assumption |]).
  exists p, q. repeat (split; [assumption |]). exact Hq.
Qed.

End MoreStartFacts.

Section HistoryFacts.

Import GLib XServerLocal.

Variable klass : XServerLocalClass.

(** What a call other than an event leaves alone. *)
Lemma setter_frame o s c :
  (forall e, c <> CallEvent e) ->
  let s' := perform klass o s c in
  x_server_process (priv s') = x_server_process (priv s)
  /\ got_signal (priv s') = got_signal (priv s)
  /\ display_numbers s' = display_numbers s
  /\ ((trace s' = trace s /\ have_vt_ref (priv s') = have_vt_ref (priv s)
       /\ vt (priv s') = vt (priv s))
      \/ exists new_vt, c = CallSetVt new_vt).
Proof.
  intros Hc. destruct c; try (now cbn; auto 10).
  - now destruct (Hc e).
  - cbn [perform]. unfold x_server_local_set_vt.
    destruct (have_vt_ref (priv s)), (0 <? vt0); cbn; eauto 10.
Qed.

Lemma set_vt_total w new_vt s :
  (forall v, w (VtRef v) = 0) -> (forall v, w (VtUnref v) = 0) ->
  total w (trace (x_server_local_set_vt new_vt s)) = total w (trace s).
Proof.
  intros Hr Hu. unfold x_server_local_set_vt.
  destruct (have_vt_ref (priv s)), (0 <? new_vt); cbn [trace emit on_priv set_priv priv];
    rewrite ?total_app; cbn [total]; rewrite ?Hr, ?Hu; lia.
Qed.

Lemma setter_total w o s c :
  (forall e, c <> CallEvent e) ->
  (forall v, w (VtRef v) = 0) -> (forall v, w (VtUnref v) = 0) ->
  total w (trace (perform klass o s c)) = total w (trace s).
Proof.
  intros Hc Hr Hu.
  destruct (setter_frame o s c Hc) as (_ & _ & _ & [(-> & _) | (new_vt & ->)]);
    [reflexivity | now apply set_vt_total].
Qed.

Lemma start_total w o s :
  (forall e, housekeeping e = true -> w e = 0) ->
  (forall v, w (VtUnref v) = 0) -> (forall f, w (Unlink f) = 0) ->
  w BaseStop = 0 ->
  exists tail,
    total w (trace (snd (x_server_local_start klass o s)))
    = total w (trace s) + total w tail
    /\ (tail = [] \/ (start_accepted s = true /\ exists p ok, tail = [ProcessStart p ok])).
Proof.
  intros Hw Hu Hl Hb.
  destruct (start_shape klass o s)
    as (t & q & tail & Htrace & Hq & _ & _ & _ & _ & _ & Hcase).
  exists tail.
  assert (Ht : total w (trace t) = total w (trace s) + total w tail).
  { rewrite Htrace, !total_app, (total_quiet w q Hw Hq). lia. }
  destruct Hcase as [(_ & -> & Hst & _)
                    | (Hacc & _ & p & _ & _ & [(-> & Hst) | (ok & -> & Hst)])];
    rewrite Hst; cbn [snd].
  - split; [exact Ht | now left].
  - split; [rewrite stopped_cb_total by assumption; exact Ht | now left].
  - split; [| right; eauto].
    destruct ok; [exact Ht | rewrite stopped_cb_total by assumption; exact Ht].
Qed.

(** The counting invariant of a server: [c0] processes started and [b0]
    starts of the base class before the server had a process. *)
Lemma perform_counts c0 b0 o s c :
  let inv s :=
    match x_server_process (priv s) with
    | None => total spawn_weight (trace s) = c0
              /\ total base_start_weight (trace s) = b0
    | Some _ => total spawn_weight (trace s) <= c0 + 1
                /\ total base_start_weight (trace s) <= b0 + 1
                /\ (got_signal (priv s) = false ->
                    total base_start_weight (trace s) = b0)
    end in
  inv s -> inv (perform klass o s c).
Proof.
  cbv beta zeta. intros Hinv.
  destruct c as [e | | | | | | | | | |].
  2-11: match goal with |- context [perform _ _ _ ?c] =>
          assert (Hc : forall e, c <> CallEvent e) by discriminate;
          destruct (setter_frame o s c Hc) as (-> & -> & _);
          rewrite !(setter_total _ o s c Hc) by reflexivity; exact Hinv
        end.
  destruct e as [| signum |]; cbn [perform deliver].
  - destruct (start_shape klass o s)
      as (t & q & tail & Htrace & Hq & _ & _ & _ & _ & _ & Hcase).
    assert (Ht : forall w, (forall e, housekeeping e = true -> w e = 0) ->
                 total w (trace t) = total w (trace s) + total w tail).
    { intros w Hw. rewrite Htrace, !total_app, (total_quiet w q Hw Hq). lia. }
    pose proof (Ht spawn_weight ltac:(now intros [])) as Hsp.
    pose proof (Ht base_start_weight ltac:(now intros [])) as Hbs.
    destruct Hcase as [(_ & -> & Hst & Hp & _ & Hgot)
                      | (Hacc & Hgot & p & Hp & _ & Hst)].
    + rewrite Hst. cbn [snd total] in *. rewrite Hp.
      destruct (x_server_process (priv s)) eqn:Hproc; [| lia].
      rewrite (Hgot ltac:(discriminate)). destruct Hinv as (? & ? & ?).
      repeat split; try lia. intros Hg. specialize (H1 Hg). lia.
    + apply start_accepted_iff in Hacc as (Hnone & _).
      rewrite Hnone in Hinv. destruct Hinv as (Hc & Hb).
      assert (Hs' : exists s', snd (x_server_local_start klass o s) = s'
                    /\ x_server_process (priv s') = Some p
                    /\ total spawn_weight (trace s') = total spawn_weight (trace t)
                    /\ total base_start_weight (trace s')
                       = total base_start_weight (trace t)).
      { destruct (stopped_cb_priv t) as (Hsp' & _).
        destruct Hst as [(_ & ->) | (ok & _ & ->)]; [| destruct ok]; cbn [snd];
          eexists; (split; [reflexivity |]);
          rewrite ?Hsp', ?stopped_cb_total by reflexivity; auto. }
      destruct Hs' as (s' & -> & -> & -> & ->).
      assert (Htail : total spawn_weight tail <= 1 /\ total base_start_weight tail = 0).
      { destruct Hst as [(-> & _) | (ok & -> & _)]; cbn; lia. }
      lia.
  - destruct (x_server_process (priv s)) eqn:Hproc; [| now rewrite Hproc].
    unfold got_signal_cb.
    destruct ((signum =? SIGUSR1) && negb (got_signal (priv s))) eqn:Hcond;
      [| now rewrite Hproc].
    apply andb_prop in Hcond as (_ & Hg). apply negb_true_iff in Hg.
    cbn [priv emit on_priv set_priv x_server_process with_got_signal trace got_signal].
    rewrite Hproc, !total_app. cbn [total spawn_weight base_start_weight].
    destruct Hinv as (? & ? & Hb). specialize (Hb Hg).
    repeat split; try lia.
  - destruct (x_server_process (priv s)) eqn:Hproc; [| now rewrite Hproc].
    destruct (stopped_cb_priv s) as (-> & -> & _).
    rewrite !stopped_cb_total by reflexivity. now rewrite Hproc.
Qed.

(** X16: whatever is called on a server that has no process yet, and in
    whatever order (starts, signals of the process, setters), at most one
    process is ever started for it and the base class is started at most
    once. *)
Theorem one_process_one_ready cs s :
  x_server_process (priv s) = None ->
  let s' := perform_all klass s cs in
  total spawn_weight (trace s') <= total spawn_weight (trace s) + 1
  /\ total base_start_weight (trace s')
     <= total base_start_weight (trace s) + 1.
Proof.
  intros Hproc. cbv zeta.
  set (c0 := total spawn_weight (trace s)).
  set (b0 := total base_start_weight (trace s)).
  pose (inv := fun s : State =>
    match x_server_process (priv s) with
    | None => total spawn_weight (trace s) = c0
              /\ total base_start_weight (trace s) = b0
    | Some _ => total spawn_weight (trace s) <= c0 + 1
                /\ total base_start_weight (trace s) <= b0 + 1
                /\ (got_signal (priv s) = false ->
                    total base_start_weight (trace s) = b0)
    end).
  assert (Hinv : inv s) by (unfold inv; rewrite Hproc; split; reflexivity).
  assert (Hend : inv (perform_all klass s cs)).
  { clearbody c0 b0. clear Hproc. revert s Hinv.
    induction cs as [| [o c] cs IH]; intros s Hinv; [exact Hinv |].
    cbn [perform_all]. apply IH. exact (perform_counts c0 b0 o s c Hinv). }
  unfold inv in Hend.
  destruct (x_server_process (priv (perform_all klass s cs))); lia.
Qed.

End HistoryFacts.

Section VtFacts.

Import GLib XServerLocal.

Variable klass : XServerLocalClass.

Lemma stopped_cb_balanced s : vt_balanced s -> vt_balanced (stopped_cb s).
Proof.
  intros H v. destruct (stopped_cb_priv s) as (_ & _ & -> & _).
  rewrite stopped_cb_trace, !total_app, H.
  destruct (have_vt_ref (priv s)), (authority s), (authority_file (priv s)),
    (vt (priv s) =? v) eqn:E; cbn [total vt_weight andb]; rewrite ?E; lia.
Qed.

Lemma set_vt_balanced new_vt s :
  vt_balanced s -> vt_balanced (x_server_local_set_vt new_vt s).
Proof.
  intros H v. unfold x_server_local_set_vt.
  destruct (have_vt_ref (priv s)) eqn:Hhave, (0 <? new_vt);
    cbn [trace emit on_priv set_priv priv have_vt_ref vt with_have_vt_ref with_vt];
    rewrite ?total_app, H, Hhave; cbn [total vt_weight andb];
    destruct (vt (priv s) =? v), (new_vt =? v); lia.
Qed.

Lemma start_balanced o s :
  vt_balanced s -> vt_balanced (snd (x_server_local_start klass o s)).
Proof.
  intros H.
  destruct (start_shape klass o s)
    as (t & q & tail & Htrace & Hq & Hhave & Hvt & _ & _ & _ & Hcase).
  assert (Ht : vt_balanced t).
  { intros v. rewrite Htrace, !total_app, Hhave, Hvt, <- H.
    rewrite (total_quiet _ q) by (try exact Hq; now intros []).
    assert (total (vt_weight v) tail = 0); [| lia].
    destruct Hcase as [(_ & -> & _) | (_ & _ & p & _ & _ & [(-> & _) | (ok & -> & _)])];
      reflexivity. }
  destruct Hcase as [(_ & _ & -> & _) | (_ & _ & p & _ & _ & [(_ & ->) | (ok & _ & ->)])];
    cbn [snd]; [exact Ht | now apply stopped_cb_balanced |].
  destruct ok; [exact Ht | now apply stopped_cb_balanced].
Qed.

Lemma perform_balanced o s c :
  vt_balanced s -> vt_balanced (perform klass o s c).
Proof.
  intros H. destruct c as [e | | new_vt | | | | | | | |];
    try exact H; [| now apply set_vt_balanced].
  destruct e as [| signum |]; cbn [perform deliver].
  - now apply start_balanced.
  - destruct (x_server_process (priv s)); [| exact H].
    unfold got_signal_cb.
    destruct ((signum =? SIGUSR1) && negb (got_signal (priv s))); [| exact H].
    intros v. cbn [trace emit on_priv set_priv priv have_vt_ref vt with_got_signal].
    rewrite total_app, H. cbn. lia.
  - destruct (x_server_process (priv s)); [| exact H].
    now apply stopped_cb_balanced.
Qed.

(** X18: VT references are balanced over the whole life of a server.
    After any history of calls (setting the VT any number of times,
    starts that fail or succeed, signals and stops of the process) the
    references taken and not yet given back are exactly the one the
    server records as held; finalising the server gives that one back, so
    no VT stays referenced. *)
Theorem vt_references_balance cs s :
  vt_balanced s ->
  let s' := perform_all klass s cs in
  vt_balanced s'
  /\ forall v, total (vt_weight v) (trace (x_server_local_finalize s')) = 0.
Proof.
  intros H. cbv zeta.
  assert (Hend : vt_balanced (perform_all klass s cs)).
  { revert s H. induction cs as [| [o c] cs IH]; intros s H; [exact H |].
    cbn [perform_all]. apply IH. now apply perform_balanced. }
  split; [exact Hend |].
  intros v. specialize (Hend v). unfold x_server_local_finalize.
  cbn [priv on_priv set_priv have_vt_ref vt with_x_server_process with_command
       with_config_file with_layout with_xdg_seat with_xdmcp_server
       with_xdmcp_key with_authority_file].
  destruct (have_vt_ref (priv (perform_all klass s cs)));
    cbn [trace emit on_priv set_priv] in *; rewrite ?total_app, Hend;
    cbn [total vt_weight andb]; [| reflexivity].
  destruct (vt (priv (perform_all klass s cs)) =? v); lia.
Qed.

End VtFacts.

Section MoreCallbackFacts.

Import GLib XServerLocal.

Lemma stopped_cb_idle u :
  have_vt_ref (priv u) = false ->
  (authority u = None \/ authority_file (priv u) = None) ->
  priv (stopped_cb u) = priv u
  /\ trace (stopped_cb u) = trace u ++ [BaseStop].
Proof.
  intros Hhave Hfile. split.
  - unfold stopped_cb. rewrite Hhave.
    cbv zeta.
    change (authority (x_server_local_release_display_number
                         (display_number (priv u)) u)) with (authority u).
    change (priv (x_server_local_release_display_number
                    (display_number (priv u)) u)) with (priv u).
    destruct Hfile as [-> | ->]; [reflexivity |].
    destruct (authority u); reflexivity.
  - rewrite stopped_cb_trace, Hhave.
    destruct Hfile as [-> | ->]; [reflexivity |].
    destruct (authority u); reflexivity.
Qed.

(** X17: the stopped signal is idempotent on resources.  When it arrives
    a second time, nothing is released twice: the handler only chains to
    the stop of the base class again, and the private structure and the
    set of reserved display numbers stay as the first run left them. *)
Theorem second_stopped_only_chains s :
  NoDup (display_numbers s) ->
  let s1 := stopped_cb s in
  trace (stopped_cb s1) = trace s1 ++ [BaseStop]
  /\ priv (stopped_cb s1) = priv s1
  /\ display_numbers (stopped_cb s1) = display_numbers s1.
Proof.
  intros Hnd. cbv zeta.
  destruct (stopped_cb_priv s) as (_ & _ & Hhave & Hfile & _).
  destruct (stopped_cb_globals s) as (Hnums & Hauth & _).
  assert (Hidle : authority (stopped_cb s) = None
                  \/ authority_file (priv (stopped_cb s)) = None).
  { rewrite Hauth, Hfile. destruct (authority s); auto. }
  destruct (stopped_cb_idle (stopped_cb s) Hhave Hidle) as (Hpriv & Htrace).
  split; [exact Htrace |]. split; [exact Hpriv |].
  destruct (stopped_cb_globals (stopped_cb s)) as (-> & _).
  assert (Hnum : display_number (priv (stopped_cb s)) = display_number (priv s)).
  { unfold stopped_cb. destruct (have_vt_ref (priv s)); cbv zeta;
      repeat match goal with
             | |- context [match ?a with Some _ => _ | None => _ end] => destruct a
             end; reflexivity. }
  rewrite Hnum, Hnums.
  apply release_link_absent. apply managed_false_iff.
  now apply release_link_gone.
Qed.

(** X19: the path of the authority file is chosen once.  A server without
    authority writes nothing; one with an authority gets a file, and every
    later write goes to that same file without creating the directory
    again, whatever the run directory is configured to by then. *)
Theorem authority_file_path_is_stable o o' s :
  (authority s = None -> write_authority_file o s = s)
  /\ (authority s <> None ->
      exists file,
        authority_file (priv (write_authority_file o s)) = Some file
        /\ write_authority_file o' (write_authority_file o s)
           = emit (AuthorityWrite file) (write_authority_file o s)).
Proof.
  split.
  - intros H. unfold write_authority_file. now rewrite H.
  - intros H. destruct (authority s) as [a |] eqn:Ha; [clear H | congruence].
    unfold write_authority_file at 1 3 4. rewrite Ha.
    destruct (authority_file (priv s)) as [f |] eqn:Hf.
    + exists f. cbn [priv emit]. split; [exact Hf |].
      unfold write_authority_file. cbn [authority emit priv]. now rewrite Ha, Hf.
    + eexists. cbn. split; [reflexivity |].
      unfold write_authority_file. cbn. now rewrite Ha.
Qed.

End MoreCallbackFacts.

(** * Instances of the further properties *)

Lemma reserved_numbers_stay_distinct_witness :
  NoDup (XServerLocal.display_numbers
           (XServerLocal.set_display_numbers [1; 0] (Scenario.boot None ":0"))).
Proof.
  apply (reserved_numbers_stay_distinct Scenario.allocations
           (Scenario.boot None ":0")
           (XServerLocal.set_display_numbers [1; 0] (Scenario.boot None ":0"))).
  - apply NoDup_nil_2.
  - reflexivity.
Defined.

Lemma stale_locks_are_ignored_witness :
  XServerLocal.display_number_in_use Scenario.stale_lock [1] 1 = true
  /\ XServerLocal.display_number_in_use Scenario.stale_lock [1] 0 = false.
Proof.
  split.
  - apply (proj1 (stale_locks_are_ignored Scenario.stale_lock [1] 1)).
    apply list_elem_of_singleton. reflexivity.
  - apply (proj2 (stale_locks_are_ignored Scenario.stale_lock [1] 0)).
    + intros H. apply list_elem_of_singleton in H. discriminate H.
    + right. exists ("      4242" +:+ Scenario.LF). split; [reflexivity |].
      right. reflexivity.
Defined.

Lemma release_frees_only_that_number_witness :
  let s := XServerLocal.set_display_numbers [0; 1; 2] (Scenario.boot None ":0") in
  let s' := XServerLocal.x_server_local_release_display_number 1 s in
  (1 ∉ XServerLocal.display_numbers s')
  /\ forall m, m <> 1 ->
       (m ∈ XServerLocal.display_numbers s' <-> m ∈ XServerLocal.display_numbers s).
Proof.
  intros s.
  apply (release_frees_only_that_number 1 s).
  apply (bool_decide_unpack _). reflexivity.
Defined.

Lemma servers_get_distinct_numbers_witness :
  exists s1 s2,
    XServerLocal.x_server_local_init 5 Scenario.quiet (Scenario.boot None ":0")
    = Some s1
    /\ XServerLocal.x_server_local_init 5 Scenario.unreadable_lock s1 = Some s2
    /\ XServerLocal.display_number (XServerLocal.priv s1)
       <> XServerLocal.display_number (XServerLocal.priv s2)
    /\ XServerLocal.display_number (XServerLocal.priv s1)
       ∈ XServerLocal.display_numbers s2
    /\ XServerLocal.display_number (XServerLocal.priv s2)
       ∈ XServerLocal.display_numbers s2.
Proof.
  eexists _, _. split; [reflexivity |]. split; [reflexivity |].
  eapply (servers_get_distinct_numbers 5 Scenario.quiet 5 Scenario.unreadable_lock
            (Scenario.boot None ":0")); reflexivity.
Defined.

Lemma version_probe_is_memoised_witness :
  let s' := snd (XServerLocal.x_server_local_get_version Scenario.quiet
                   (Scenario.boot None ":0")) in
  XServerLocal.x_server_local_get_version Scenario.x_version_fails s'
  = (Some "1.20.11"%string, s')
  /\ XServerLocal.x_server_local_version_compare Scenario.x_version_fails s' 1 17
     = (fst (XServerLocal.x_server_local_version_compare Scenario.quiet s' 1 17),
        s').
Proof.
  apply (version_probe_is_memoised Scenario.quiet (Scenario.boot None ":0")
           "1.20.11" eq_refl Scenario.x_version_fails 1 17).
Defined.

Lemma version_compare_is_lexicographic_witness :
  let s := snd (XServerLocal.x_server_local_get_version Scenario.quiet
                  (Scenario.boot None ":0")) in
  let cmp := fst (XServerLocal.x_server_local_version_compare
                    Scenario.x_version_fails s 1 17) in
  (cmp < 0 <-> XServerLocal.version_major s < 1
               \/ (XServerLocal.version_major s = 1
                   /\ XServerLocal.version_minor s < 17))
  /\ (cmp = 0 <-> XServerLocal.version_major s = 1
                  /\ XServerLocal.version_minor s = 17)
  /\ (0 < cmp <-> 1 < XServerLocal.version_major s
                  \/ (XServerLocal.version_major s = 1
                      /\ 17 < XServerLocal.version_minor s)).
Proof.
  intros s.
  apply (version_compare_is_lexicographic Scenario.x_version_fails s
           "1.20.11" 1 17).
  - reflexivity.
  - change (0 <= 1 < 2 ^ 31). lia.
  - change (0 <= 20 < 2 ^ 31). lia.
  - lia.
  - lia.
Defined.

Lemma version_is_first_banner_line_witness :
  fst (XServerLocal.x_server_local_get_version Scenario.quiet
         (Scenario.boot None ":0")) = Some "1.20.11"%string
  /\ XServerLocal.version
       (snd (XServerLocal.x_server_local_get_version Scenario.quiet
               (Scenario.boot None ":0"))) = Some "1.20.11"%string.
Proof.
  apply (version_is_first_banner_line Scenario.quiet (Scenario.boot None ":0")
           Scenario.x_version_banner [EmptyString] "1.20.11"
           ["X Protocol Version 11, Revision 0"%string; EmptyString]).
  - reflexivity.
  - reflexivity.
  - reflexivity.
  - repeat constructor.
Defined.

Lemma absolute_command_keeps_arguments_witness :
  XServerLocal.get_absolute_command Scenario.quiet ("X" +:+ " " +:+ "-core :1")
  = (Some ("/usr/bin/X" +:+ " " +:+ "-core :1"), [])
  /\ ("X"%string <> EmptyString ->
      XServerLocal.get_absolute_command Scenario.quiet "X"
      = (Some "/usr/bin/X"%string, []))
  /\ XServerLocal.get_absolute_command Scenario.quiet EmptyString
     = (None, [GLib.Critical "g_find_program_in_path" "program != NULL"]).
Proof.
  apply (absolute_command_keeps_arguments Scenario.quiet "X" "-core :1"
           "/usr/bin/X"); reflexivity.
Defined.

Lemma command_starts_with_display_witness :
  let s := Scenario.server Scenario.assembly in
  exists cmd,
    XServerLocal.launched_command
      (snd (XServerLocal.x_server_local_start XServerLocal.x_server_local_class
              Scenario.quiet s)) = Some cmd
    /\ GLib.starts_with
         ("/usr/bin/X" +:+ " :"
            +:+ GLib.fmt_d (GLib.to_gint
                              (XServerLocal.display_number (XServerLocal.priv s))))
         cmd = true.
Proof.
  intros s.
  apply (command_starts_with_display XServerLocal.x_server_local_class
           Scenario.quiet s "X" "/usr/bin/X"); reflexivity.
Defined.

Lemma unknown_version_gets_no_tcp_flag_witness :
  exists cmd,
    XServerLocal.launched_command
      (snd (XServerLocal.x_server_local_start XServerLocal.x_server_local_class
              Scenario.x_version_fails (Scenario.server Scenario.tcp_allowed)))
    = Some cmd
    /\ GLib.contains "-listen tcp" cmd = false
    /\ GLib.contains "-nolisten tcp" cmd = false.
Proof.
  apply (unknown_version_gets_no_tcp_flag XServerLocal.x_server_local_class
           Scenario.x_version_fails (Scenario.server Scenario.tcp_allowed)
           "X" "/usr/bin/X").
  - reflexivity.
  - reflexivity.
  - reflexivity.
  - reflexivity.
  - vm_compute. repeat split.
  - reflexivity.
  - reflexivity.
  - reflexivity.
  - right. exists 1, EmptyString. split; reflexivity.
  - reflexivity.
  - reflexivity.
Defined.

Lemma rejected_start_only_logs_witness :
  let s := Scenario.boot (Some Scenario.cookie) ":0" in
  let r := XServerLocal.x_server_local_start XServerLocal.x_server_local_class
             Scenario.quiet s in
  fst r = false
  /\ (exists c, XServerLocal.trace (snd r)
                = XServerLocal.trace s ++ [XServerLocal.Failed c])
  /\ XServerLocal.display_numbers (snd r) = XServerLocal.display_numbers s
  /\ XServerLocal.x_server_process (XServerLocal.priv (snd r))
     = XServerLocal.x_server_process (XServerLocal.priv s)
  /\ XServerLocal.have_vt_ref (XServerLocal.priv (snd r))
     = XServerLocal.have_vt_ref (XServerLocal.priv s)
  /\ XServerLocal.authority_file (XServerLocal.priv (snd r))
     = XServerLocal.authority_file (XServerLocal.priv s).
Proof.
  intros s.
  apply (rejected_start_only_logs XServerLocal.x_server_local_class
           Scenario.quiet s).
  reflexivity.
Defined.


Lemma started_server_awaits_signal_witness :
  let s := Scenario.server Scenario.assembly in
  let s' := snd (XServerLocal.x_server_local_start
                   XServerLocal.x_server_local_class Scenario.quiet s) in
  XServerLocal.got_signal (XServerLocal.priv s') = false
  /\ XServerLocal.have_vt_ref (XServerLocal.priv s')
     = XServerLocal.have_vt_ref (XServerLocal.priv s)
  /\ XServerLocal.vt (XServerLocal.priv s') = XServerLocal.vt (XServerLocal.priv s)
  /\ XServerLocal.display_numbers s' = XServerLocal.display_numbers s
  /\ exists p q,
       XServerLocal.x_server_process (XServerLocal.priv s') = Some p
       /\ XServerLocal.clear_environment p = true
       /\ XServerLocal.trace s'
          = XServerLocal.trace s ++ q ++ [XServerLocal.ProcessStart p true]
       /\ forallb XServerLocal.housekeeping q = true.
Proof.
  intros s.
  apply (started_server_awaits_signal XServerLocal.x_server_local_class
           Scenario.quiet s).
  reflexivity.
Defined.

Lemma one_process_one_ready_witness :
  let s := Scenario.server Scenario.listen_in_command in
  let s' := XServerLocal.perform_all XServerLocal.x_server_local_class s
              Scenario.busy_life in
  XServerLocal.total XServerLocal.spawn_weight (XServerLocal.trace s')
  <= XServerLocal.total XServerLocal.spawn_weight (XServerLocal.trace s) + 1
  /\ XServerLocal.total XServerLocal.base_start_weight (XServerLocal.trace s')
     <= XServerLocal.total XServerLocal.base_start_weight (XServerLocal.trace s) + 1.
Proof.
  intros s.
  apply (one_process_one_ready XServerLocal.x_server_local_class
           Scenario.busy_life s).
  reflexivity.
Defined.

Lemma second_stopped_only_chains_witness :
  let s1 := XServerLocal.stopped_cb (Scenario.server Scenario.assembly) in
  XServerLocal.trace (XServerLocal.stopped_cb s1)
  = XServerLocal.trace s1 ++ [XServerLocal.BaseStop]
  /\ XServerLocal.priv (XServerLocal.stopped_cb s1) = XServerLocal.priv s1
  /\ XServerLocal.display_numbers (XServerLocal.stopped_cb s1)
     = XServerLocal.display_numbers s1.
Proof.
  apply (second_stopped_only_chains (Scenario.server Scenario.assembly)).
  apply NoDup_singleton.
Defined.

Lemma vt_references_balance_witness :
  let s' := XServerLocal.perform_all XServerLocal.x_server_local_class
              (Scenario.server Scenario.listen_in_command)
              Scenario.busy_life in
  XServerLocal.vt_balanced s'
  /\ forall v,
       XServerLocal.total (XServerLocal.vt_weight v)
         (XServerLocal.trace (XServerLocal.x_server_local_finalize s')) = 0.
Proof.
  apply (vt_references_balance XServerLocal.x_server_local_class
           Scenario.busy_life (Scenario.server Scenario.listen_in_command)).
  intros v. reflexivity.
Defined.

Lemma authority_file_path_is_stable_witness :
  let s := Scenario.server Scenario.assembly in
  exists file,
    XServerLocal.authority_file
      (XServerLocal.priv (XServerLocal.write_authority_file Scenario.quiet s))
    = Some file
    /\ XServerLocal.write_authority_file Scenario.x_version_fails
         (XServerLocal.write_authority_file Scenario.quiet s)
       = XServerLocal.emit (XServerLocal.AuthorityWrite file)
           (XServerLocal.write_authority_file Scenario.quiet s).
Proof.
  intros s.
  apply (proj2 (authority_file_path_is_stable Scenario.quiet
                  Scenario.x_version_fails s)).
  discriminate.
Defined.
